(** * SRGAN training glue (pytorch/model.py): a shallow embedding

    The Python classes [BaseModel] and [SRGANModel] orchestrate calls into
    torch.  The embedding keeps the orchestration as it is written (attribute
    reads and writes, branches, raises, the order of the framework calls) and
    interprets the tensor framework symbolically: a tensor is the expression
    that produced it, network weights are the history of loads and optimizer
    steps that produced them.  Mutable Python objects live in an explicit
    state which every method threads through a state-and-exception monad. *)

From Stdlib Require Import ZArith QArith String Ascii.
From stdpp Require Import gmap strings list fin_maps pretty.

Open Scope string_scope.
Open Scope Z_scope.

(** ** Python exceptions and the method monad *)

Inductive exn :=
| NotImplementedError (msg : string)
| AssertionError (msg : string)
| AttributeError (name : string)
| KeyError (key : string)
| FileNotFoundError (path : string)
| RuntimeError (msg : string)
| ZeroDivisionError (msg : string)
| IndexError (msg : string)
| TypeError (msg : string)
| UnboundLocalError (name : string).

Inductive result (A : Type) :=
| Ok (a : A)
| Raise (e : exn).
Arguments Ok {A} a.
Arguments Raise {A} e.

Definition is_ok {A} (r : result A) : bool :=
  match r with Ok _ => true | Raise _ => false end.

(** ** Symbolic tensors

    [Forward n w training grad x] is the output of network [n] called on [x]
    while its weights were [w], in train or eval mode, with gradient tracking
    on or off.  [Resize n x] is [x] after [x.resize_(n, 1, 1, 1)] and
    [Uniform k x] is [x] after [x.uniform_()], filled by the [k]-th draw
    from the random number generator.  [weights] records how a network's parameters came about and
    [grads] which losses have been backpropagated into them since the last
    [zero_grad]. *)

Inductive torch_device := cpu | cuda.

Inductive net_id := G | D | F.

Inductive criterion := L1Loss | MSELoss.

Definition net_id_eqb (a b : net_id) : bool :=
  match a, b with
  | G, G | D, D | F, F => true
  | _, _ => false
  end.

Inductive tensor :=
| Data (name : string) (batch : nat)
| Num (q : Q)
| Uninit (n : nat)
| Resize (n : nat) (x : tensor)
| Uniform (draw : nat) (x : tensor)
| To (d : torch_device) (x : tensor)
| Detach (x : tensor)
| RequiresGrad (x : tensor)
| Forward (n : net_id) (w : weights) (training grad : bool) (x : tensor)
| Add (x y : tensor)
| Sub (x y : tensor)
| Mul (x y : tensor)
| Crit (c : criterion) (x y : tensor)
| Gan (gan_type : string) (real_label fake_label : Q) (pred : tensor)
      (target_is_real : bool)
| GradPenalty (d : torch_device) (interp interp_crit : tensor)
| Mean (x : tensor)
| Item (x : tensor)
with weights :=
| Initial (tag : string)
| Loaded (path : string) (strict : bool) (w : weights)
| AdamStep (w : weights) (g : grads)
with grads :=
| NoGrad
| Acc (g : grads) (loss : tensor).

(** [x.size(0)]: the batch dimension. *)
Fixpoint size0 (x : tensor) : nat :=
  match x with
  | Data _ b => b
  | Num _ => 0%nat
  | Uninit n => n
  | Resize n _ => n
  | Uniform _ y => size0 y
  | To _ y | Detach y | RequiresGrad y | Forward _ _ _ _ y => size0 y
  | Add y _ | Sub y _ | Mul y _ => size0 y
  | Crit _ _ _ | Gan _ _ _ _ _ | GradPenalty _ _ _ | Mean _ | Item _ => 0%nat
  end.

(** Autograd: does the graph of [x] reach the parameters of network [n]?
    [detach] and a forward pass under [no_grad] cut the graph. *)
Fixpoint reaches (n : net_id) (x : tensor) : bool :=
  match x with
  | Data _ _ | Num _ | Uninit _ | Resize _ _ | Uniform _ _ | Detach _ | Item _ => false
  | To _ y | RequiresGrad y | Mean y => reaches n y
  | Forward n' _ _ grad y => grad && (net_id_eqb n' n || reaches n y)
  | Add y z | Sub y z | Mul y z | Crit _ y z => reaches n y || reaches n z
  | Gan _ _ _ pred _ => reaches n pred
  | GradPenalty _ y z => reaches n y || reaches n z
  end.

(** ** Networks, optimizers, schedulers *)

Record param_info := { requires_grad : bool; numel : Z }.

Record module := {
  m_class : string;                          (* __class__.__name__ *)
  m_repr : string;                           (* str(network) *)
  m_params : list (string * param_info);     (* named_parameters() *)
  m_weights : weights;
  m_grad : grads;
  m_device : torch_device;
  m_training : bool
}.

(** A network object: a module, possibly wrapped in [nn.DataParallel]
    ([inner] is then [network.module]). *)
Record network := { wrapped : bool; inner : module }.

Definition Plain (m : module) : network := {| wrapped := false; inner := m |}.
Definition DataParallel (m : module) : network := {| wrapped := true; inner := m |}.

Definition map_inner (f : module -> module) (n : network) : network :=
  {| wrapped := wrapped n; inner := f (inner n) |}.

Definition isinstance_DataParallel (n : network) : bool := wrapped n.

Definition class_name (n : network) : string :=
  if wrapped n then "DataParallel" else m_class (inner n).

Definition with_weights (w : weights) (m : module) : module :=
  {| m_class := m_class m; m_repr := m_repr m; m_params := m_params m;
     m_weights := w; m_grad := m_grad m; m_device := m_device m;
     m_training := m_training m |}.

Definition with_grad (g : grads) (m : module) : module :=
  {| m_class := m_class m; m_repr := m_repr m; m_params := m_params m;
     m_weights := m_weights m; m_grad := g; m_device := m_device m;
     m_training := m_training m |}.

Definition with_device (d : torch_device) (m : module) : module :=
  {| m_class := m_class m; m_repr := m_repr m; m_params := m_params m;
     m_weights := m_weights m; m_grad := m_grad m; m_device := d;
     m_training := m_training m |}.

Definition with_training (b : bool) (m : module) : module :=
  {| m_class := m_class m; m_repr := m_repr m; m_params := m_params m;
     m_weights := m_weights m; m_grad := m_grad m; m_device := m_device m;
     m_training := b |}.

(** [network.to(device)], [network.train()], [network.eval()]. *)
Definition net_to (d : torch_device) : network -> network := map_inner (with_device d).
Definition net_train : network -> network := map_inner (with_training true).
Definition net_eval : network -> network := map_inner (with_training false).

Definition trainable (m : module) : bool :=
  existsb (fun kv => requires_grad (snd kv)) (m_params m).

(** One entry of a [state_dict()]: parameter [p_name] of weights [p_of],
    stored on [p_device]. *)
Record ptensor := { p_of : weights; p_name : string; p_device : torch_device }.

Definition ptensor_cpu (p : ptensor) : ptensor :=
  {| p_of := p_of p; p_name := p_name p; p_device := cpu |}.

(** [optimizer.state_dict()]: hyper-parameters of the parameter group and
    the running state (step count, gradients seen so far). *)
Record optim_state := {
  os_lr : Q;
  os_weight_decay : Q;
  os_betas : Q * Q;
  os_steps : nat;
  os_seen : list grads
}.

Record optimizer := {
  o_net : net_id;               (* whose parameters it holds *)
  o_params : list string;       (* which of them *)
  o_state : optim_state
}.

Record sched_state := {
  ss_milestones : list Z;
  ss_gamma : Q;
  ss_last_epoch : Z
}.

(** A scheduler refers to its optimizer by reference (index in the heap). *)
Record scheduler := { s_optimizer : nat; s_state : sched_state }.

Record GANLoss := { gl_type : string; gl_real : Q; gl_fake : Q }.
Record GradientPenaltyLoss := { gp_device : torch_device }.

(** ** Configuration: the nested [opt] mapping *)

Module Opt.
Record train_opt := {
  pixel_weight : Q;
  pixel_criterion : string;
  feature_weight : Q;
  feature_criterion : string;
  gan_type : string;
  gan_weight : Q;
  D_update_ratio : option Z;      (* None, 0 or a number *)
  D_init_iters : option Z;
  gp_weigth : Q;
  weight_decay_G : option Q;
  lr_G : Q;
  beta1_G : Q;
  weight_decay_D : option Q;
  lr_D : Q;
  beta1_D : Q;
  lr_scheme : string;
  lr_steps : list Z;
  lr_gamma : Q
}.

Record path_opt := {
  models : string;
  training_state : string;
  pretrain_model_G : option string;
  pretrain_model_D : option string
}.

Record config := {
  gpu_ids : option (list Z);
  is_train : bool;
  train : option train_opt;       (* opt["train"], KeyError when absent *)
  path : path_opt
}.
End Opt.

(** ** Python helpers *)

Fixpoint endswith_slash (s : string) : bool :=
  match s with
  | EmptyString => false
  | String c EmptyString => Ascii.eqb c "/"
  | String _ rest => endswith_slash rest
  end.

(** posixpath.join with two components. *)
Definition os_path_join (a b : string) : string :=
  if String.prefix "/" b then b
  else if String.eqb a "" || endswith_slash a then a +:+ b
  else a +:+ "/" +:+ b.

(** ["{:,d}".format(n)]: decimal with a comma every three digits. *)
Fixpoint group3 (rev_digits : list ascii) (k : nat) : list ascii :=
  match rev_digits with
  | [] => []
  | c :: rest =>
      if Nat.eqb k 3 then "," %char :: c :: group3 rest 1
      else c :: group3 rest (S k)
  end.

Definition format_comma_d (n : Z) : string :=
  let digits := string_of_list_ascii
    (rev (group3 (rev (list_ascii_of_string (pretty (Z.abs n)))) 0)) in
  if n <? 0 then "-" +:+ digits else digits.

(** Truthiness of an optional number: [x if x else dflt]. *)
Definition or_default (x : option Z) (dflt : Z) : Z :=
  match x with
  | Some v => if v =? 0 then dflt else v
  | None => dflt
  end.

Definition or_defaultQ (x : option Q) (dflt : Q) : Q :=
  match x with
  | Some v => if Qeq_bool v 0 then dflt else v
  | None => dflt
  end.

(** [w > 0] on a configured weight. *)
Definition Qpositive (w : Q) : bool := negb (Qle_bool w 0).

(** [d[k] = v] on an OrderedDict: an existing key keeps its position. *)
Fixpoint dict_set {V} (k : string) (v : V) (d : list (string * V)) : list (string * V) :=
  match d with
  | [] => [(k, v)]
  | (k', v') :: rest =>
      if String.eqb k' k then (k, v) :: rest else (k', v') :: dict_set k v rest
  end.

Fixpoint dict_get {V} (k : string) (d : list (string * V)) : option V :=
  match d with
  | [] => None
  | (k', v') :: rest => if String.eqb k' k then Some v' else dict_get k rest
  end.

Definition dict_keys {V} (d : list (string * V)) : list string := map fst d.

(** ** The object and the world around it

    [SRGANModel] holds the attributes of [self]; an attribute that has not
    been assigned yet is [None] and reading it raises [AttributeError].  The
    first five fields are those set by [BaseModel.__init__].  Optimizer
    objects are shared (by [self.optimizers], [self.optimizer_G/D] and the
    schedulers), so they live in the [heap] and are named by their index. *)

Record SRGANModel := {
  opt : Opt.config;
  device : torch_device;
  is_train : bool;
  schedulers : list scheduler;
  optimizers : list nat;
  netG : option network;
  netD : option network;
  netF : option network;
  cri_pix : option (option criterion);
  l_pix_w : option Q;
  cri_fea : option (option criterion);
  l_fea_w : option Q;
  cri_gan : option GANLoss;
  l_gan_w : option Q;
  D_update_ratio : option Z;
  D_init_iters : option Z;
  random_pt : option tensor;
  cri_gp : option GradientPenaltyLoss;
  l_gp_w : option Q;
  optimizer_G : option nat;
  optimizer_D : option nat;
  log_dict : option (list (string * tensor));
  var_L : option tensor;
  var_H : option tensor;
  var_ref : option tensor;
  fake_H : option tensor
}.

Record World := {
  files : gmap string (list (string * ptensor));
  logged : list (string * string);
  rng : nat;
  grad_enabled : bool;
  heap : list optimizer
}.

Record state := { self : SRGANModel; world : World }.

Definition set_schedulers (v : list scheduler) (x : SRGANModel) : SRGANModel :=
  {| opt := opt x; device := device x; is_train := is_train x;
     schedulers := v; optimizers := optimizers x; netG := netG x;
     netD := netD x; netF := netF x; cri_pix := cri_pix x;
     l_pix_w := l_pix_w x; cri_fea := cri_fea x; l_fea_w := l_fea_w x;
     cri_gan := cri_gan x; l_gan_w := l_gan_w x;
     D_update_ratio := D_update_ratio x;
     D_init_iters := D_init_iters x; random_pt := random_pt x;
     cri_gp := cri_gp x; l_gp_w := l_gp_w x;
     optimizer_G := optimizer_G x; optimizer_D := optimizer_D x;
     log_dict := log_dict x; var_L := var_L x; var_H := var_H x;
     var_ref := var_ref x; fake_H := fake_H x |}.

Definition set_optimizers (v : list nat) (x : SRGANModel) : SRGANModel :=
  {| opt := opt x; device := device x; is_train := is_train x;
     schedulers := schedulers x; optimizers := v; netG := netG x;
     netD := netD x; netF := netF x; cri_pix := cri_pix x;
     l_pix_w := l_pix_w x; cri_fea := cri_fea x; l_fea_w := l_fea_w x;
     cri_gan := cri_gan x; l_gan_w := l_gan_w x;
     D_update_ratio := D_update_ratio x;
     D_init_iters := D_init_iters x; random_pt := random_pt x;
     cri_gp := cri_gp x; l_gp_w := l_gp_w x;
     optimizer_G := optimizer_G x; optimizer_D := optimizer_D x;
     log_dict := log_dict x; var_L := var_L x; var_H := var_H x;
     var_ref := var_ref x; fake_H := fake_H x |}.

Definition set_netG (v : option network) (x : SRGANModel) : SRGANModel :=
  {| opt := opt x; device := device x; is_train := is_train x;
     schedulers := schedulers x; optimizers := optimizers x; netG := v;
     netD := netD x; netF := netF x; cri_pix := cri_pix x;
     l_pix_w := l_pix_w x; cri_fea := cri_fea x; l_fea_w := l_fea_w x;
     cri_gan := cri_gan x; l_gan_w := l_gan_w x;
     D_update_ratio := D_update_ratio x;
     D_init_iters := D_init_iters x; random_pt := random_pt x;
     cri_gp := cri_gp x; l_gp_w := l_gp_w x;
     optimizer_G := optimizer_G x; optimizer_D := optimizer_D x;
     log_dict := log_dict x; var_L := var_L x; var_H := var_H x;
     var_ref := var_ref x; fake_H := fake_H x |}.

Definition set_netD (v : option network) (x : SRGANModel) : SRGANModel :=
  {| opt := opt x; device := device x; is_train := is_train x;
     schedulers := schedulers x; optimizers := optimizers x;
     netG := netG x; netD := v; netF := netF x; cri_pix := cri_pix x;
     l_pix_w := l_pix_w x; cri_fea := cri_fea x; l_fea_w := l_fea_w x;
     cri_gan := cri_gan x; l_gan_w := l_gan_w x;
     D_update_ratio := D_update_ratio x;
     D_init_iters := D_init_iters x; random_pt := random_pt x;
     cri_gp := cri_gp x; l_gp_w := l_gp_w x;
     optimizer_G := optimizer_G x; optimizer_D := optimizer_D x;
     log_dict := log_dict x; var_L := var_L x; var_H := var_H x;
     var_ref := var_ref x; fake_H := fake_H x |}.

Definition set_netF (v : option network) (x : SRGANModel) : SRGANModel :=
  {| opt := opt x; device := device x; is_train := is_train x;
     schedulers := schedulers x; optimizers := optimizers x;
     netG := netG x; netD := netD x; netF := v; cri_pix := cri_pix x;
     l_pix_w := l_pix_w x; cri_fea := cri_fea x; l_fea_w := l_fea_w x;
     cri_gan := cri_gan x; l_gan_w := l_gan_w x;
     D_update_ratio := D_update_ratio x;
     D_init_iters := D_init_iters x; random_pt := random_pt x;
     cri_gp := cri_gp x; l_gp_w := l_gp_w x;
     optimizer_G := optimizer_G x; optimizer_D := optimizer_D x;
     log_dict := log_dict x; var_L := var_L x; var_H := var_H x;
     var_ref := var_ref x; fake_H := fake_H x |}.

Definition set_cri_pix (v : option (option criterion)) (x : SRGANModel) : SRGANModel :=
  {| opt := opt x; device := device x; is_train := is_train x;
     schedulers := schedulers x; optimizers := optimizers x;
     netG := netG x; netD := netD x; netF := netF x; cri_pix := v;
     l_pix_w := l_pix_w x; cri_fea := cri_fea x; l_fea_w := l_fea_w x;
     cri_gan := cri_gan x; l_gan_w := l_gan_w x;
     D_update_ratio := D_update_ratio x;
     D_init_iters := D_init_iters x; random_pt := random_pt x;
     cri_gp := cri_gp x; l_gp_w := l_gp_w x;
     optimizer_G := optimizer_G x; optimizer_D := optimizer_D x;
     log_dict := log_dict x; var_L := var_L x; var_H := var_H x;
     var_ref := var_ref x; fake_H := fake_H x |}.

Definition set_l_pix_w (v : option Q) (x : SRGANModel) : SRGANModel :=
  {| opt := opt x; device := device x; is_train := is_train x;
     schedulers := schedulers x; optimizers := optimizers x;
     netG := netG x; netD := netD x; netF := netF x;
     cri_pix := cri_pix x; l_pix_w := v; cri_fea := cri_fea x;
     l_fea_w := l_fea_w x; cri_gan := cri_gan x; l_gan_w := l_gan_w x;
     D_update_ratio := D_update_ratio x;
     D_init_iters := D_init_iters x; random_pt := random_pt x;
     cri_gp := cri_gp x; l_gp_w := l_gp_w x;
     optimizer_G := optimizer_G x; optimizer_D := optimizer_D x;
     log_dict := log_dict x; var_L := var_L x; var_H := var_H x;
     var_ref := var_ref x; fake_H := fake_H x |}.

Definition set_cri_fea (v : option (option criterion)) (x : SRGANModel) : SRGANModel :=
  {| opt := opt x; device := device x; is_train := is_train x;
     schedulers := schedulers x; optimizers := optimizers x;
     netG := netG x; netD := netD x; netF := netF x;
     cri_pix := cri_pix x; l_pix_w := l_pix_w x; cri_fea := v;
     l_fea_w := l_fea_w x; cri_gan := cri_gan x; l_gan_w := l_gan_w x;
     D_update_ratio := D_update_ratio x;
     D_init_iters := D_init_iters x; random_pt := random_pt x;
     cri_gp := cri_gp x; l_gp_w := l_gp_w x;
     optimizer_G := optimizer_G x; optimizer_D := optimizer_D x;
     log_dict := log_dict x; var_L := var_L x; var_H := var_H x;
     var_ref := var_ref x; fake_H := fake_H x |}.

Definition set_l_fea_w (v : option Q) (x : SRGANModel) : SRGANModel :=
  {| opt := opt x; device := device x; is_train := is_train x;
     schedulers := schedulers x; optimizers := optimizers x;
     netG := netG x; netD := netD x; netF := netF x;
     cri_pix := cri_pix x; l_pix_w := l_pix_w x; cri_fea := cri_fea x;
     l_fea_w := v; cri_gan := cri_gan x; l_gan_w := l_gan_w x;
     D_update_ratio := D_update_ratio x;
     D_init_iters := D_init_iters x; random_pt := random_pt x;
     cri_gp := cri_gp x; l_gp_w := l_gp_w x;
     optimizer_G := optimizer_G x; optimizer_D := optimizer_D x;
     log_dict := log_dict x; var_L := var_L x; var_H := var_H x;
     var_ref := var_ref x; fake_H := fake_H x |}.

Definition set_cri_gan (v : option GANLoss) (x : SRGANModel) : SRGANModel :=
  {| opt := opt x; device := device x; is_train := is_train x;
     schedulers := schedulers x; optimizers := optimizers x;
     netG := netG x; netD := netD x; netF := netF x;
     cri_pix := cri_pix x; l_pix_w := l_pix_w x; cri_fea := cri_fea x;
     l_fea_w := l_fea_w x; cri_gan := v; l_gan_w := l_gan_w x;
     D_update_ratio := D_update_ratio x;
     D_init_iters := D_init_iters x; random_pt := random_pt x;
     cri_gp := cri_gp x; l_gp_w := l_gp_w x;
     optimizer_G := optimizer_G x; optimizer_D := optimizer_D x;
     log_dict := log_dict x; var_L := var_L x; var_H := var_H x;
     var_ref := var_ref x; fake_H := fake_H x |}.

Definition set_l_gan_w (v : option Q) (x : SRGANModel) : SRGANModel :=
  {| opt := opt x; device := device x; is_train := is_train x;
     schedulers := schedulers x; optimizers := optimizers x;
     netG := netG x; netD := netD x; netF := netF x;
     cri_pix := cri_pix x; l_pix_w := l_pix_w x; cri_fea := cri_fea x;
     l_fea_w := l_fea_w x; cri_gan := cri_gan x; l_gan_w := v;
     D_update_ratio := D_update_ratio x;
     D_init_iters := D_init_iters x; random_pt := random_pt x;
     cri_gp := cri_gp x; l_gp_w := l_gp_w x;
     optimizer_G := optimizer_G x; optimizer_D := optimizer_D x;
     log_dict := log_dict x; var_L := var_L x; var_H := var_H x;
     var_ref := var_ref x; fake_H := fake_H x |}.

Definition set_D_update_ratio (v : option Z) (x : SRGANModel) : SRGANModel :=
  {| opt := opt x; device := device x; is_train := is_train x;
     schedulers := schedulers x; optimizers := optimizers x;
     netG := netG x; netD := netD x; netF := netF x;
     cri_pix := cri_pix x; l_pix_w := l_pix_w x; cri_fea := cri_fea x;
     l_fea_w := l_fea_w x; cri_gan := cri_gan x; l_gan_w := l_gan_w x;
     D_update_ratio := v; D_init_iters := D_init_iters x;
     random_pt := random_pt x; cri_gp := cri_gp x; l_gp_w := l_gp_w x;
     optimizer_G := optimizer_G x; optimizer_D := optimizer_D x;
     log_dict := log_dict x; var_L := var_L x; var_H := var_H x;
     var_ref := var_ref x; fake_H := fake_H x |}.

Definition set_D_init_iters (v : option Z) (x : SRGANModel) : SRGANModel :=
  {| opt := opt x; device := device x; is_train := is_train x;
     schedulers := schedulers x; optimizers := optimizers x;
     netG := netG x; netD := netD x; netF := netF x;
     cri_pix := cri_pix x; l_pix_w := l_pix_w x; cri_fea := cri_fea x;
     l_fea_w := l_fea_w x; cri_gan := cri_gan x; l_gan_w := l_gan_w x;
     D_update_ratio := D_update_ratio x; D_init_iters := v;
     random_pt := random_pt x; cri_gp := cri_gp x; l_gp_w := l_gp_w x;
     optimizer_G := optimizer_G x; optimizer_D := optimizer_D x;
     log_dict := log_dict x; var_L := var_L x; var_H := var_H x;
     var_ref := var_ref x; fake_H := fake_H x |}.

Definition set_random_pt (v : option tensor) (x : SRGANModel) : SRGANModel :=
  {| opt := opt x; device := device x; is_train := is_train x;
     schedulers := schedulers x; optimizers := optimizers x;
     netG := netG x; netD := netD x; netF := netF x;
     cri_pix := cri_pix x; l_pix_w := l_pix_w x; cri_fea := cri_fea x;
     l_fea_w := l_fea_w x; cri_gan := cri_gan x; l_gan_w := l_gan_w x;
     D_update_ratio := D_update_ratio x;
     D_init_iters := D_init_iters x; random_pt := v;
     cri_gp := cri_gp x; l_gp_w := l_gp_w x;
     optimizer_G := optimizer_G x; optimizer_D := optimizer_D x;
     log_dict := log_dict x; var_L := var_L x; var_H := var_H x;
     var_ref := var_ref x; fake_H := fake_H x |}.

Definition set_cri_gp (v : option GradientPenaltyLoss) (x : SRGANModel) : SRGANModel :=
  {| opt := opt x; device := device x; is_train := is_train x;
     schedulers := schedulers x; optimizers := optimizers x;
     netG := netG x; netD := netD x; netF := netF x;
     cri_pix := cri_pix x; l_pix_w := l_pix_w x; cri_fea := cri_fea x;
     l_fea_w := l_fea_w x; cri_gan := cri_gan x; l_gan_w := l_gan_w x;
     D_update_ratio := D_update_ratio x;
     D_init_iters := D_init_iters x; random_pt := random_pt x;
     cri_gp := v; l_gp_w := l_gp_w x; optimizer_G := optimizer_G x;
     optimizer_D := optimizer_D x; log_dict := log_dict x;
     var_L := var_L x; var_H := var_H x; var_ref := var_ref x;
     fake_H := fake_H x |}.

Definition set_l_gp_w (v : option Q) (x : SRGANModel) : SRGANModel :=
  {| opt := opt x; device := device x; is_train := is_train x;
     schedulers := schedulers x; optimizers := optimizers x;
     netG := netG x; netD := netD x; netF := netF x;
     cri_pix := cri_pix x; l_pix_w := l_pix_w x; cri_fea := cri_fea x;
     l_fea_w := l_fea_w x; cri_gan := cri_gan x; l_gan_w := l_gan_w x;
     D_update_ratio := D_update_ratio x;
     D_init_iters := D_init_iters x; random_pt := random_pt x;
     cri_gp := cri_gp x; l_gp_w := v; optimizer_G := optimizer_G x;
     optimizer_D := optimizer_D x; log_dict := log_dict x;
     var_L := var_L x; var_H := var_H x; var_ref := var_ref x;
     fake_H := fake_H x |}.

Definition set_optimizer_G (v : option nat) (x : SRGANModel) : SRGANModel :=
  {| opt := opt x; device := device x; is_train := is_train x;
     schedulers := schedulers x; optimizers := optimizers x;
     netG := netG x; netD := netD x; netF := netF x;
     cri_pix := cri_pix x; l_pix_w := l_pix_w x; cri_fea := cri_fea x;
     l_fea_w := l_fea_w x; cri_gan := cri_gan x; l_gan_w := l_gan_w x;
     D_update_ratio := D_update_ratio x;
     D_init_iters := D_init_iters x; random_pt := random_pt x;
     cri_gp := cri_gp x; l_gp_w := l_gp_w x; optimizer_G := v;
     optimizer_D := optimizer_D x; log_dict := log_dict x;
     var_L := var_L x; var_H := var_H x; var_ref := var_ref x;
     fake_H := fake_H x |}.

Definition set_optimizer_D (v : option nat) (x : SRGANModel) : SRGANModel :=
  {| opt := opt x; device := device x; is_train := is_train x;
     schedulers := schedulers x; optimizers := optimizers x;
     netG := netG x; netD := netD x; netF := netF x;
     cri_pix := cri_pix x; l_pix_w := l_pix_w x; cri_fea := cri_fea x;
     l_fea_w := l_fea_w x; cri_gan := cri_gan x; l_gan_w := l_gan_w x;
     D_update_ratio := D_update_ratio x;
     D_init_iters := D_init_iters x; random_pt := random_pt x;
     cri_gp := cri_gp x; l_gp_w := l_gp_w x;
     optimizer_G := optimizer_G x; optimizer_D := v;
     log_dict := log_dict x; var_L := var_L x; var_H := var_H x;
     var_ref := var_ref x; fake_H := fake_H x |}.

Definition set_log_dict (v : option (list (string * tensor))) (x : SRGANModel) : SRGANModel :=
  {| opt := opt x; device := device x; is_train := is_train x;
     schedulers := schedulers x; optimizers := optimizers x;
     netG := netG x; netD := netD x; netF := netF x;
     cri_pix := cri_pix x; l_pix_w := l_pix_w x; cri_fea := cri_fea x;
     l_fea_w := l_fea_w x; cri_gan := cri_gan x; l_gan_w := l_gan_w x;
     D_update_ratio := D_update_ratio x;
     D_init_iters := D_init_iters x; random_pt := random_pt x;
     cri_gp := cri_gp x; l_gp_w := l_gp_w x;
     optimizer_G := optimizer_G x; optimizer_D := optimizer_D x;
     log_dict := v; var_L := var_L x; var_H := var_H x;
     var_ref := var_ref x; fake_H := fake_H x |}.

Definition set_var_L (v : option tensor) (x : SRGANModel) : SRGANModel :=
  {| opt := opt x; device := device x; is_train := is_train x;
     schedulers := schedulers x; optimizers := optimizers x;
     netG := netG x; netD := netD x; netF := netF x;
     cri_pix := cri_pix x; l_pix_w := l_pix_w x; cri_fea := cri_fea x;
     l_fea_w := l_fea_w x; cri_gan := cri_gan x; l_gan_w := l_gan_w x;
     D_update_ratio := D_update_ratio x;
     D_init_iters := D_init_iters x; random_pt := random_pt x;
     cri_gp := cri_gp x; l_gp_w := l_gp_w x;
     optimizer_G := optimizer_G x; optimizer_D := optimizer_D x;
     log_dict := log_dict x; var_L := v; var_H := var_H x;
     var_ref := var_ref x; fake_H := fake_H x |}.

Definition set_var_H (v : option tensor) (x : SRGANModel) : SRGANModel :=
  {| opt := opt x; device := device x; is_train := is_train x;
     schedulers := schedulers x; optimizers := optimizers x;
     netG := netG x; netD := netD x; netF := netF x;
     cri_pix := cri_pix x; l_pix_w := l_pix_w x; cri_fea := cri_fea x;
     l_fea_w := l_fea_w x; cri_gan := cri_gan x; l_gan_w := l_gan_w x;
     D_update_ratio := D_update_ratio x;
     D_init_iters := D_init_iters x; random_pt := random_pt x;
     cri_gp := cri_gp x; l_gp_w := l_gp_w x;
     optimizer_G := optimizer_G x; optimizer_D := optimizer_D x;
     log_dict := log_dict x; var_L := var_L x; var_H := v;
     var_ref := var_ref x; fake_H := fake_H x |}.

Definition set_var_ref (v : option tensor) (x : SRGANModel) : SRGANModel :=
  {| opt := opt x; device := device x; is_train := is_train x;
     schedulers := schedulers x; optimizers := optimizers x;
     netG := netG x; netD := netD x; netF := netF x;
     cri_pix := cri_pix x; l_pix_w := l_pix_w x; cri_fea := cri_fea x;
     l_fea_w := l_fea_w x; cri_gan := cri_gan x; l_gan_w := l_gan_w x;
     D_update_ratio := D_update_ratio x;
     D_init_iters := D_init_iters x; random_pt := random_pt x;
     cri_gp := cri_gp x; l_gp_w := l_gp_w x;
     optimizer_G := optimizer_G x; optimizer_D := optimizer_D x;
     log_dict := log_dict x; var_L := var_L x; var_H := var_H x;
     var_ref := v; fake_H := fake_H x |}.

Definition set_fake_H (v : option tensor) (x : SRGANModel) : SRGANModel :=
  {| opt := opt x; device := device x; is_train := is_train x;
     schedulers := schedulers x; optimizers := optimizers x;
     netG := netG x; netD := netD x; netF := netF x;
     cri_pix := cri_pix x; l_pix_w := l_pix_w x; cri_fea := cri_fea x;
     l_fea_w := l_fea_w x; cri_gan := cri_gan x; l_gan_w := l_gan_w x;
     D_update_ratio := D_update_ratio x;
     D_init_iters := D_init_iters x; random_pt := random_pt x;
     cri_gp := cri_gp x; l_gp_w := l_gp_w x;
     optimizer_G := optimizer_G x; optimizer_D := optimizer_D x;
     log_dict := log_dict x; var_L := var_L x; var_H := var_H x;
     var_ref := var_ref x; fake_H := v |}.

Definition set_files (v : gmap string (list (string * ptensor))) (x : World) : World :=
  {| files := v; logged := logged x; rng := rng x;
     grad_enabled := grad_enabled x; heap := heap x |}.

Definition set_logged (v : list (string * string)) (x : World) : World :=
  {| files := files x; logged := v; rng := rng x;
     grad_enabled := grad_enabled x; heap := heap x |}.

Definition set_rng (v : nat) (x : World) : World :=
  {| files := files x; logged := logged x; rng := v;
     grad_enabled := grad_enabled x; heap := heap x |}.

Definition set_grad_enabled (v : bool) (x : World) : World :=
  {| files := files x; logged := logged x; rng := rng x; grad_enabled := v;
     heap := heap x |}.

Definition set_heap (v : list optimizer) (x : World) : World :=
  {| files := files x; logged := logged x; rng := rng x;
     grad_enabled := grad_enabled x; heap := v |}.

(** ** The method monad: state passing with Python exceptions

    A method maps the state before the call to its outcome and the state
    after it; what was mutated before a [raise] stays mutated. *)

Definition M (A : Type) : Type := state -> result A * state.

#[global] Instance M_ret : MRet M := fun A a s => (Ok a, s).

#[global] Instance M_bind : MBind M := fun A B f m s =>
  match m s with
  | (Ok a, s') => f a s'
  | (Raise e, s') => (Raise e, s')
  end.

Definition raise {A} (e : exn) : M A := fun s => (Raise e, s).

Definition get_self : M SRGANModel := fun s => (Ok (self s), s).

Definition get_world : M World := fun s => (Ok (world s), s).

Definition modify_self (f : SRGANModel -> SRGANModel) : M unit :=
  fun s => (Ok tt, {| self := f (self s); world := world s |}).

Definition modify_world (f : World -> World) : M unit :=
  fun s => (Ok tt, {| self := self s; world := f (world s) |}).

(** [self.name]: AttributeError when the attribute was never assigned. *)
Definition attr {A} (name : string) (proj : SRGANModel -> option A) : M A :=
  fun s => match proj (self s) with
           | Some a => (Ok a, s)
           | None => (Raise (AttributeError name), s)
           end.

(** [assert cond, msg] *)
Definition assert (cond : bool) (msg : string) : M unit :=
  if cond then mret tt else raise (AssertionError msg).

(** [for x in l: body x] *)
Fixpoint for_each {A} (l : list A) (body : A -> M unit) : M unit :=
  match l with
  | [] => mret tt
  | x :: rest => body x ;; for_each rest body
  end.

(** [for i, x in enumerate(l): body i x], counting from [i]. *)
Fixpoint for_enumerate {A} (i : nat) (l : list A) (body : nat -> A -> M unit) : M unit :=
  match l with
  | [] => mret tt
  | x :: rest => body i x ;; for_enumerate (S i) rest body
  end.

Definition logger_info (msg : string) : M unit :=
  modify_world (fun w => set_logged (logged w ++ [("INFO", msg)]) w).

Definition logger_warning (msg : string) : M unit :=
  modify_world (fun w => set_logged (logged w ++ [("WARNING", msg)]) w).

(** ** Framework calls (torch), interpreted symbolically *)

Definition net_attr (n : net_id) : string :=
  match n with G => "netG" | D => "netD" | F => "netF" end.

Definition get_net (n : net_id) (m : SRGANModel) : option network :=
  match n with G => netG m | D => netD m | F => netF m end.

Definition set_net (n : net_id) (v : network) (m : SRGANModel) : SRGANModel :=
  match n with
  | G => set_netG (Some v) m
  | D => set_netD (Some v) m
  | F => set_netF (Some v) m
  end.

(** In-place change of the network object held in a slot. *)
Definition update_net (n : net_id) (f : module -> module) (m : SRGANModel) : SRGANModel :=
  match get_net n m with
  | Some net => set_net n (map_inner f net) m
  | None => m
  end.

(** [net(x)]: the forward pass reads the weights, the mode of the module
    and the global gradient mode. *)
Definition call (n : net_id) (net : network) (x : tensor) : M tensor :=
  w ← get_world;
  mret (Forward n (m_weights (inner net)) (m_training (inner net)) (grad_enabled w) x).

(** [with torch.no_grad(): body]: the previous mode is restored on exit,
    also when [body] raises. *)
Definition no_grad {A} (body : M A) : M A := fun s =>
  let prev := grad_enabled (world s) in
  let '(r, s') := body {| self := self s; world := set_grad_enabled false (world s) |} in
  (r, {| self := self s'; world := set_grad_enabled prev (world s') |}).

(** [loss.backward()]: every network whose trainable parameters the graph of
    [loss] reaches accumulates the gradient of [loss]. *)
Definition backward_into (loss : tensor) (n : net_id) (m : SRGANModel) : SRGANModel :=
  match get_net n m with
  | Some net =>
      if reaches n loss && trainable (inner net)
      then set_net n (map_inner (fun md => with_grad (Acc (m_grad md) loss) md) net) m
      else m
  | None => m
  end.

Definition backward (loss : tensor) : M unit :=
  modify_self (fun m => backward_into loss F (backward_into loss D (backward_into loss G m))).

Definition deref (r : nat) : M optimizer := fun s =>
  match heap (world s) !! r with
  | Some o => (Ok o, s)
  | None => (Raise (RuntimeError "dangling optimizer reference"), s)
  end.

(** [optimizer.zero_grad()] *)
Definition zero_grad (r : nat) : M unit :=
  o ← deref r;
  modify_self (update_net (o_net o) (with_grad NoGrad)).

Definition stepped (g : grads) (o : optimizer) : optimizer :=
  {| o_net := o_net o; o_params := o_params o;
     o_state := {| os_lr := os_lr (o_state o);
                   os_weight_decay := os_weight_decay (o_state o);
                   os_betas := os_betas (o_state o);
                   os_steps := S (os_steps (o_state o));
                   os_seen := os_seen (o_state o) ++ [g] |} |}.

(** [optimizer.step()]: the parameters it holds move along the gradient
    accumulated in them; the optimizer's running state advances. *)
Definition optimizer_step (r : nat) : M unit :=
  o ← deref r;
  self ← get_self;
  let g := match get_net (o_net o) self with
           | Some net => m_grad (inner net)
           | None => NoGrad
           end in
  modify_self (update_net (o_net o) (fun md => with_weights (AdamStep (m_weights md) g) md)) ;;
  modify_world (fun w => set_heap (alter (stepped g) r (heap w)) w).

(** [torch.optim.Adam(params, lr=.., weight_decay=.., betas=..)]: allocates
    the optimizer object and returns the reference to it. *)
Definition Adam (n : net_id) (params : list string) (lr wd : Q) (betas : Q * Q) : M nat :=
  w ← get_world;
  let r := length (heap w) in
  modify_world (fun w => set_heap (heap w ++ [{| o_net := n; o_params := params;
    o_state := {| os_lr := lr; os_weight_decay := wd; os_betas := betas;
                  os_steps := 0; os_seen := [] |} |}]) w) ;;
  mret r.

Definition MultiStepLR (optimizer : nat) (milestones : list Z) (gamma : Q) : scheduler :=
  {| s_optimizer := optimizer;
     s_state := {| ss_milestones := milestones; ss_gamma := gamma; ss_last_epoch := -1 |} |}.

Definition optimizer_load_state_dict (sd : optim_state) (o : optimizer) : optimizer :=
  {| o_net := o_net o; o_params := o_params o; o_state := sd |}.

Definition scheduler_load_state_dict (sd : sched_state) (s : scheduler) : scheduler :=
  {| s_optimizer := s_optimizer s; s_state := sd |}.

(** [torch.save(obj, path)] and [torch.load(path)] on the file system. *)
Definition torch_save (obj : list (string * ptensor)) (path : string) : M unit :=
  modify_world (fun w => set_files (<[path := obj]> (files w)) w).

Definition read_file (w : World) (path : string) : option (list (string * ptensor)) :=
  files w !! path.
Arguments read_file : simpl never.

Definition torch_load (path : string) : M (list (string * ptensor)) := fun s =>
  match read_file (world s) path with
  | Some obj => (Ok obj, s)
  | None => (Raise (FileNotFoundError path), s)
  end.

(** [network.state_dict()]: a fresh ordered dict of the parameters. *)
Definition network_state_dict (m : module) : list (string * ptensor) :=
  fold_left (fun d kv => dict_set (fst kv)
               {| p_of := m_weights m; p_name := fst kv; p_device := m_device m |} d)
            (m_params m) [].

(** ** BaseModel *)

(** [BaseModel.__init__]: the object with its five base attributes. *)
Definition BaseModel_init (opt : Opt.config) : SRGANModel :=
  {| opt := opt;
     device := match Opt.gpu_ids opt with Some _ => cuda | None => cpu end;
     is_train := Opt.is_train opt;
     schedulers := [];
     optimizers := [];
     netG := None; netD := None; netF := None;
     cri_pix := None; l_pix_w := None; cri_fea := None; l_fea_w := None;
     cri_gan := None; l_gan_w := None;
     D_update_ratio := None; D_init_iters := None;
     random_pt := None; cri_gp := None; l_gp_w := None;
     optimizer_G := None; optimizer_D := None;
     log_dict := None;
     var_L := None; var_H := None; var_ref := None; fake_H := None |}.

Definition get_network_description (network : network) : string * Z :=
  let network :=
    if isinstance_DataParallel network then Plain (inner network) else network in
  let s := m_repr (inner network) in
  let n := fold_right Z.add 0 (map (fun kv => numel (snd kv)) (m_params (inner network))) in
  (s, n).

Definition save_network (network : network) (network_label : string) (iter_step : Z)
    : M unit :=
  let save_filename := pretty iter_step +:+ "_" +:+ network_label +:+ ".pth" in
  self ← get_self;
  let save_path := os_path_join (Opt.models (Opt.path (opt self))) save_filename in
  let network :=
    if isinstance_DataParallel network then Plain (inner network) else network in
  let state_dict := network_state_dict (inner network) in
  let state_dict :=
    fold_left (fun d kp => dict_set (fst kp) (ptensor_cpu (snd kp)) d)
              state_dict state_dict in
  torch_save state_dict save_path.

Section Loading.

(** [module.load_state_dict(sd, strict)] is torch's: it copies into the
    module the entries it takes and then returns or raises.  Which files it
    accepts (keys, buffers, sizes) and what it has copied when it raises is
    not fixed here: it is a parameter, giving the outcome of the call and the
    weights it leaves in the module. *)
Variable load_state_dict : list (string * ptensor) -> bool -> module -> result unit * weights.

(** The network object is passed by reference: [n] names the slot of [self]
    that holds it.  Loading goes to the wrapped module of a DataParallel;
    what [load_state_dict] copied stays in the module when it raises. *)
Definition load_network (load_path : string) (n : net_id) (strict : bool) : M unit :=
  sd ← torch_load load_path;
  net ← attr (net_attr n) (get_net n);
  let r := load_state_dict sd strict (inner net) in
  modify_self (set_net n (map_inner (with_weights r.2) net)) ;;
  match r.1 with
  | Ok _ => mret tt
  | Raise e => raise e
  end.

End Loading.

Record resume_state := {
  rs_epoch : Z;
  rs_iter : Z;
  rs_schedulers : list sched_state;
  rs_optimizers : list optim_state
}.

(** [self.optimizers[i].load_state_dict(o)] *)
Definition resume_optimizer (i : nat) (o : optim_state) : M unit :=
  self ← get_self;
  match optimizers self !! i with
  | Some r => modify_world (fun w => set_heap (alter (optimizer_load_state_dict o) r (heap w)) w)
  | None => raise (IndexError "list index out of range")
  end.

(** [self.schedulers[i].load_state_dict(s)] *)
Definition resume_scheduler (i : nat) (sd : sched_state) : M unit :=
  self ← get_self;
  match schedulers self !! i with
  | Some _ => modify_self (fun m => set_schedulers (alter (scheduler_load_state_dict sd) i (schedulers m)) m)
  | None => raise (IndexError "list index out of range")
  end.

Definition resume_training (resume_state : resume_state) : M unit :=
  let resume_optimizers := rs_optimizers resume_state in
  let resume_schedulers := rs_schedulers resume_state in
  self ← get_self;
  assert (Nat.eqb (length resume_optimizers) (length (optimizers self)))
         "Wrong lengths of optimizers" ;;
  self ← get_self;
  assert (Nat.eqb (length resume_schedulers) (length (schedulers self)))
         "Wrong lengths of schedulers" ;;
  for_enumerate 0 resume_optimizers resume_optimizer ;;
  for_enumerate 0 resume_schedulers resume_scheduler.

(** ** SRGANModel

    The network factory ([networks.define_G], [define_D], [define_F]) is
    not part of this file; it is a parameter of the development, as is
    torch's [load_state_dict]. *)

Definition getitem {V} (d : gmap string V) (k : string) : M V :=
  match d !! k with
  | Some v => mret v
  | None => raise (KeyError k)
  end.

(** [opt["train"]] *)
Definition opt_train (opt : Opt.config) : M Opt.train_opt :=
  match Opt.train opt with
  | Some t => mret t
  | None => raise (KeyError "train")
  end.

(** Calling an attribute that holds [None]. *)
Definition callable (c : option criterion) : M criterion :=
  match c with
  | Some c => mret c
  | None => raise (TypeError "'NoneType' object is not callable")
  end.

Definition local {A} (name : string) (v : option A) : M A :=
  match v with
  | Some a => mret a
  | None => raise (UnboundLocalError name)
  end.

(** [cri_gan(pred, target_is_real)] *)
Definition gan_loss (c : GANLoss) (pred : tensor) (target_is_real : bool) : tensor :=
  Gan (gl_type c) (gl_real c) (gl_fake c) pred target_is_real.

(** [self.log_dict[k] = v] *)
Definition log_set (k : string) (v : tensor) : M unit :=
  d ← attr "log_dict" log_dict;
  modify_self (set_log_dict (Some (dict_set k v d))).

(** [a % b] on Python integers. *)
Definition py_mod (a b : Z) : M Z :=
  if b =? 0 then raise (ZeroDivisionError "integer division or modulo by zero")
  else mret (a mod b).

(** [step % self.D_update_ratio == 0 and step > self.D_init_iters] *)
Definition generator_turn (step : Z) : M bool :=
  ratio ← attr "D_update_ratio" D_update_ratio;
  r ← py_mod step ratio;
  if r =? 0 then
    init ← attr "D_init_iters" D_init_iters;
    mret (init <? step)
  else mret false.

(** The loop that collects the parameters of the generator to optimize. *)
Fixpoint collect_optim_params (ps : list (string * param_info)) (optim_params : list string)
    : M (list string) :=
  match ps with
  | [] => mret optim_params
  | (k, v) :: rest =>
      if requires_grad v then collect_optim_params rest (optim_params ++ [k])
      else logger_warning ("Params [" +:+ k +:+ "] will not optimize.") ;;
           collect_optim_params rest optim_params
  end.

Definition net_struc_str (net : network) : string :=
  if isinstance_DataParallel net
  then class_name net +:+ " - " +:+ m_class (inner net)
  else class_name net.

Definition describe (label : string) (net : network) : M unit :=
  let '(s, n) := get_network_description net in
  logger_info ("Network " +:+ label +:+ " structure: " +:+ net_struc_str net
               +:+ ", with parameters: " +:+ format_comma_d n) ;;
  logger_info s.

Definition print_network : M unit :=
  net ← attr "netG" netG;
  describe "G" net ;;
  self ← get_self;
  if is_train self then
    net ← attr "netD" netD;
    describe "D" net ;;
    c ← attr "cri_fea" cri_fea;
    match c with
    | Some _ => net ← attr "netF" netF; describe "F" net
    | None => mret tt
    end
  else mret tt.

Section Pretrained.

Variable load_state_dict : list (string * ptensor) -> bool -> module -> result unit * weights.

Definition load : M unit :=
  self ← get_self;
  let load_path_G := Opt.pretrain_model_G (Opt.path (opt self)) in
  match load_path_G with
  | Some p =>
      logger_info ("Loading pretrained model for G [" +:+ p +:+ "] ...") ;;
      _ ← attr "netG" netG;
      load_network load_state_dict p G true
  | None => mret tt
  end ;;
  self ← get_self;
  let load_path_D := Opt.pretrain_model_D (Opt.path (opt self)) in
  match Opt.is_train (opt self), load_path_D with
  | true, Some p =>
      logger_info ("Loading pretrained model for D [" +:+ p +:+ "] ...") ;;
      _ ← attr "netD" netD;
      load_network load_state_dict p D true
  | _, _ => mret tt
  end.

End Pretrained.

Definition save (iter_step : Z) : M unit :=
  net ← attr "netG" netG;
  save_network net "G" iter_step ;;
  net ← attr "netD" netD;
  save_network net "D" iter_step.

Definition feed_data (data : gmap string tensor) (need_HR : bool) : M unit :=
  self ← get_self;
  lr ← getitem data "LR";
  modify_self (set_var_L (Some (To (device self) lr))) ;;
  if need_HR then
    hr ← getitem data "HR";
    modify_self (set_var_H (Some (To (device self) hr))) ;;
    input_ref ← (if bool_decide (is_Some (data !! "ref"))
                 then getitem data "ref" else getitem data "HR");
    modify_self (set_var_ref (Some (To (device self) input_ref)))
  else mret tt.

Definition test : M unit :=
  _ ← attr "netG" netG;
  modify_self (update_net G (with_training false)) ;;
  no_grad (net ← attr "netG" netG;
           x ← attr "var_L" var_L;
           out ← call G net x;
           modify_self (set_fake_H (Some out))) ;;
  _ ← attr "netG" netG;
  modify_self (update_net G (with_training true)).

Definition get_current_log : M (list (string * tensor)) :=
  attr "log_dict" log_dict.

(** *** optimize_parameters

    The blocks of the method, in source order: the generator's forward pass,
    the generator update (run on the generator's turn only), the
    discriminator update, and the recording of the scalar losses.  The
    Python locals bound in the two updates are returned by them. *)

Definition forward_generator : M unit :=
  r ← attr "optimizer_G" optimizer_G;
  zero_grad r ;;
  net ← attr "netG" netG;
  x ← attr "var_L" var_L;
  out ← call G net x;
  modify_self (set_fake_H (Some out)).

Definition generator_update (l_g_total : tensor)
    : M (option tensor * option tensor * tensor) :=
  c ← attr "cri_pix" cri_pix;
  '(l_g_pix, l_g_total) ←
    match c with
    | Some _ =>
        w ← attr "l_pix_w" l_pix_w;
        c ← attr "cri_pix" cri_pix;
        c ← callable c;
        fake ← attr "fake_H" fake_H;
        hr ← attr "var_H" var_H;
        let l_g_pix := Mul (Num w) (Crit c fake hr) in
        mret (Some l_g_pix, Add l_g_total l_g_pix)
    | None => mret (None, l_g_total)
    end : M (option tensor * tensor);
  c ← attr "cri_fea" cri_fea;
  '(l_g_fea, l_g_total) ←
    match c with
    | Some _ =>
        net ← attr "netF" netF;
        hr ← attr "var_H" var_H;
        out ← call F net hr;
        let real_fea := Detach out in
        net ← attr "netF" netF;
        fake ← attr "fake_H" fake_H;
        fake_fea ← call F net fake;
        w ← attr "l_fea_w" l_fea_w;
        c ← attr "cri_fea" cri_fea;
        c ← callable c;
        let l_g_fea := Mul (Num w) (Crit c fake_fea real_fea) in
        mret (Some l_g_fea, Add l_g_total l_g_fea)
    | None => mret (None, l_g_total)
    end : M (option tensor * tensor);
  net ← attr "netD" netD;
  fake ← attr "fake_H" fake_H;
  pred_g_fake ← call D net fake;
  w ← attr "l_gan_w" l_gan_w;
  c ← attr "cri_gan" cri_gan;
  let l_g_gan := Mul (Num w) (gan_loss c pred_g_fake true) in
  let l_g_total := Add l_g_total l_g_gan in
  backward l_g_total ;;
  r ← attr "optimizer_G" optimizer_G;
  optimizer_step r ;;
  mret (l_g_pix, l_g_fea, l_g_gan).

(** The gradient-penalty branch; returns [l_d_gp]. *)
Definition gradient_penalty : M tensor :=
  ref ← attr "var_ref" var_ref;
  let batch_size := size0 ref in
  pt ← attr "random_pt" random_pt;
  (if negb (Nat.eqb (size0 pt) batch_size)
   then pt ← attr "random_pt" random_pt;
        modify_self (set_random_pt (Some (Resize batch_size pt)))
   else mret tt) ;;
  pt ← attr "random_pt" random_pt;
  w ← get_world;
  modify_self (set_random_pt (Some (Uniform (rng w) pt))) ;;
  modify_world (fun w => set_rng (S (rng w)) w) ;;
  pt ← attr "random_pt" random_pt;
  fake ← attr "fake_H" fake_H;
  pt' ← attr "random_pt" random_pt;
  ref ← attr "var_ref" var_ref;
  let interp := Add (Mul pt (Detach fake)) (Mul (Sub (Num 1) pt') ref) in
  let interp := RequiresGrad interp in
  net ← attr "netD" netD;
  interp_crit ← call D net interp;
  w ← attr "l_gp_w" l_gp_w;
  c ← attr "cri_gp" cri_gp;
  mret (Mul (Num w) (GradPenalty (gp_device c) interp interp_crit)).

Record d_locals := {
  l_d_real : tensor;
  l_d_fake : tensor;
  l_d_gp : option tensor;
  pred_d_real : tensor;
  pred_d_fake : tensor
}.

Definition is_wgan_gp (self : SRGANModel) : M bool :=
  t ← opt_train (opt self);
  mret (String.eqb (Opt.gan_type t) "wgan-gp").

Definition discriminator_update : M d_locals :=
  r ← attr "optimizer_D" optimizer_D;
  zero_grad r ;;
  net ← attr "netD" netD;
  ref ← attr "var_ref" var_ref;
  pred_d_real ← call D net ref;
  c ← attr "cri_gan" cri_gan;
  let l_d_real := gan_loss c pred_d_real true in
  net ← attr "netD" netD;
  fake ← attr "fake_H" fake_H;
  pred_d_fake ← call D net (Detach fake);
  c ← attr "cri_gan" cri_gan;
  let l_d_fake := gan_loss c pred_d_fake false in
  let l_d_total := Add l_d_real l_d_fake in
  self ← get_self;
  gp ← is_wgan_gp self;
  '(l_d_gp, l_d_total) ←
    (if (gp : bool) then
       l_d_gp ← gradient_penalty;
       mret (Some l_d_gp, Add l_d_total l_d_gp)
     else mret (None, l_d_total)) : M (option tensor * tensor);
  backward l_d_total ;;
  r ← attr "optimizer_D" optimizer_D;
  optimizer_step r ;;
  mret {| l_d_real := l_d_real; l_d_fake := l_d_fake; l_d_gp := l_d_gp;
          pred_d_real := pred_d_real; pred_d_fake := pred_d_fake |}.

Definition record_losses (step : Z)
    (g : option (option tensor * option tensor * tensor)) (d : d_locals) : M unit :=
  turn ← generator_turn step;
  (if (turn : bool) then
     c ← attr "cri_pix" cri_pix;
     match c with
     | Some _ => v ← local "l_g_pix" (g ≫= fun x => x.1.1); log_set "l_g_pix" (Item v)
     | None => mret tt
     end ;;
     c ← attr "cri_fea" cri_fea;
     match c with
     | Some _ => v ← local "l_g_fea" (g ≫= fun x => x.1.2); log_set "l_g_fea" (Item v)
     | None => mret tt
     end ;;
     v ← local "l_g_gan" (snd <$> g);
     log_set "l_g_gan" (Item v)
   else mret tt) ;;
  log_set "l_d_real" (Item (l_d_real d)) ;;
  log_set "l_d_fake" (Item (l_d_fake d)) ;;
  self ← get_self;
  gp ← is_wgan_gp self;
  (if (gp : bool) then v ← local "l_d_gp" (l_d_gp d); log_set "l_d_gp" (Item v) else mret tt) ;;
  log_set "D_real" (Mean (Detach (pred_d_real d))) ;;
  log_set "D_fake" (Mean (Detach (pred_d_fake d))).

Definition optimize_parameters (step : Z) : M unit :=
  forward_generator ;;
  let l_g_total := Num 0 in
  turn ← generator_turn step;
  g ← (if (turn : bool) then x ← generator_update l_g_total; mret (Some x) else mret None);
  d ← discriminator_update;
  record_losses step g d.

(** *** Construction *)

Section Construction.

Variable load_state_dict : list (string * ptensor) -> bool -> module -> result unit * weights.
Variable define_G : Opt.config -> network.
Variable define_D : Opt.config -> network.
Variable define_F : Opt.config -> bool -> network.

(** Lines 110-123 (and 125-138 for the feature loss): the criterion is
    looked at only under a positive weight. *)
Definition configure_criterion (weight : Q) (l_type : string) (removed : string)
    (set_cri : option (option criterion) -> SRGANModel -> SRGANModel)
    (set_w : option Q -> SRGANModel -> SRGANModel) : M unit :=
  if Qpositive weight then
    (if String.eqb l_type "l1" then modify_self (set_cri (Some (Some L1Loss)))
     else if String.eqb l_type "l2" then modify_self (set_cri (Some (Some MSELoss)))
     else raise (NotImplementedError ("Loss type [" +:+ l_type +:+ "] not recognized."))) ;;
    modify_self (set_w (Some weight))
  else
    logger_info removed ;;
    modify_self (set_cri (Some None)).

(** Lines 109-189: the training-only part of the constructor. *)
Definition init_training (opt : Opt.config) (train_opt : Opt.train_opt) : M unit :=
  configure_criterion (Opt.pixel_weight train_opt) (Opt.pixel_criterion train_opt)
    "Remove pixel loss." set_cri_pix set_l_pix_w ;;
  configure_criterion (Opt.feature_weight train_opt) (Opt.feature_criterion train_opt)
    "Remove feature loss." set_cri_fea set_l_fea_w ;;
  c ← attr "cri_fea" cri_fea;
  self ← get_self;
  match c with
  | Some _ => modify_self (set_netF (Some (net_to (device self) (define_F opt false))))
  | None => mret tt
  end ;;
  modify_self (set_cri_gan (Some {| gl_type := Opt.gan_type train_opt;
                                    gl_real := 1; gl_fake := 0 |})) ;;
  modify_self (set_l_gan_w (Some (Opt.gan_weight train_opt))) ;;
  modify_self (set_D_update_ratio (Some (or_default (Opt.D_update_ratio train_opt) 1))) ;;
  modify_self (set_D_init_iters (Some (or_default (Opt.D_init_iters train_opt) 0))) ;;
  (if String.eqb (Opt.gan_type train_opt) "wgan-gp" then
     modify_self (set_random_pt (Some (To (device self) (Uninit 1)))) ;;
     modify_self (set_cri_gp (Some {| gp_device := device self |})) ;;
     modify_self (set_l_gp_w (Some (Opt.gp_weigth train_opt)))
   else mret tt) ;;
  let wd_G := or_defaultQ (Opt.weight_decay_G train_opt) 0 in
  net ← attr "netG" netG;
  optim_params ← collect_optim_params (m_params (inner net)) [];
  r ← Adam G optim_params (Opt.lr_G train_opt) wd_G (Opt.beta1_G train_opt, 999 # 1000)%Q;
  modify_self (set_optimizer_G (Some r)) ;;
  r ← attr "optimizer_G" optimizer_G;
  modify_self (fun m => set_optimizers (optimizers m ++ [r]) m) ;;
  let wd_D := or_defaultQ (Opt.weight_decay_D train_opt) 0 in
  net ← attr "netD" netD;
  r ← Adam D (map fst (m_params (inner net))) (Opt.lr_D train_opt) wd_D
         (Opt.beta1_D train_opt, 999 # 1000)%Q;
  modify_self (set_optimizer_D (Some r)) ;;
  r ← attr "optimizer_D" optimizer_D;
  modify_self (fun m => set_optimizers (optimizers m ++ [r]) m) ;;
  (if String.eqb (Opt.lr_scheme train_opt) "MultiStepLR" then
     self ← get_self;
     for_each (optimizers self) (fun optimizer =>
       modify_self (fun m => set_schedulers
         (schedulers m ++ [MultiStepLR optimizer (Opt.lr_steps train_opt)
                                       (Opt.lr_gamma train_opt)]) m))
   else raise (NotImplementedError "MultiStepLR learning rate scheme is enough.")) ;;
  modify_self (set_log_dict (Some [])).

(** Lines 100-107: the networks are created and pretrained weights loaded. *)
Definition init_networks (opt : Opt.config) : M Opt.train_opt :=
  train_opt ← opt_train opt;
  self ← get_self;
  modify_self (set_netG (Some (net_to (device self) (define_G opt)))) ;;
  (if is_train self then
     modify_self (set_netD (Some (net_to (device self) (define_D opt)))) ;;
     _ ← attr "netG" netG;
     modify_self (update_net G (with_training true)) ;;
     _ ← attr "netD" netD;
     modify_self (update_net D (with_training true))
   else mret tt) ;;
  load load_state_dict ;;
  mret train_opt.

(** [SRGANModel.__init__], on the object left by [BaseModel.__init__]. *)
Definition SRGANModel_init_body (opt : Opt.config) : M unit :=
  train_opt ← init_networks opt;
  self ← get_self;
  (if is_train self then init_training opt train_opt else mret tt) ;;
  print_network.

(** [SRGANModel(opt)] in a given world. *)
Definition SRGANModel_init (opt : Opt.config) (w : World) : result unit * state :=
  SRGANModel_init_body opt {| self := BaseModel_init opt; world := w |}.

End Construction.

(** ** The remaining methods

    [update_learning_rate], [get_current_learning_rate],
    [save_training_state] and [get_current_visuals]. *)

Section Schedulers.

(** [scheduler.step()] and [scheduler.get_lr()] are torch's: a step changes
    the scheduler and, through it, the learning rate held by its optimizer;
    [get_lr()] gives one rate for each parameter group of the optimizer. *)
Variable scheduler_step : scheduler -> optimizer -> scheduler * optimizer.
Variable scheduler_get_lr : scheduler -> optimizer -> list Q.

(** [scheduler.step()] for the scheduler at index [i] of [self.schedulers]. *)
Definition step_scheduler (i : nat) : M unit :=
  self ← get_self;
  match schedulers self !! i with
  | Some sc =>
      o ← deref (s_optimizer sc);
      let so := scheduler_step sc o in
      modify_self (fun m => set_schedulers (<[i := so.1]> (schedulers m)) m) ;;
      modify_world (fun w => set_heap (<[s_optimizer sc := so.2]> (heap w)) w)
  | None => raise (IndexError "list index out of range")
  end.

Definition update_learning_rate : M unit :=
  self ← get_self;
  for_each (seq 0 (length (schedulers self))) step_scheduler.

Definition get_current_learning_rate : M Q :=
  self ← get_self;
  match schedulers self !! 0%nat with
  | Some sc =>
      o ← deref (s_optimizer sc);
      match scheduler_get_lr sc o !! 0%nat with
      | Some lr => mret lr
      | None => raise (IndexError "list index out of range")
      end
  | None => raise (IndexError "list index out of range")
  end.

End Schedulers.

(** [for x in l: out.append(f(x))] *)
Fixpoint collect {A B} (l : list A) (f : A -> M B) (out : list B) : M (list B) :=
  match l with
  | [] => mret out
  | x :: rest => y ← f x; collect rest f (out ++ [y])
  end.

(** [save_training_state]: the file system of this development holds network
    checkpoints only, so the call [torch.save(state, save_path)] that ends
    the method is rendered by returning its two arguments. *)
Definition save_training_state (epoch iter_step : Z) : M (string * resume_state) :=
  self ← get_self;
  scheds ← collect (schedulers self) (fun s => mret (s_state s)) [];
  opts ← collect (optimizers self) (fun r => o ← deref r; mret (o_state o)) [];
  let state := {| rs_epoch := epoch; rs_iter := iter_step;
                  rs_schedulers := scheds; rs_optimizers := opts |} in
  let save_filename := pretty iter_step +:+ ".state" in
  let save_path := os_path_join (Opt.training_state (Opt.path (opt self))) save_filename in
  mret (save_path, state).

(** [x.detach()[0].float().cpu()]: the first image of the batch [x], as
    floats in host memory. *)
Inductive image := FirstImage (x : tensor).

Definition first_image (x : tensor) : M image :=
  if Nat.eqb (size0 x) 0
  then raise (IndexError "index 0 is out of bounds for dimension 0 with size 0")
  else mret (FirstImage (Detach x)).

Definition get_current_visuals (need_HR : bool) : M (list (string * image)) :=
  let out_dict := [] in
  x ← attr "var_L" var_L;
  i ← first_image x;
  let out_dict := dict_set "LR" i out_dict in
  x ← attr "fake_H" fake_H;
  i ← first_image x;
  let out_dict := dict_set "SR" i out_dict in
  if need_HR then
    x ← attr "var_H" var_H;
    i ← first_image x;
    mret (dict_set "HR" i out_dict)
  else mret out_dict.

(** * Expected behaviour

    Closed forms of what the methods are expected to do, against which the
    methods above are run in the properties below. *)

(** ** Resuming a training state *)

(** The optimizer states loaded one after the other, in list order. *)
Definition load_optimizers (refs : list nat) (sds : list optim_state)
    (h : list optimizer) : list optimizer :=
  fold_left (fun h ro => alter (optimizer_load_state_dict ro.2) ro.1 h) (zip refs sds) h.

Definition load_schedulers (sds : list sched_state) (l : list scheduler) : list scheduler :=
  zip_with scheduler_load_state_dict sds l.

(** ** Construction *)

(** What the constructor is expected to leave behind, written out. *)

Definition criterion_of (l_type : string) : option criterion :=
  if String.eqb l_type "l1" then Some L1Loss
  else if String.eqb l_type "l2" then Some MSELoss
  else None.

(** The criterion kept for a loss of weight [w]: none when the weight is
    not positive. *)
Definition configured (w : Q) (l_type : string) : option criterion :=
  if Qpositive w then criterion_of l_type else None.

Definition criterion_ok (w : Q) (l_type : string) : bool :=
  negb (Qpositive w) || bool_decide (is_Some (criterion_of l_type)).

Definition loss_type_error (l_type : string) : exn :=
  NotImplementedError ("Loss type [" +:+ l_type +:+ "] not recognized.").

Definition lr_scheme_error : exn :=
  NotImplementedError "MultiStepLR learning rate scheme is enough.".

Definition init_error (t : Opt.train_opt) : exn :=
  if negb (criterion_ok (Opt.pixel_weight t) (Opt.pixel_criterion t))
  then loss_type_error (Opt.pixel_criterion t)
  else if negb (criterion_ok (Opt.feature_weight t) (Opt.feature_criterion t))
  then loss_type_error (Opt.feature_criterion t)
  else lr_scheme_error.

Definition valid (t : Opt.train_opt) : bool :=
  criterion_ok (Opt.pixel_weight t) (Opt.pixel_criterion t)
  && criterion_ok (Opt.feature_weight t) (Opt.feature_criterion t)
  && String.eqb (Opt.lr_scheme t) "MultiStepLR".

Definition new_Adam (n : net_id) (params : list string) (lr : Q) (wd : option Q)
    (beta1 : Q) : optimizer :=
  {| o_net := n; o_params := params;
     o_state := {| os_lr := lr; os_weight_decay := or_defaultQ wd 0;
                   os_betas := (beta1, 999 # 1000)%Q; os_steps := 0; os_seen := [] |} |}.

Definition new_optimizer_G (t : Opt.train_opt) (nG : network) : optimizer :=
  new_Adam G (map fst (List.filter (fun kv => requires_grad kv.2) (m_params (inner nG))))
           (Opt.lr_G t) (Opt.weight_decay_G t) (Opt.beta1_G t).

Definition new_optimizer_D (t : Opt.train_opt) (nD : network) : optimizer :=
  new_Adam D (map fst (m_params (inner nD)))
           (Opt.lr_D t) (Opt.weight_decay_D t) (Opt.beta1_D t).

Definition warnings (ps : list (string * param_info)) : list (string * string) :=
  map (fun kv => ("WARNING", "Params [" +:+ kv.1 +:+ "] will not optimize."))
      (List.filter (fun kv => negb (requires_grad kv.2)) ps).

(** The object before [SRGANModel.__init__] runs. *)
Definition before_init (opt : Opt.config) (w : World) : state :=
  {| self := BaseModel_init opt; world := w |}.

(** The attributes of a freshly constructed training model whose networks
    are [nG] and [nD] and whose optimizers were allocated at [rG], [rG+1]. *)
Definition trained_self (define_F : Opt.config -> bool -> network) (opt : Opt.config) (t : Opt.train_opt) (nG nD : network)
    (rG : nat) : SRGANModel :=
  let dev := device (BaseModel_init opt) in
  let rD := S rG in
  let wgan := String.eqb (Opt.gan_type t) "wgan-gp" in
  let pix := configured (Opt.pixel_weight t) (Opt.pixel_criterion t) in
  let fea := configured (Opt.feature_weight t) (Opt.feature_criterion t) in
  {| opt := opt; device := dev; is_train := Opt.is_train opt;
     schedulers := [MultiStepLR rG (Opt.lr_steps t) (Opt.lr_gamma t);
                    MultiStepLR rD (Opt.lr_steps t) (Opt.lr_gamma t)];
     optimizers := [rG; rD];
     netG := Some nG; netD := Some nD;
     netF := match fea with
             | Some _ => Some (net_to dev (define_F opt false))
             | None => None
             end;
     cri_pix := Some pix;
     l_pix_w := if Qpositive (Opt.pixel_weight t) then Some (Opt.pixel_weight t) else None;
     cri_fea := Some fea;
     l_fea_w := if Qpositive (Opt.feature_weight t) then Some (Opt.feature_weight t) else None;
     cri_gan := Some {| gl_type := Opt.gan_type t; gl_real := 1; gl_fake := 0 |};
     l_gan_w := Some (Opt.gan_weight t);
     D_update_ratio := Some (or_default (Opt.D_update_ratio t) 1);
     D_init_iters := Some (or_default (Opt.D_init_iters t) 0);
     random_pt := if wgan then Some (To dev (Uninit 1)) else None;
     cri_gp := if wgan then Some {| gp_device := dev |} else None;
     l_gp_w := if wgan then Some (Opt.gp_weigth t) else None;
     optimizer_G := Some rG; optimizer_D := Some rD;
     log_dict := Some [];
     var_L := None; var_H := None; var_ref := None; fake_H := None |}.

(** ** One training iteration *)

Record training := {
  t_opt : Opt.config;
  t_train : Opt.train_opt;
  t_device : torch_device;
  t_schedulers : list scheduler;
  t_optimizers : list nat;
  t_netG : network;
  t_netD : network;
  t_pix : option (criterion * Q);
  t_fea : option (criterion * Q * network);
  t_gan : GANLoss;
  t_gan_w : Q;
  t_ratio : Z;
  t_init : Z;
  t_gp : option (tensor * GradientPenaltyLoss * Q);
  t_rG : nat;
  t_rD : nat;
  t_log : list (string * tensor);
  t_L : tensor;
  t_H : tensor;
  t_ref : tensor;
  t_fake : option tensor
}.

Definition self_of (v : training) : SRGANModel :=
  {| opt := t_opt v; device := t_device v; is_train := true;
     schedulers := t_schedulers v; optimizers := t_optimizers v;
     netG := Some (t_netG v); netD := Some (t_netD v);
     netF := (fun x => x.2) <$> t_fea v;
     cri_pix := Some ((fun x => x.1) <$> t_pix v);
     l_pix_w := (fun x => x.2) <$> t_pix v;
     cri_fea := Some ((fun x => x.1.1) <$> t_fea v);
     l_fea_w := (fun x => x.1.2) <$> t_fea v;
     cri_gan := Some (t_gan v); l_gan_w := Some (t_gan_w v);
     D_update_ratio := Some (t_ratio v); D_init_iters := Some (t_init v);
     random_pt := (fun x => x.1.1) <$> t_gp v;
     cri_gp := (fun x => x.1.2) <$> t_gp v;
     l_gp_w := (fun x => x.2) <$> t_gp v;
     optimizer_G := Some (t_rG v); optimizer_D := Some (t_rD v);
     log_dict := Some (t_log v);
     var_L := Some (t_L v); var_H := Some (t_H v); var_ref := Some (t_ref v);
     fake_H := t_fake v |}.

Definition state_of (v : training) (w : World) : state :=
  {| self := self_of v; world := w |}.

Definition leaf (x : tensor) : Prop := forall n, reaches n x = false.

Definition wgan_gp (v : training) : bool := String.eqb (Opt.gan_type (t_train v)) "wgan-gp".

Record wf (v : training) (w : World) : Prop := {
  wf_train : Opt.train (t_opt v) = Some (t_train v);
  wf_ratio : t_ratio v ≠ 0;
  wf_gp : wgan_gp v = true -> is_Some (t_gp v);
  wf_refs : t_rG v ≠ t_rD v;
  wf_optG : exists o, heap w !! t_rG v = Some o /\ o_net o = G;
  wf_optD : exists o, heap w !! t_rD v = Some o /\ o_net o = D;
  wf_trainG : trainable (inner (t_netG v)) = true;
  wf_trainD : trainable (inner (t_netD v)) = true;
  wf_grad : grad_enabled w = true;
  wf_L : leaf (t_L v);
  wf_H : leaf (t_H v);
  wf_ref : leaf (t_ref v)
}.

Definition forward (n : net_id) (net : network) (x : tensor) : tensor :=
  Forward n (m_weights (inner net)) (m_training (inner net)) true x.

Definition add_opt (t : tensor) (o : option tensor) : tensor :=
  match o with Some x => Add t x | None => t end.

(** A network after [loss.backward()] reached it, and after [backward()]
    followed by its optimizer's [step()]. *)
Definition accumulated (loss : tensor) (net : network) : network :=
  map_inner (fun m => with_grad (Acc (m_grad m) loss) m) net.

Definition updated (loss : tensor) (net : network) : network :=
  map_inner (fun m => with_weights (AdamStep (m_weights m) (Acc (m_grad m) loss))
                        (with_grad (Acc (m_grad m) loss) m)) net.

Definition turn (v : training) (step : Z) : bool :=
  (step mod t_ratio v =? 0) && (t_init v <? step).

Section Losses.

Variable v : training.
Variable w : World.
Variable fk : tensor.

Definition exp_l_g_pix : option tensor :=
  (fun x => Mul (Num x.2) (Crit x.1 fk (t_H v))) <$> t_pix v.

Definition exp_l_g_fea : option tensor :=
  (fun x => Mul (Num x.1.2)
              (Crit x.1.1 (forward F x.2 fk) (Detach (forward F x.2 (t_H v))))) <$> t_fea v.

Definition exp_l_g_gan : tensor :=
  Mul (Num (t_gan_w v)) (gan_loss (t_gan v) (forward D (t_netD v) fk) true).

Definition exp_l_g_total : tensor :=
  Add (add_opt (add_opt (Num 0) exp_l_g_pix) exp_l_g_fea) exp_l_g_gan.

Definition exp_pred_d_real : tensor := forward D (t_netD v) (t_ref v).
Definition exp_pred_d_fake : tensor := forward D (t_netD v) (Detach fk).
Definition exp_l_d_real : tensor := gan_loss (t_gan v) exp_pred_d_real true.
Definition exp_l_d_fake : tensor := gan_loss (t_gan v) exp_pred_d_fake false.

Definition drawn (pt : tensor) : tensor :=
  Uniform (rng w) (if Nat.eqb (size0 pt) (size0 (t_ref v)) then pt
                   else Resize (size0 (t_ref v)) pt).

Definition interp (pt : tensor) : tensor :=
  RequiresGrad (Add (Mul pt (Detach fk)) (Mul (Sub (Num 1) pt) (t_ref v))).

Definition exp_l_d_gp : option tensor :=
  if wgan_gp v then
    (fun x => Mul (Num x.2)
                (GradPenalty (gp_device x.1.2) (interp (drawn x.1.1))
                             (forward D (t_netD v) (interp (drawn x.1.1))))) <$> t_gp v
  else None.

Definition exp_l_d_total : tensor :=
  add_opt (Add exp_l_d_real exp_l_d_fake) exp_l_d_gp.

Definition exp_d_locals : d_locals :=
  {| l_d_real := exp_l_d_real; l_d_fake := exp_l_d_fake; l_d_gp := exp_l_d_gp;
     pred_d_real := exp_pred_d_real; pred_d_fake := exp_pred_d_fake |}.

End Losses.

(** The object after each block. *)
Definition forwarded (v : training) : training :=
  {| t_opt := t_opt v; t_train := t_train v; t_device := t_device v;
     t_schedulers := t_schedulers v; t_optimizers := t_optimizers v;
     t_netG := map_inner (with_grad NoGrad) (t_netG v); t_netD := t_netD v;
     t_pix := t_pix v; t_fea := t_fea v; t_gan := t_gan v; t_gan_w := t_gan_w v;
     t_ratio := t_ratio v; t_init := t_init v; t_gp := t_gp v; t_rG := t_rG v;
     t_rD := t_rD v; t_log := t_log v; t_L := t_L v; t_H := t_H v; t_ref := t_ref v;
     t_fake := Some (forward G (t_netG v) (t_L v)) |}.

Definition G_updated (v : training) (fk : tensor) : training :=
  let loss := exp_l_g_total v fk in
  {| t_opt := t_opt v; t_train := t_train v; t_device := t_device v;
     t_schedulers := t_schedulers v; t_optimizers := t_optimizers v;
     t_netG := updated loss (t_netG v); t_netD := accumulated loss (t_netD v);
     t_pix := t_pix v;
     t_fea := (fun x => (x.1, if trainable (inner x.2) then accumulated loss x.2 else x.2))
             <$> t_fea v;
     t_gan := t_gan v; t_gan_w := t_gan_w v; t_ratio := t_ratio v; t_init := t_init v;
     t_gp := t_gp v; t_rG := t_rG v; t_rD := t_rD v; t_log := t_log v; t_L := t_L v;
     t_H := t_H v; t_ref := t_ref v; t_fake := t_fake v |}.

Definition G_world (v : training) (w : World) (fk : tensor) : World :=
  set_heap (alter (stepped (Acc (m_grad (inner (t_netG v))) (exp_l_g_total v fk)))
                  (t_rG v) (heap w)) w.

Definition D_updated (v : training) (w : World) (fk : tensor) : training :=
  let loss := exp_l_d_total v w fk in
  let zeroed := map_inner (with_grad NoGrad) (t_netD v) in
  {| t_opt := t_opt v; t_train := t_train v; t_device := t_device v;
     t_schedulers := t_schedulers v; t_optimizers := t_optimizers v; t_netG := t_netG v;
     t_netD := updated loss zeroed; t_pix := t_pix v; t_fea := t_fea v;
     t_gan := t_gan v; t_gan_w := t_gan_w v; t_ratio := t_ratio v; t_init := t_init v;
     t_gp := if wgan_gp v then (fun x => (drawn v w x.1.1, x.1.2, x.2)) <$> t_gp v else t_gp v;
     t_rG := t_rG v; t_rD := t_rD v; t_log := t_log v; t_L := t_L v; t_H := t_H v;
     t_ref := t_ref v; t_fake := t_fake v |}.

Definition D_world (v : training) (w : World) (fk : tensor) : World :=
  set_heap (alter (stepped (Acc NoGrad (exp_l_d_total v w fk))) (t_rD v) (heap w))
           (set_rng (if wgan_gp v then S (rng w) else rng w) w).

Definition log_if {A} (present : option A) (k : string) (val : option tensor)
    (d : list (string * tensor)) : list (string * tensor) :=
  match present, val with
  | Some _, Some x => dict_set k (Item x) d
  | _, _ => d
  end.

(** The log after the losses of one iteration were recorded. *)
Definition new_log (v : training) (step : Z) (lp lf : option tensor) (lgan : tensor)
    (d : d_locals) : list (string * tensor) :=
  let l := t_log v in
  let l := if turn v step
           then dict_set "l_g_gan" (Item lgan)
                  (log_if (t_fea v) "l_g_fea" lf (log_if (t_pix v) "l_g_pix" lp l))
           else l in
  let l := dict_set "l_d_fake" (Item (l_d_fake d)) (dict_set "l_d_real" (Item (l_d_real d)) l) in
  let l := if wgan_gp v then log_if (l_d_gp d) "l_d_gp" (l_d_gp d) l else l in
  dict_set "D_fake" (Mean (Detach (pred_d_fake d)))
    (dict_set "D_real" (Mean (Detach (pred_d_real d))) l).

Definition with_log (l : list (string * tensor)) (v : training) : training :=
  {| t_opt := t_opt v; t_train := t_train v; t_device := t_device v;
     t_schedulers := t_schedulers v; t_optimizers := t_optimizers v; t_netG := t_netG v;
     t_netD := t_netD v; t_pix := t_pix v; t_fea := t_fea v; t_gan := t_gan v;
     t_gan_w := t_gan_w v; t_ratio := t_ratio v; t_init := t_init v; t_gp := t_gp v;
     t_rG := t_rG v; t_rD := t_rD v; t_log := l; t_L := t_L v; t_H := t_H v;
     t_ref := t_ref v; t_fake := t_fake v |}.

(** The object and the world after one call of [optimize_parameters]. *)
Definition after (v : training) (w : World) (step : Z) : training * World :=
  let v1 := forwarded v in
  let fk := forward G (t_netG v) (t_L v) in
  let vw := if turn v step then (G_updated v1 fk, G_world v1 w fk) else (v1, w) in
  let d := exp_d_locals vw.1 vw.2 fk in
  let v3 := D_updated vw.1 vw.2 fk in
  (with_log (new_log v3 step (exp_l_g_pix v1 fk) (exp_l_g_fea v1 fk) (exp_l_g_gan v1 fk) d) v3,
   D_world vw.1 vw.2 fk).

(** *** The log *)

Definition entry (k : string) (o : option tensor) : list (string * tensor) :=
  match o with Some x => [(k, Item x)] | None => [] end.

(** The metrics computed by one call, in the order they are recorded. *)
Definition recorded (v : training) (w : World) (step : Z) : list (string * tensor) :=
  let fk := forward G (t_netG v) (t_L v) in
  ((if turn v step
    then entry "l_g_pix" (exp_l_g_pix v fk) ++ entry "l_g_fea" (exp_l_g_fea v fk)
         ++ [("l_g_gan", Item (exp_l_g_gan v fk))]
    else [])
   ++ [("l_d_real", Item (exp_l_d_real v)); ("l_d_fake", Item (exp_l_d_fake v fk))]
   ++ entry "l_d_gp" (exp_l_d_gp v w fk)
   ++ [("D_real", Mean (Detach (exp_pred_d_real v)));
       ("D_fake", Mean (Detach (exp_pred_d_fake v fk)))])%list.

Definition dict_update {V} (new old : list (string * V)) : list (string * V) :=
  fold_left (fun d kv => dict_set kv.1 kv.2 d) new old.

(** ** The training loop *)

(** The training view of a model constructed in training mode from
    settings [t], with networks [nG] and [nD] and optimizers allocated at
    [rG] and [rG+1], once it was fed a batch. *)
Definition constructed_view (define_F : Opt.config -> bool -> network) (opt : Opt.config)
    (t : Opt.train_opt) (nG nD : network) (rG : nat) (lr hr ref : tensor) : training :=
  let dev := device (BaseModel_init opt) in
  {| t_opt := opt; t_train := t; t_device := dev;
     t_schedulers := [MultiStepLR rG (Opt.lr_steps t) (Opt.lr_gamma t);
                      MultiStepLR (S rG) (Opt.lr_steps t) (Opt.lr_gamma t)];
     t_optimizers := [rG; S rG];
     t_netG := nG; t_netD := nD;
     t_pix := (fun c => (c, Opt.pixel_weight t))
              <$> configured (Opt.pixel_weight t) (Opt.pixel_criterion t);
     t_fea := (fun c => (c, Opt.feature_weight t, net_to dev (define_F opt false)))
              <$> configured (Opt.feature_weight t) (Opt.feature_criterion t);
     t_gan := {| gl_type := Opt.gan_type t; gl_real := 1; gl_fake := 0 |};
     t_gan_w := Opt.gan_weight t;
     t_ratio := or_default (Opt.D_update_ratio t) 1;
     t_init := or_default (Opt.D_init_iters t) 0;
     t_gp := if String.eqb (Opt.gan_type t) "wgan-gp"
             then Some (To dev (Uninit 1), {| gp_device := dev |}, Opt.gp_weigth t)
             else None;
     t_rG := rG; t_rD := S rG; t_log := [];
     t_L := To dev lr; t_H := To dev hr; t_ref := To dev ref; t_fake := None |}.

(** [for step in steps: model.optimize_parameters(step)], the batch staying
    the same. *)
Definition train (steps : list Z) : M unit := for_each steps optimize_parameters.

(** The object and the world after the calls of [train]. *)
Fixpoint after_all (v : training) (w : World) (steps : list Z) : training * World :=
  match steps with
  | [] => (v, w)
  | step :: rest => after_all (after v w step).1 (after v w step).2 rest
  end.

(** * Concrete objects used to exercise the model *)

Module Example.

Definition mk_network (cls tag : string) : network :=
  Plain {| m_class := cls; m_repr := cls +:+ "(...)";
           m_params := [("conv.weight", {| requires_grad := true; numel := 1728 |});
                        ("conv.bias", {| requires_grad := true; numel := 64 |})];
           m_weights := Initial tag; m_grad := NoGrad; m_device := cpu;
           m_training := true |}.

Definition define_G (_ : Opt.config) : network := mk_network "SRResNet" "G".
Definition define_D (_ : Opt.config) : network := mk_network "Discriminator_VGG_128" "D".
Definition define_F (_ : Opt.config) (_ : bool) : network :=
  mk_network "VGGFeatureExtractor" "F".

Definition train_opt (pix_w : Q) (pix : string) (ratio : option Z) (gan : string)
    (scheme : string) : Opt.train_opt :=
  {| Opt.pixel_weight := pix_w; Opt.pixel_criterion := pix;
     Opt.feature_weight := 1; Opt.feature_criterion := "l2";
     Opt.gan_type := gan; Opt.gan_weight := 5 # 1000;
     Opt.D_update_ratio := ratio; Opt.D_init_iters := Some 0;
     Opt.gp_weigth := 10; Opt.weight_decay_G := None; Opt.lr_G := 1 # 10000;
     Opt.beta1_G := 9 # 10; Opt.weight_decay_D := None; Opt.lr_D := 1 # 10000;
     Opt.beta1_D := 9 # 10; Opt.lr_scheme := scheme;
     Opt.lr_steps := [50000; 100000]; Opt.lr_gamma := 1 # 2 |}.

Definition config (is_train : bool) (t : Opt.train_opt) : Opt.config :=
  {| Opt.gpu_ids := None; Opt.is_train := is_train; Opt.train := Some t;
     Opt.path := {| Opt.models := "experiments/models";
                    Opt.training_state := "experiments/training_state";
                    Opt.pretrain_model_G := None; Opt.pretrain_model_D := None |} |}.

Definition world0 : World :=
  {| files := ∅; logged := []; rng := 0; grad_enabled := true; heap := [] |}.

Definition batch : gmap string tensor :=
  {[ "LR" := Data "lr" 4; "HR" := Data "hr" 4 ]}.

Definition batch_ref : gmap string tensor :=
  {[ "LR" := Data "lr" 4; "HR" := Data "hr" 4; "ref" := Data "ref" 4 ]}.

(** Run a method on the state left by the previous call, if that returned. *)
Definition then_ {A} (rs : result unit * state) (m : M A) : result A * state :=
  match rs with
  | (Ok _, s) => m s
  | (Raise e, s) => (Raise e, s)
  end.

Definition same_keys (a b : list string) : bool :=
  forallb (fun k => existsb (String.eqb k) b) a &&
  forallb (fun k => existsb (String.eqb k) a) b.

(** A [load_state_dict] for the examples: the module is left with loaded
    weights whether the call returns or raises and, with [strict], the call
    raises when the keys of the file are not the names of the module's
    parameters. *)
Definition load_state_dict (sd : list (string * ptensor)) (strict : bool) (m : module)
    : result unit * weights :=
  (if strict && negb (same_keys (dict_keys sd) (map fst (m_params m)))
   then Raise (RuntimeError "Error(s) in loading state_dict")
   else Ok tt,
   Loaded "state_dict" strict (m_weights m)).

Definition new (opt : Opt.config) : result unit * state :=
  SRGANModel_init load_state_dict define_G define_D define_F opt world0.

(** A training model (update ratio 2, WGAN-GP) and a test-only model. *)
Definition opt_train : Opt.config :=
  config true (train_opt (1 # 100) "l1" (Some 2) "wgan-gp" "MultiStepLR").
Definition opt_test : Opt.config :=
  config false (train_opt (1 # 100) "l1" (Some 2) "wgan-gp" "MultiStepLR").

Definition trained0 : state := (then_ (new opt_train) (feed_data batch true)).2.
Definition tested0 : state := (then_ (new opt_test) (feed_data batch false)).2.


(** The training model above, after its first batch, seen as a training
    view, and the world it lives in. *)
Definition view0 : training :=
  {| t_opt := opt_train;
     t_train := train_opt (1 # 100) "l1" (Some 2) "wgan-gp" "MultiStepLR";
     t_device := cpu;
     t_schedulers := [MultiStepLR 0 [50000; 100000] (1 # 2);
                      MultiStepLR 1 [50000; 100000] (1 # 2)];
     t_optimizers := [0%nat; 1%nat];
     t_netG := define_G opt_train; t_netD := define_D opt_train;
     t_pix := Some (L1Loss, 1 # 100);
     t_fea := Some (MSELoss, 1%Q, define_F opt_train false);
     t_gan := {| gl_type := "wgan-gp"; gl_real := 1; gl_fake := 0 |};
     t_gan_w := 5 # 1000; t_ratio := 2; t_init := 0;
     t_gp := Some (To cpu (Uninit 1), {| gp_device := cpu |}, 10%Q);
     t_rG := 0; t_rD := 1; t_log := [];
     t_L := To cpu (Data "lr" 4); t_H := To cpu (Data "hr" 4);
     t_ref := To cpu (Data "hr" 4); t_fake := None |}.

Definition world1 : World := world trained0.

(** A scheduler that counts its steps and reports the rate of its optimizer,
    and a batch for inference. *)
Definition scheduler_step (sc : scheduler) (o : optimizer) : scheduler * optimizer :=
  ({| s_optimizer := s_optimizer sc;
      s_state := {| ss_milestones := ss_milestones (s_state sc);
                    ss_gamma := ss_gamma (s_state sc);
                    ss_last_epoch := ss_last_epoch (s_state sc) + 1 |} |}, o).

Definition scheduler_get_lr (sc : scheduler) (o : optimizer) : list Q :=
  [os_lr (o_state o)].

Definition batch_lr : gmap string tensor := {[ "LR" := Data "lr" 4 ]}.

(** A training configuration whose update ratio is 0, and one that names a
    pretrained generator. *)
Definition opt_ratio0 : Opt.config :=
  config true (train_opt (1 # 100) "l1" (Some 0) "vanilla" "MultiStepLR").

Definition opt_pretrained : Opt.config :=
  {| Opt.gpu_ids := None; Opt.is_train := false;
     Opt.train := Some (train_opt (1 # 100) "l1" (Some 2) "vanilla" "MultiStepLR");
     Opt.path := {| Opt.models := "experiments/models";
                    Opt.training_state := "experiments/training_state";
                    Opt.pretrain_model_G := Some "pretrained/G.pth";
                    Opt.pretrain_model_D := None |} |}.

(** A file system with two checkpoints, one written from the generator and
    one of another architecture, and the state of a test-only model that
    names the first as its pretrained generator, as [load] finds it. *)
Definition file_G : list (string * ptensor) :=
  network_state_dict (inner (define_G opt_pretrained)).

Definition file_other : list (string * ptensor) :=
  [("fc.weight", {| p_of := Initial "other"; p_name := "fc.weight"; p_device := cpu |})].

Definition world_files : World :=
  set_files (<["pretrained/G.pth" := file_G]>
               (<["pretrained/other.pth" := file_other]> ∅)) world0.

Definition pre_load : state :=
  {| self := set_netG (Some (define_G opt_pretrained)) (BaseModel_init opt_pretrained);
     world := world_files |}.

End Example.

(** * Properties *)

(** Symbolic execution of a method: unfold the monad and compute. *)
Ltac mrun :=
  cbv [mbind M_bind mret M_ret get_self get_world modify_self modify_world
       attr raise assert getitem opt_train callable local deref];
  cbn.

(** Symbolic execution of a method on a state given as a record literal:
    call-by-value evaluation of the method, the monad and the attribute
    updates, leaving the framework's data (strings, maps, numbers) alone. *)
Ltac mexec :=
  cbv beta iota zeta delta [
       mbind M_bind mret M_ret get_self get_world modify_self modify_world attr raise
       assert getitem opt_train callable local deref set_net get_net update_net
       net_attr set_schedulers set_optimizers set_netG set_netD set_netF set_cri_pix
       set_l_pix_w set_cri_fea set_l_fea_w set_cri_gan set_l_gan_w set_D_update_ratio
       set_D_init_iters set_random_pt set_cri_gp set_l_gp_w set_optimizer_G
       set_optimizer_D set_log_dict set_var_L set_var_H set_var_ref set_fake_H
       set_files set_logged set_rng set_grad_enabled set_heap opt device is_train
       schedulers optimizers netG netD netF cri_pix l_pix_w cri_fea l_fea_w cri_gan
       l_gan_w D_update_ratio D_init_iters random_pt cri_gp l_gp_w optimizer_G
       optimizer_D log_dict var_L var_H var_ref fake_H files logged rng grad_enabled
       heap self world map_inner inner wrapped with_weights with_grad with_device
       with_training net_to net_train net_eval isinstance_DataParallel m_class m_repr
       m_params m_weights m_grad m_device m_training andb orb negb fst snd Opt.train
       Opt.is_train Opt.gpu_ids Opt.path Opt.pretrain_model_G Opt.pretrain_model_D
       Opt.models Opt.training_state Opt.pixel_weight Opt.pixel_criterion
       Opt.feature_weight Opt.feature_criterion Opt.gan_type Opt.gan_weight
       Opt.D_update_ratio Opt.D_init_iters Opt.gp_weigth Opt.weight_decay_G Opt.lr_G
       Opt.beta1_G Opt.weight_decay_D Opt.lr_D Opt.beta1_D Opt.lr_scheme Opt.lr_steps
       Opt.lr_gamma gl_type gl_real gl_fake gp_device o_net o_params o_state l_d_real
       l_d_fake l_d_gp pred_d_real pred_d_fake load load_network torch_load
       logger_info logger_warning BaseModel_init print_network
       describe get_network_description save test no_grad call feed_data get_current_log zero_grad
       optimizer_step backward backward_into Adam torch_save log_set py_mod
       generator_turn is_wgan_gp gan_loss forward_generator generator_update
       gradient_penalty discriminator_update record_losses optimize_parameters
       for_each option_bind option_fmap option_map fmap].

Lemma bind_run {A B} (m : M A) (f : A -> M B) (s : state) :
  (m ≫= f) s = match m s with
               | (Ok a, s') => f a s'
               | (Raise e, s') => (Raise e, s')
               end.
Proof. reflexivity. Qed.

(** ** Ordered dictionaries *)

Lemma dict_get_set_eq {V} k (v : V) d : dict_get k (dict_set k v d) = Some v.
Proof.
  induction d as [|[k' v'] d IH]; simpl.
  - by rewrite String.eqb_refl.
  - destruct (String.eqb k' k) eqn:E; simpl.
    + by rewrite String.eqb_refl.
    + by rewrite E.
Qed.

Lemma dict_get_set_ne {V} k k' (v : V) d :
  k ≠ k' -> dict_get k' (dict_set k v d) = dict_get k' d.
Proof.
  intros Hne. induction d as [|[k0 v0] d IH]; simpl.
  - destruct (String.eqb k k') eqn:E; [|done].
    by apply String.eqb_eq in E.
  - destruct (String.eqb k0 k) eqn:E; simpl.
    + apply String.eqb_eq in E; subst k0.
      destruct (String.eqb k k') eqn:E'; [|done].
      by apply String.eqb_eq in E'.
    + by rewrite IH.
Qed.

Lemma dict_keys_set {V} k (v : V) d :
  dict_keys (dict_set k v d) =
  if bool_decide (k ∈ dict_keys d) then dict_keys d else (dict_keys d ++ [k])%list.
Proof.
  induction d as [|[k0 v0] d IH]; simpl; [done|].
  destruct (String.eqb k0 k) eqn:E; simpl.
  - apply String.eqb_eq in E; subst k0.
    rewrite bool_decide_eq_true_2; [done|]. unfold dict_keys; simpl. set_solver.
  - apply String.eqb_neq in E. unfold dict_keys in *; simpl. rewrite IH.
    destruct (decide (k ∈ map fst d)) as [Hin|Hin].
    + rewrite !bool_decide_eq_true_2; [done| set_solver |done].
    + rewrite !bool_decide_eq_false_2; [done| set_solver |done].
Qed.

Lemma dict_keys_set_NoDup {V} k (v : V) d :
  NoDup (dict_keys d) -> NoDup (dict_keys (dict_set k v d)).
Proof.
  intros Hd. rewrite dict_keys_set. case_bool_decide; [done|].
  apply NoDup_app. split; [done|]. split; [|apply NoDup_singleton].
  intros x Hx Hx'. apply list_elem_of_singleton in Hx'. by subst.
Qed.

Lemma dict_set_app_fresh {V} k (v p : V) a b :
  k ∉ dict_keys a -> dict_set k v (a ++ (k, p) :: b)%list = (a ++ (k, v) :: b)%list.
Proof.
  induction a as [|[k0 v0] a IH]; simpl; intros Hk.
  - by rewrite String.eqb_refl.
  - unfold dict_keys in Hk; simpl in Hk.
    destruct (String.eqb k0 k) eqn:E.
    + apply String.eqb_eq in E. set_solver.
    + rewrite IH; [done|]. unfold dict_keys. set_solver.
Qed.

(** Rewriting every value of a dictionary while iterating over it. *)
Lemma dict_update_all {V} (f : V -> V) (done_ todo : list (string * V)) :
  NoDup (dict_keys (done_ ++ todo)%list) ->
  fold_left (fun d kp => dict_set kp.1 (f kp.2) d) todo
            (map (fun kp => (kp.1, f kp.2)) done_ ++ todo)%list
  = map (fun kp => (kp.1, f kp.2)) (done_ ++ todo)%list.
Proof.
  revert done_. induction todo as [|[k p] todo IH]; intros done_ Hnd; simpl.
  - by rewrite !app_nil_r.
  - rewrite dict_set_app_fresh.
    + specialize (IH (done_ ++ [(k, p)])%list).
      rewrite map_app in IH; simpl in IH. rewrite <- !app_assoc in IH; simpl in IH.
      apply IH. exact Hnd.
    + unfold dict_keys in *. rewrite map_app in Hnd. apply NoDup_app in Hnd as (_ & Hd & _).
      rewrite map_map; simpl. intros Hin. apply (Hd k); [done|]. simpl. set_solver.
Qed.

Lemma network_state_dict_NoDup m : NoDup (dict_keys (network_state_dict m)).
Proof.
  unfold network_state_dict. generalize (m_params m).
  assert (forall (l : list (string * param_info)) (d : list (string * ptensor)),
    NoDup (dict_keys d) ->
    NoDup (dict_keys (fold_left (fun d kv => dict_set kv.1
      {| p_of := m_weights m; p_name := kv.1; p_device := m_device m |} d) l d))) as H.
  { induction l as [|kv l IH]; simpl; [done|].
    intros d Hd. apply IH. by apply dict_keys_set_NoDup. }
  intros l. apply H. constructor.
Qed.

(** ** Checkpoints, inference, batches *)

Lemma save_network_content m :
  fold_left (fun d kp => dict_set kp.1 (ptensor_cpu kp.2) d)
            (network_state_dict m) (network_state_dict m)
  = map (fun kp => (kp.1, ptensor_cpu kp.2)) (network_state_dict m).
Proof.
  apply (dict_update_all ptensor_cpu [] (network_state_dict m)).
  apply network_state_dict_NoDup.
Qed.

Lemma save_network_run (net : network) (label : string) (iter_step : Z) (s : state) :
  save_network net label iter_step s
    = (Ok tt,
       {| self := self s;
          world := set_files
            (<[os_path_join (Opt.models (Opt.path (opt (self s))))
                            (pretty iter_step +:+ "_" +:+ label +:+ ".pth")
               := map (fun kp => (kp.1, ptensor_cpu kp.2)) (network_state_dict (inner net))]>
               (files (world s))) (world s) |}).
Proof.
  unfold save_network, torch_save. mrun.
  replace (inner (if isinstance_DataParallel net then Plain (inner net) else net))
    with (inner net) by (by destruct net as [[] ?]).
  by rewrite save_network_content.
Qed.

(** C8. [save_network] writes one file, whose name is made of the iteration
    and the network label, holding the network's parameter mapping with
    every parameter moved to the CPU (same keys, same order); the object
    and everything else in the world stay as they were. *)
Theorem save_network_cpu_checkpoint (net : network) (label : string) (iter_step : Z)
    (s : state) :
  let path := os_path_join (Opt.models (Opt.path (opt (self s))))
                           (pretty iter_step +:+ "_" +:+ label +:+ ".pth") in
  let content := map (fun kp => (kp.1, ptensor_cpu kp.2)) (network_state_dict (inner net)) in
  save_network net label iter_step s
    = (Ok tt, {| self := self s;
                 world := set_files (<[path := content]> (files (world s))) (world s) |})
  /\ Forall (fun kp => p_device kp.2 = cpu) content
  /\ dict_keys content = dict_keys (network_state_dict (inner net)).
Proof.
  intros path content. split; [|split].
  - apply save_network_run.
  - subst content. apply Forall_forall. intros kp Hin.
    apply list_elem_of_fmap in Hin as (kp' & -> & _). reflexivity.
  - subst content. unfold dict_keys. rewrite map_map. reflexivity.
Qed.

Lemma attr_run {A} (name : string) (proj : SRGANModel -> option A) (s : state) (a : A) :
  proj (self s) = Some a -> attr name proj s = (Ok a, s).
Proof. intros H. unfold attr. by rewrite H. Qed.

Lemma attr_fail {A} (name : string) (proj : SRGANModel -> option A) (s : state) :
  proj (self s) = None -> attr name proj s = (Raise (AttributeError name), s).
Proof. intros H. unfold attr. by rewrite H. Qed.

Lemma files_set_files (f : gmap string (list (string * ptensor))) (w : World) :
  files (set_files f w) = f.
Proof. reflexivity. Qed.

(** [save]: the generator is written first; the discriminator must exist. *)
Lemma save_run (s : state) (iter_step : Z) (nG : network) :
  netG (self s) = Some nG ->
  let file label := os_path_join (Opt.models (Opt.path (opt (self s))))
                                 (pretty iter_step +:+ "_" +:+ label +:+ ".pth") in
  let saved (net : network) :=
    map (fun kp => (kp.1, ptensor_cpu kp.2)) (network_state_dict (inner net)) in
  let wG := set_files (<[file "G" := saved nG]> (files (world s))) (world s) in
  save iter_step s
  = match netD (self s) with
    | Some nD =>
        (Ok tt, {| self := self s;
                   world := set_files (<[file "D" := saved nD]> (files wG)) wG |})
    | None => (Raise (AttributeError "netD"), {| self := self s; world := wG |})
    end.
Proof.
  intros HG file saved wG. unfold save.
  rewrite bind_run, (attr_run _ _ _ nG HG).
  rewrite bind_run, save_network_run.
  rewrite bind_run. unfold attr at 1. cbn [self].
  destruct (netD (self s)) as [nD|]; [|reflexivity].
  rewrite save_network_run. reflexivity.
Qed.

(** C7. [test()] runs the generator in evaluation mode and without gradient
    tracking on the stored low-resolution input, stores the result in
    [fake_H] and leaves the generator in training mode; nothing else in the
    object or the world changes. *)
Theorem test_effect (s : state) (net : network) (x : tensor) :
  netG (self s) = Some net ->
  var_L (self s) = Some x ->
  test s = (Ok tt,
            {| self := set_fake_H (Some (Forward G (m_weights (inner net)) false false x))
                         (set_netG (Some (net_train net)) (self s));
               world := world s |}).
Proof.
  destruct s as [m w]; destruct m, w; simpl. intros -> ->.
  unfold test, no_grad, call. mrun. reflexivity.
Qed.

Lemma test_effect_witness :
  exists net x,
    netG (self Example.tested0) = Some net /\ var_L (self Example.tested0) = Some x /\
    fake_H (self (test Example.tested0).2)
      = Some (Forward G (Initial "G") false false (To cpu (Data "lr" 4))).
Proof.
  eexists _, _. split; [reflexivity|]. split; [reflexivity|].
  rewrite (test_effect Example.tested0 _ _ eq_refl eq_refl). reflexivity.
Defined.

(** C9. For a batch holding "LR" and "HR", [feed_data] with [need_HR] takes
    the reference from "ref" when the batch has one and from "HR" otherwise,
    so the reference is defined afterwards. *)
Theorem feed_data_reference (data : gmap string tensor) (s : state) (lr hr : tensor) :
  data !! "LR" = Some lr ->
  data !! "HR" = Some hr ->
  let dev := device (self s) in
  feed_data data true s
    = (Ok tt,
       {| self := set_var_ref (Some (To dev (default hr (data !! "ref"))))
                    (set_var_H (Some (To dev hr))
                       (set_var_L (Some (To dev lr)) (self s)));
          world := world s |}).
Proof.
  intros HL HH dev. unfold feed_data, getitem. cbn. rewrite HL. cbn. rewrite HH. cbn.
  destruct (data !! "ref") as [r|] eqn:Hr.
  - rewrite bool_decide_eq_true_2 by eauto. cbn. reflexivity.
  - rewrite bool_decide_eq_false_2 by (intros [? ?]; discriminate). reflexivity.
Qed.

Lemma feed_data_reference_witness :
  var_ref (self (feed_data Example.batch_ref true Example.tested0).2)
    = Some (To cpu (Data "ref" 4)) /\
  var_ref (self (feed_data Example.batch true Example.tested0).2)
    = Some (To cpu (Data "hr" 4)).
Proof.
  split.
  - rewrite (feed_data_reference Example.batch_ref Example.tested0
               (Data "lr" 4) (Data "hr" 4) eq_refl eq_refl). reflexivity.
  - rewrite (feed_data_reference Example.batch Example.tested0
               (Data "lr" 4) (Data "hr" 4) eq_refl eq_refl). reflexivity.
Defined.

(** ** Resuming a training state *)

Lemma resume_optimizer_run (i r : nat) (o : optim_state) (s : state) :
  optimizers (self s) !! i = Some r ->
  resume_optimizer i o s
    = (Ok tt, {| self := self s;
                 world := set_heap (alter (optimizer_load_state_dict o) r (heap (world s)))
                                   (world s) |}).
Proof. intros H. unfold resume_optimizer. mrun. by rewrite H. Qed.

Lemma resume_scheduler_run (i : nat) (sc : scheduler) (sd : sched_state) (s : state) :
  schedulers (self s) !! i = Some sc ->
  resume_scheduler i sd s
    = (Ok tt, {| self := set_schedulers
                           (alter (scheduler_load_state_dict sd) i (schedulers (self s)))
                           (self s);
                 world := world s |}).
Proof. intros H. unfold resume_scheduler. mrun. by rewrite H. Qed.

Lemma resume_optimizers_loop (sds : list optim_state) :
  forall (pre suf : list nat) (s : state),
    optimizers (self s) = (pre ++ suf)%list ->
    length sds = length suf ->
    for_enumerate (length pre) sds resume_optimizer s
      = (Ok tt, {| self := self s;
                   world := set_heap (load_optimizers suf sds (heap (world s))) (world s) |}).
Proof.
  induction sds as [|sd sds IH]; intros pre suf s Hs Hlen.
  - destruct suf; [|done]. destruct s as [m []]; reflexivity.
  - destruct suf as [|r suf]; [done|]. simpl in Hlen.
    specialize (IH (pre ++ [r])%list suf).
    rewrite length_app, Nat.add_1_r in IH.
    cbn [for_enumerate]. rewrite bind_run.
    rewrite (resume_optimizer_run _ r).
    2:{ rewrite Hs, lookup_app_r by lia. by rewrite Nat.sub_diag. }
    rewrite IH; cbn.
    + reflexivity.
    + by rewrite Hs, <- app_assoc.
    + lia.
Qed.

Lemma resume_schedulers_loop (sds : list sched_state) :
  forall (pre suf : list scheduler) (s : state),
    schedulers (self s) = (pre ++ suf)%list ->
    length sds = length suf ->
    for_enumerate (length pre) sds resume_scheduler s
      = (Ok tt, {| self := set_schedulers (pre ++ load_schedulers sds suf) (self s);
                   world := world s |}).
Proof.
  induction sds as [|sd sds IH]; intros pre suf s Hs Hlen.
  - destruct suf; [|done]. destruct s as [[] w]; simpl in *. subst.
    by rewrite app_nil_r.
  - destruct suf as [|r suf]; [done|]. simpl in Hlen.
    specialize (IH (pre ++ [scheduler_load_state_dict sd r])%list suf).
    rewrite length_app, Nat.add_1_r in IH.
    cbn [for_enumerate]. rewrite bind_run.
    rewrite (resume_scheduler_run _ r).
    2:{ rewrite Hs, lookup_app_r by lia. by rewrite Nat.sub_diag. }
    rewrite IH; cbn.
    + destruct s as [[] w]; cbn. by rewrite <- app_assoc.
    + destruct s as [[] w]; cbn in *. subst.
      replace (length pre) with (length pre + 0)%nat at 1 by lia.
      rewrite alter_app_r. cbn. by rewrite <- app_assoc.
    + lia.
Qed.

(** C6. [resume_training] raises an AssertionError, before touching anything,
    when the number of optimizer states or of scheduler states in the resume
    state differs from the model's own; when both match it loads the
    optimizer states and then the scheduler states, index by index. *)
Theorem resume_training_length_checked (rs : resume_state) (s : state) :
  (length (rs_optimizers rs) ≠ length (optimizers (self s)) ->
     resume_training rs s = (Raise (AssertionError "Wrong lengths of optimizers"), s))
  /\ (length (rs_optimizers rs) = length (optimizers (self s)) ->
      length (rs_schedulers rs) ≠ length (schedulers (self s)) ->
     resume_training rs s = (Raise (AssertionError "Wrong lengths of schedulers"), s))
  /\ (length (rs_optimizers rs) = length (optimizers (self s)) ->
      length (rs_schedulers rs) = length (schedulers (self s)) ->
     resume_training rs s
       = (Ok tt,
          {| self := set_schedulers
                       (load_schedulers (rs_schedulers rs) (schedulers (self s))) (self s);
             world := set_heap
                        (load_optimizers (optimizers (self s)) (rs_optimizers rs)
                                         (heap (world s))) (world s) |})).
Proof.
  unfold resume_training. split; [|split].
  - intros Hne. apply Nat.eqb_neq in Hne.
    mrun. rewrite Hne. reflexivity.
  - intros He Hne. apply Nat.eqb_eq in He. apply Nat.eqb_neq in Hne.
    mrun. rewrite He. cbn. rewrite Hne. reflexivity.
  - intros He Hs. pose proof He as He'. pose proof Hs as Hs'.
    apply Nat.eqb_eq in He'. apply Nat.eqb_eq in Hs'.
    pose proof (resume_optimizers_loop (rs_optimizers rs) [] (optimizers (self s)) s
                  eq_refl He) as H1. cbn in H1.
    mrun. rewrite He'. cbn. rewrite Hs'. cbn.
    rewrite H1.
    pose proof (resume_schedulers_loop (rs_schedulers rs) [] (schedulers (self s))
      {| self := self s;
         world := set_heap (load_optimizers (optimizers (self s)) (rs_optimizers rs)
                              (heap (world s))) (world s) |} eq_refl Hs) as H2.
    cbn in H2. rewrite H2. reflexivity.
Qed.

(** With distinct optimizer objects, every one ends up with the state at its
    own index. *)
Lemma load_optimizers_lookup (refs : list nat) (sds : list optim_state)
    (h : list optimizer) (i r : nat) (sd : optim_state) (o : optimizer) :
  NoDup refs ->
  refs !! i = Some r -> sds !! i = Some sd -> h !! r = Some o ->
  load_optimizers refs sds h !! r = Some (optimizer_load_state_dict sd o).
Proof.
  unfold load_optimizers.
  revert sds h i. induction refs as [|r0 refs IH]; intros sds h i Hnd Hr Hsd Ho; [done|].
  destruct sds as [|sd0 sds]; [done|]. apply NoDup_cons in Hnd as [Hnotin Hnd].
  destruct i as [|i]; simpl in *.
  - injection Hr as ->. injection Hsd as ->.
    assert (forall (l : list (nat * optim_state)) (h' : list optimizer), r ∉ l.*1 ->
      fold_left (fun h ro => alter (optimizer_load_state_dict ro.2) ro.1 h) l h' !! r
      = h' !! r) as Hframe.
    { induction l as [|[r1 s1] l IHl]; intros h' Hn; simpl; [done|].
      rewrite IHl by set_solver. apply list_lookup_alter_ne. set_solver. }
    rewrite Hframe.
    + rewrite list_lookup_alter. rewrite decide_True by done. by rewrite Ho.
    + intros Hin. apply Hnotin.
      apply list_elem_of_fmap in Hin as ([r' sd'] & -> & Hin).
      by apply elem_of_zip_l in Hin.
  - apply (IH sds _ i); try done.
    rewrite list_lookup_alter_ne; [done|].
    intros ->. apply Hnotin. by eapply list_elem_of_lookup_2.
Qed.

(** ** Construction *)

Section ConstructionProperties.

Variable load_state_dict : list (string * ptensor) -> bool -> module -> result unit * weights.
Variable define_G : Opt.config -> network.
Variable define_D : Opt.config -> network.
Variable define_F : Opt.config -> bool -> network.


Lemma init_networks_ok (opt : Opt.config) (w : World) (t : Opt.train_opt) (s1 : state) :
  init_networks load_state_dict define_G define_D opt (before_init opt w) = (Ok t, s1) ->
  Opt.train opt = Some t /\
  exists nG ond logs,
    s1 = {| self := set_netD ond (set_netG (Some nG) (BaseModel_init opt));
            world := set_logged logs w |}
    /\ m_params (inner nG) = m_params (inner (define_G opt))
    /\ match ond with
       | Some nD => Opt.is_train opt = true
                    /\ m_params (inner nD) = m_params (inner (define_D opt))
       | None => Opt.is_train opt = false
       end.
Proof.
  destruct opt as [gpu tr [t'|] [models ts pG pD]]; destruct w as [fs lg rg ge hp];
    unfold init_networks, before_init; [|mexec; discriminate].
  match goal with |- context [define_G ?c] =>
    destruct (define_G c) as [wrG [? ? ? ? ? ? ?]], (define_D c) as [wrD [? ? ? ? ? ? ?]] end.
  destruct tr, pG as [pg|], pD as [pd|]; mexec;
    repeat match goal with
    | |- context [read_file ?w ?p] => destruct (read_file w p) eqn:?; mexec
    | |- context [load_state_dict ?a ?b ?c] =>
        destruct (load_state_dict a b c) as [[[]|?] ?] eqn:?; mexec
    end; try discriminate; intros [= <- <-]; (split; [reflexivity|]).
  all: first [ eexists _, (Some _), _; split; [reflexivity|]; by repeat split
             | eexists _, None, _; split; [reflexivity|]; by repeat split ].
Qed.

Lemma init_networks_heap (opt : Opt.config) (w : World) (r : result Opt.train_opt)
    (s1 : state) :
  init_networks load_state_dict define_G define_D opt (before_init opt w) = (r, s1) ->
  heap (world s1) = heap w.
Proof.
  destruct opt as [gpu tr [t'|] [models ts pG pD]]; destruct w as [fs lg rg ge hp];
    unfold init_networks, before_init; [|mexec; by intros [= <- <-]].
  match goal with |- context [define_G ?c] =>
    destruct (define_G c) as [wrG [? ? ? ? ? ? ?]], (define_D c) as [wrD [? ? ? ? ? ? ?]] end.
  destruct tr, pG as [pg|], pD as [pd|]; mexec;
    repeat match goal with
    | |- context [read_file ?w ?p] => destruct (read_file w p) eqn:?; mexec
    | |- context [load_state_dict ?a ?b ?c] =>
        destruct (load_state_dict a b c) as [[[]|?] ?] eqn:?; mexec
    end; by intros [= <- <-].
Qed.

Lemma collect_optim_params_run (ps : list (string * param_info)) :
  forall (acc : list string) (s : state),
    collect_optim_params ps acc s
    = (Ok (acc ++ map fst (List.filter (fun kv => requires_grad kv.2) ps))%list,
       {| self := self s;
          world := set_logged (logged (world s) ++ warnings ps) (world s) |}).
Proof.
  induction ps as [|[k [[] n]] ps IH]; intros acc s.
  - cbn. rewrite !app_nil_r. by destruct s as [m []].
  - cbn [collect_optim_params requires_grad]. rewrite IH. unfold warnings.
    cbn. by rewrite <- app_assoc.
  - cbn [collect_optim_params requires_grad]. rewrite bind_run.
    unfold logger_warning. mrun. rewrite IH. unfold warnings.
    cbn. by rewrite <- app_assoc.
Qed.

Ltac train_opt_fields :=
  cbn [Opt.pixel_weight Opt.pixel_criterion Opt.feature_weight Opt.feature_criterion
       Opt.gan_type Opt.gan_weight Opt.D_update_ratio Opt.D_init_iters Opt.gp_weigth
       Opt.weight_decay_G Opt.lr_G Opt.beta1_G Opt.weight_decay_D Opt.lr_D Opt.beta1_D
       Opt.lr_scheme Opt.lr_steps Opt.lr_gamma].

(** The training-only part of the constructor, on the object left by
    [init_networks], either completes with the attributes of [trained_self]
    or stops at the first unsupported setting. *)
Lemma init_training_run (opt : Opt.config) (t : Opt.train_opt) (nG nD : network)
    (w1 : World) :
  let s1 := {| self := set_netD (Some nD) (set_netG (Some nG) (BaseModel_init opt));
               world := w1 |} in
  (valid t = true ->
     exists logs,
       init_training define_F opt t s1
       = (Ok tt, {| self := trained_self define_F opt t nG nD (length (heap w1));
                    world := set_logged logs
                      (set_heap (heap w1 ++ [new_optimizer_G t nG; new_optimizer_D t nD]) w1) |}))
  /\ (valid t = false ->
     exists s', init_training define_F opt t s1 = (Raise (init_error t), s')).
Proof.
  intros s1. subst s1.
  unfold valid, init_error, criterion_ok, trained_self, configured, criterion_of,
    loss_type_error, lr_scheme_error, new_optimizer_G, new_optimizer_D, new_Adam.
  destruct t; train_opt_fields.
  unfold init_training, configure_criterion. train_opt_fields.
  unfold BaseModel_init.
  destruct w1 as [fs lg rg ge hp].
  destruct (Qpositive pixel_weight) eqn:Hpw, (String.eqb pixel_criterion "l1") eqn:Hp1,
    (String.eqb pixel_criterion "l2") eqn:Hp2,
    (Qpositive feature_weight) eqn:Hfw, (String.eqb feature_criterion "l1") eqn:Hf1,
    (String.eqb feature_criterion "l2") eqn:Hf2,
    (String.eqb gan_type "wgan-gp") eqn:Hgan,
    (String.eqb lr_scheme "MultiStepLR") eqn:Hsch;
    (split; intros Hv; [try discriminate Hv | try discriminate Hv]);
    mexec; rewrite ?collect_optim_params_run; mexec;
    eexists; rewrite <- ?app_assoc, ?length_app, ?Nat.add_1_r; reflexivity.
Qed.

Lemma print_network_test_mode (nG : network) (opt : Opt.config) (w : World) :
  Opt.is_train opt = false ->
  exists logs,
    print_network {| self := set_netD None (set_netG (Some nG) (BaseModel_init opt));
                     world := w |}
    = (Ok tt, {| self := set_netD None (set_netG (Some nG) (BaseModel_init opt));
                 world := set_logged logs w |}).
Proof.
  destruct opt as [gpu tr ot pth], w as [fs lg rg ge hp], nG as [wrG [? ? ? ? ? ? ?]].
  cbn [Opt.is_train]. intros ->. mexec. eexists. reflexivity.
Qed.

Lemma print_network_train_mode (opt : Opt.config) (t : Opt.train_opt) (nG nD : network)
    (r : nat) (w : World) :
  Opt.is_train opt = true ->
  exists logs,
    print_network {| self := trained_self define_F opt t nG nD r; world := w |}
    = (Ok tt, {| self := trained_self define_F opt t nG nD r; world := set_logged logs w |}).
Proof.
  destruct opt as [gpu tr ot pth], w as [fs lg rg ge hp], nG as [wrG [? ? ? ? ? ? ?]],
    nD as [wrD [? ? ? ? ? ? ?]], t.
  cbn [Opt.is_train]. intros ->. unfold trained_self. train_opt_fields.
  destruct (define_F _ false) as [wrF [? ? ? ? ? ? ?]].
  destruct (configured feature_weight feature_criterion); mexec; eexists; reflexivity.
Qed.

Lemma bind_get_self {B} (f : SRGANModel -> M B) (s : state) :
  (get_self ≫= f) s = f (self s) s.
Proof. reflexivity. Qed.

Lemma bind_ret_run {A B} (a : A) (f : A -> M B) (s : state) :
  (mret a ≫= f) s = f a s.
Proof. reflexivity. Qed.

(** The constructor, once the networks are created and loaded: in test mode
    it only describes the generator; in training mode it completes exactly
    when the settings are [valid] and stops with [init_error] otherwise. *)
Lemma SRGANModel_init_run (opt : Opt.config) (w : World) (t : Opt.train_opt) (s1 : state) :
  init_networks load_state_dict define_G define_D opt (before_init opt w) = (Ok t, s1) ->
  exists nG,
    netG (self s1) = Some nG /\
    if Opt.is_train opt then
      exists nD, netD (self s1) = Some nD /\
        (valid t = true ->
           exists logs,
             SRGANModel_init load_state_dict define_G define_D define_F opt w
             = (Ok tt, {| self := trained_self define_F opt t nG nD (length (heap w));
                          world := set_logged logs
                            (set_heap (heap w ++ [new_optimizer_G t nG; new_optimizer_D t nD])
                                      w) |}))
        /\ (valid t = false ->
           exists s', SRGANModel_init load_state_dict define_G define_D define_F opt w
                      = (Raise (init_error t), s'))
    else
      exists logs,
        SRGANModel_init load_state_dict define_G define_D define_F opt w
        = (Ok tt, {| self := set_netD None (set_netG (Some nG) (BaseModel_init opt));
                     world := set_logged logs w |}).
Proof.
  intros H1. unfold SRGANModel_init, SRGANModel_init_body. fold (before_init opt w).
  rewrite bind_run, H1.
  apply init_networks_ok in H1 as (Ht & nG & ond & logs & -> & _ & Hd).
  exists nG. split; [reflexivity|]. rewrite bind_get_self.
  change (is_train (self {| self := set_netD ond (set_netG (Some nG) (BaseModel_init opt));
                            world := set_logged logs w |})) with (Opt.is_train opt).
  destruct ond as [nD|]; [destruct Hd as [Htr _]|]; rewrite ?Htr, ?Hd.
  - exists nD. split; [reflexivity|].
    pose proof (init_training_run opt t nG nD (set_logged logs w)) as [Hok Hbad].
    split; intros Hv.
    + destruct (Hok Hv) as [logs1 E]. rewrite bind_run, E.
      destruct (print_network_train_mode opt t nG nD (length (heap (set_logged logs w)))
                  (set_logged logs1 (set_heap (heap (set_logged logs w) ++
                     [new_optimizer_G t nG; new_optimizer_D t nD]) (set_logged logs w)))
                  Htr) as [logs2 E2].
      rewrite E2. exists logs2. by destruct w.
    + destruct (Hbad Hv) as [s' E]. rewrite bind_run, E. by eexists.
  - destruct (print_network_test_mode nG opt (set_logged logs w) Hd) as [logs2 E2].
    rewrite bind_ret_run, E2. exists logs2. by destruct w.
Qed.

Lemma SRGANModel_init_fails_early (opt : Opt.config) (w : World) (e : exn) (s1 : state) :
  init_networks load_state_dict define_G define_D opt (before_init opt w) = (Raise e, s1) ->
  SRGANModel_init load_state_dict define_G define_D define_F opt w = (Raise e, s1).
Proof.
  intros H1. unfold SRGANModel_init, SRGANModel_init_body. fold (before_init opt w).
  by rewrite bind_run, H1.
Qed.

(** Inversion: what a constructor call that returned has built. *)
Lemma SRGANModel_init_inv (opt : Opt.config) (w : World) (s : state) :
  SRGANModel_init load_state_dict define_G define_D define_F opt w = (Ok tt, s) ->
  exists t nG logs,
    Opt.train opt = Some t /\
    if Opt.is_train opt then
      exists nD,
        valid t = true /\
        s = {| self := trained_self define_F opt t nG nD (length (heap w));
               world := set_logged logs
                 (set_heap (heap w ++ [new_optimizer_G t nG; new_optimizer_D t nD]) w) |}
    else
      s = {| self := set_netD None (set_netG (Some nG) (BaseModel_init opt));
             world := set_logged logs w |}.
Proof.
  intros H.
  destruct (init_networks load_state_dict define_G define_D opt (before_init opt w)) as [[t|e] s1] eqn:H1.
  - pose proof (init_networks_ok _ _ _ _ H1) as [Ht _].
    destruct (SRGANModel_init_run _ _ _ _ H1) as (nG & _ & Hrun).
    destruct (Opt.is_train opt) eqn:Htr.
    + destruct Hrun as (nD & _ & Hok & Hbad).
      destruct (valid t) eqn:Hv.
      * destruct (Hok eq_refl) as [logs E]. rewrite E in H. injection H as <-.
        exists t, nG, logs. split; [done|]. exists nD. done.
      * destruct (Hbad eq_refl) as [s' E]. rewrite E in H. discriminate.
    + destruct Hrun as [logs E]. rewrite E in H. injection H as <-.
      exists t, nG, logs. done.
  - rewrite (SRGANModel_init_fails_early _ _ _ _ H1) in H. discriminate.
Qed.

Lemma Qpositive_spec (w : Q) : Qpositive w = true <-> (0 < w)%Q.
Proof.
  unfold Qpositive. rewrite negb_true_iff. split.
  - intros H. apply Qnot_le_lt. intros Hle. apply Qle_bool_iff in Hle. congruence.
  - intros H. destruct (Qle_bool w 0) eqn:E; [|done].
    apply Qle_bool_iff in E. exfalso. by apply (Qlt_not_le 0 w).
Qed.

Lemma criterion_of_None (l : string) : criterion_of l = None <-> l ≠ "l1" /\ l ≠ "l2".
Proof.
  unfold criterion_of.
  destruct (String.eqb l "l1") eqn:E1; [apply String.eqb_eq in E1; subst|].
  { split; [done|]. by intros [? _]. }
  destruct (String.eqb l "l2") eqn:E2; [apply String.eqb_eq in E2; subst|].
  { split; [done|]. by intros [_ ?]. }
  apply String.eqb_neq in E1, E2. done.
Qed.

Lemma criterion_ok_false (w : Q) (l : string) :
  criterion_ok w l = false <-> (0 < w)%Q /\ l ≠ "l1" /\ l ≠ "l2".
Proof.
  unfold criterion_ok. rewrite orb_false_iff, negb_false_iff, Qpositive_spec.
  rewrite bool_decide_eq_false, <- criterion_of_None, <- eq_None_not_Some. done.
Qed.

(** C4 (as the code has it). In training mode, once the networks are created
    and loaded, a positive pixel weight with a pixel criterion other than
    "l1"/"l2", or a positive feature weight with such a feature criterion,
    makes the constructor raise NotImplementedError naming the first
    offending loss type.  Under a weight that is not positive the criterion
    is not looked at: whatever it is, the constructor goes by the other
    settings alone (it returns when they are accepted, and otherwise raises
    for them), and it returns with that loss removed: no criterion and no
    weight, and for the feature loss no feature network. *)
Theorem loss_type_rejected (opt : Opt.config) (w : World) (t : Opt.train_opt) (s1 : state) :
  init_networks load_state_dict define_G define_D opt (before_init opt w) = (Ok t, s1) ->
  Opt.is_train opt = true ->
  let pix_ok := criterion_ok (Opt.pixel_weight t) (Opt.pixel_criterion t) in
  let fea_ok := criterion_ok (Opt.feature_weight t) (Opt.feature_criterion t) in
  let run := SRGANModel_init load_state_dict define_G define_D define_F opt w in
  (((0 < Opt.pixel_weight t)%Q /\
      Opt.pixel_criterion t ≠ "l1" /\ Opt.pixel_criterion t ≠ "l2")
   \/ ((0 < Opt.feature_weight t)%Q /\
      Opt.feature_criterion t ≠ "l1" /\ Opt.feature_criterion t ≠ "l2") ->
   exists s',
     run = (Raise (loss_type_error
                     (if pix_ok then Opt.feature_criterion t else Opt.pixel_criterion t)), s'))
  /\ (~ (0 < Opt.pixel_weight t)%Q ->
      pix_ok = true
      /\ (fea_ok = true -> Opt.lr_scheme t = "MultiStepLR" ->
          exists s, run = (Ok tt, s)
                    /\ cri_pix (self s) = Some None /\ l_pix_w (self s) = None)
      /\ (fea_ok = false ->
          exists s', run = (Raise (loss_type_error (Opt.feature_criterion t)), s'))
      /\ (fea_ok = true -> Opt.lr_scheme t ≠ "MultiStepLR" ->
          exists s', run = (Raise lr_scheme_error, s')))
  /\ (~ (0 < Opt.feature_weight t)%Q ->
      fea_ok = true
      /\ (pix_ok = true -> Opt.lr_scheme t = "MultiStepLR" ->
          exists s, run = (Ok tt, s)
                    /\ cri_fea (self s) = Some None /\ l_fea_w (self s) = None
                    /\ netF (self s) = None)
      /\ (pix_ok = false ->
          exists s', run = (Raise (loss_type_error (Opt.pixel_criterion t)), s'))
      /\ (pix_ok = true -> Opt.lr_scheme t ≠ "MultiStepLR" ->
          exists s', run = (Raise lr_scheme_error, s'))).
Proof.
  intros H1 Htr pix_ok fea_ok run. subst pix_ok fea_ok run.
  destruct (SRGANModel_init_run _ _ _ _ H1) as (nG & _ & Hrun).
  rewrite Htr in Hrun. destruct Hrun as (nD & _ & Hok & Hfail).
  assert (forall q l, ~ (0 < q)%Q -> Qpositive q = false /\ criterion_ok q l = true) as Hnp.
  { intros q l Hq. assert (Qpositive q = false) as E.
    { destruct (Qpositive q) eqn:E; [|done]. by apply Qpositive_spec in E. }
    split; [exact E|]. unfold criterion_ok. by rewrite E. }
  split; [|split].
  - intros Hbad.
    assert (criterion_ok (Opt.pixel_weight t) (Opt.pixel_criterion t) = false
            \/ criterion_ok (Opt.feature_weight t) (Opt.feature_criterion t) = false)
      as Hbad' by (rewrite !criterion_ok_false; exact Hbad).
    assert (valid t = false) as Hv.
    { unfold valid. destruct Hbad' as [-> | ->]; [done|].
      by rewrite andb_false_r. }
    destruct (Hfail Hv) as [s' E]. exists s'. rewrite E. f_equal. f_equal.
    unfold init_error.
    destruct (criterion_ok (Opt.pixel_weight t) (Opt.pixel_criterion t)); cbn; [|done].
    destruct Hbad' as [? | ->]; done.
  - intros Hq. destruct (Hnp _ (Opt.pixel_criterion t) Hq) as [HQ Hp].
    split; [exact Hp|]. split; [|split].
    + intros Hf Hs. apply String.eqb_eq in Hs.
      destruct (Hok ltac:(unfold valid; by rewrite Hp, Hf, Hs)) as [logs E].
      eexists. split; [exact E|]. cbn [self]. unfold trained_self, configured.
      cbn [cri_pix l_pix_w]. by rewrite HQ.
    + intros Hf.
      destruct (Hfail ltac:(unfold valid; by rewrite Hp, Hf)) as [s' E].
      exists s'. rewrite E. unfold init_error. by rewrite Hp, Hf.
    + intros Hf Hs. apply String.eqb_neq in Hs.
      destruct (Hfail ltac:(unfold valid; by rewrite Hp, Hf, Hs)) as [s' E].
      exists s'. rewrite E. unfold init_error. by rewrite Hp, Hf.
  - intros Hq. destruct (Hnp _ (Opt.feature_criterion t) Hq) as [HQ Hf].
    split; [exact Hf|]. split; [|split].
    + intros Hp Hs. apply String.eqb_eq in Hs.
      destruct (Hok ltac:(unfold valid; by rewrite Hp, Hf, Hs)) as [logs E].
      eexists. split; [exact E|]. cbn [self]. unfold trained_self, configured.
      cbn [cri_fea l_fea_w netF]. by rewrite HQ.
    + intros Hp.
      destruct (Hfail ltac:(unfold valid; by rewrite Hp)) as [s' E].
      exists s'. rewrite E. unfold init_error. by rewrite Hp.
    + intros Hp Hs. apply String.eqb_neq in Hs.
      destruct (Hfail ltac:(unfold valid; by rewrite Hp, Hf, Hs)) as [s' E].
      exists s'. rewrite E. unfold init_error. by rewrite Hp, Hf.
Qed.

(** C5. In training mode, once the networks are created and loaded, a
    learning-rate scheme other than "MultiStepLR" makes the constructor
    raise NotImplementedError (the scheme's own one when the loss settings
    are accepted); with "MultiStepLR" and accepted loss settings the
    constructor returns with two optimizers, one for each network, and one
    MultiStepLR scheduler attached to each, in the same order. *)
Theorem lr_scheme_checked (opt : Opt.config) (w : World) (t : Opt.train_opt) (s1 : state) :
  init_networks load_state_dict define_G define_D opt (before_init opt w) = (Ok t, s1) ->
  Opt.is_train opt = true ->
  let losses_ok := criterion_ok (Opt.pixel_weight t) (Opt.pixel_criterion t) = true
                   /\ criterion_ok (Opt.feature_weight t) (Opt.feature_criterion t) = true in
  (Opt.lr_scheme t ≠ "MultiStepLR" ->
     exists msg s',
       SRGANModel_init load_state_dict define_G define_D define_F opt w = (Raise (NotImplementedError msg), s')
       /\ (losses_ok -> msg = "MultiStepLR learning rate scheme is enough."))
  /\ (Opt.lr_scheme t = "MultiStepLR" -> losses_ok ->
     exists s rG rD oG oD,
       SRGANModel_init load_state_dict define_G define_D define_F opt w = (Ok tt, s)
       /\ optimizer_G (self s) = Some rG /\ optimizer_D (self s) = Some rD
       /\ rG ≠ rD
       /\ heap (world s) !! rG = Some oG /\ o_net oG = G
       /\ heap (world s) !! rD = Some oD /\ o_net oD = D
       /\ optimizers (self s) = [rG; rD]
       /\ schedulers (self s) = [MultiStepLR rG (Opt.lr_steps t) (Opt.lr_gamma t);
                                 MultiStepLR rD (Opt.lr_steps t) (Opt.lr_gamma t)]).
Proof.
  intros H1 Htr losses_ok.
  destruct (SRGANModel_init_run _ _ _ _ H1) as (nG & _ & Hrun).
  rewrite Htr in Hrun. destruct Hrun as (nD & _ & Hok & Hfail).
  split.
  - intros Hs. apply String.eqb_neq in Hs.
    assert (valid t = false) as Hv by (unfold valid; rewrite Hs; apply andb_false_r).
    destruct (Hfail Hv) as [s' E].
    unfold init_error, loss_type_error, lr_scheme_error in E.
    destruct (criterion_ok (Opt.pixel_weight t) (Opt.pixel_criterion t)) eqn:E1;
      [destruct (criterion_ok (Opt.feature_weight t) (Opt.feature_criterion t)) eqn:E2|];
      cbn in E; eexists _, s'; (split; [exact E|]); intros [? ?]; done.
  - intros Hs [Hp Hf]. apply String.eqb_eq in Hs.
    assert (valid t = true) as Hv by (unfold valid; by rewrite Hp, Hf, Hs).
    destruct (Hok Hv) as [logs E].
    eexists _, (length (heap w)), (S (length (heap w))),
      (new_optimizer_G t nG), (new_optimizer_D t nD).
    split; [exact E|]. cbn [self world].
    replace (heap (set_logged logs (set_heap
               (heap w ++ [new_optimizer_G t nG; new_optimizer_D t nD]) w)))
      with (heap w ++ [new_optimizer_G t nG; new_optimizer_D t nD])%list
      by (by destruct w).
    split; [reflexivity|]. split; [reflexivity|]. split; [lia|].
    split; [by rewrite lookup_app_r, Nat.sub_diag by lia|].
    split; [reflexivity|].
    split; [rewrite lookup_app_r by lia;
            by replace (S (length (heap w)) - length (heap w))%nat with 1%nat by lia|].
    repeat split; reflexivity.
Qed.

(** C10. The discriminator is an attribute of the constructed object exactly
    in training mode, so [save], which saves the generator and then the
    discriminator, returns in training mode (having written both files) and
    raises AttributeError on [netD] otherwise. *)
Theorem save_needs_training_mode (opt : Opt.config) (w : World) (s : state) :
  SRGANModel_init load_state_dict define_G define_D define_F opt w = (Ok tt, s) ->
  (is_Some (netD (self s)) <-> Opt.is_train opt = true)
  /\ forall iter_step : Z,
       let file label := os_path_join (Opt.models (Opt.path opt))
                                      (pretty iter_step +:+ "_" +:+ label +:+ ".pth") in
       (Opt.is_train opt = false ->
          exists s', save iter_step s = (Raise (AttributeError "netD"), s'))
       /\ (Opt.is_train opt = true ->
          exists s', save iter_step s = (Ok tt, s')
                     /\ is_Some (files (world s') !! file "G")
                     /\ is_Some (files (world s') !! file "D")).
Proof.
  rename opt into cfg.
  intros H. apply SRGANModel_init_inv in H as (t & nG & logs & Ht & H).
  destruct (Opt.is_train cfg) eqn:Htr.
  - destruct H as (nD & Hv & ->). split; [split; [done|by eexists]|].
    intros iter_step file. split; [done|]. intros _.
    rewrite (save_run _ iter_step nG) by reflexivity.
    change (netD (self _)) with (Some nD).
    eexists. split; [reflexivity|]. cbn [world]. subst file.
    change (opt (self _)) with cfg.
    rewrite !files_set_files. split.
    + destruct (decide (os_path_join (Opt.models (Opt.path cfg))
                          (pretty iter_step +:+ "_" +:+ "D" +:+ ".pth")
                        = os_path_join (Opt.models (Opt.path cfg))
                          (pretty iter_step +:+ "_" +:+ "G" +:+ ".pth"))) as [E|E].
      * rewrite E. rewrite lookup_insert_eq. eauto.
      * rewrite lookup_insert_ne by done. rewrite lookup_insert_eq. eauto.
    + rewrite lookup_insert_eq. eauto.
  - subst s. split.
    + split; [intros [? ?]; discriminate | discriminate].
    + intros iter_step file. split; [|done]. intros _.
      rewrite (save_run _ iter_step nG) by reflexivity.
      change (netD (self _)) with (@None network).
      eexists. reflexivity.
Qed.

End ConstructionProperties.

(** ** One training iteration *)

(** Symbolic execution on a state given through its training view. *)
Ltac vexec :=
  cbv beta iota zeta delta [
       mbind M_bind mret M_ret get_self get_world modify_self modify_world attr raise
       assert getitem opt_train callable local set_net get_net update_net
       net_attr set_schedulers set_optimizers set_netG set_netD set_netF set_cri_pix
       set_l_pix_w set_cri_fea set_l_fea_w set_cri_gan set_l_gan_w set_D_update_ratio
       set_D_init_iters set_random_pt set_cri_gp set_l_gp_w set_optimizer_G
       set_optimizer_D set_log_dict set_var_L set_var_H set_var_ref set_fake_H
       set_files set_logged set_rng set_grad_enabled set_heap opt device is_train
       schedulers optimizers netG netD netF cri_pix l_pix_w cri_fea l_fea_w cri_gan
       l_gan_w D_update_ratio D_init_iters random_pt cri_gp l_gp_w optimizer_G
       optimizer_D log_dict var_L var_H var_ref fake_H files logged rng grad_enabled
       heap self world map_inner inner wrapped with_weights with_grad with_device
       with_training net_to net_train net_eval isinstance_DataParallel m_class m_repr
       m_params m_weights m_grad m_device m_training andb orb negb fst snd Opt.train
       Opt.is_train Opt.gpu_ids Opt.path Opt.pretrain_model_G Opt.pretrain_model_D
       Opt.models Opt.training_state Opt.pixel_weight Opt.pixel_criterion
       Opt.feature_weight Opt.feature_criterion Opt.gan_type Opt.gan_weight
       Opt.D_update_ratio Opt.D_init_iters Opt.gp_weigth Opt.weight_decay_G Opt.lr_G
       Opt.beta1_G Opt.weight_decay_D Opt.lr_D Opt.beta1_D Opt.lr_scheme Opt.lr_steps
       Opt.lr_gamma gl_type gl_real gl_fake gp_device o_net o_params o_state l_d_real
       l_d_fake l_d_gp pred_d_real pred_d_fake load load_network torch_load
       logger_info logger_warning BaseModel_init print_network
       describe get_network_description save test no_grad call feed_data
       get_current_log backward Adam torch_save
       log_set py_mod generator_turn is_wgan_gp gan_loss forward_generator
       generator_update gradient_penalty discriminator_update record_losses
       optimize_parameters for_each option_bind option_fmap option_map fmap t_opt
       t_train t_device t_schedulers t_optimizers t_netG t_netD t_pix t_fea t_gan
       t_gan_w t_ratio t_init t_gp t_rG t_rD t_log t_L t_H t_ref t_fake state_of
       self_of forward add_opt accumulated updated turn wgan_gp exp_l_g_pix
       exp_l_g_fea exp_l_g_gan exp_l_g_total exp_pred_d_real exp_pred_d_fake
       exp_l_d_real exp_l_d_fake drawn interp exp_l_d_gp exp_l_d_total exp_d_locals
       forwarded G_updated G_world D_updated D_world stepped log_if new_log with_log].

Ltac destruct_net n := destruct n as [? [? ? ? ? ? ? ?]].

(** Decide [reaches n x] for the loss at hand, data tensors being leaves. *)
Ltac eval_reaches HL HH Href :=
  match goal with
  | |- context [reaches ?n ?x] =>
      first
        [ assert (reaches n x = true) as ->
            by (cbn [reaches net_id_eqb andb orb]; rewrite ?HL, ?HH, ?Href; reflexivity)
        | assert (reaches n x = false) as ->
            by (cbn [reaches net_id_eqb andb orb]; rewrite ?HL, ?HH, ?Href; reflexivity) ]
  end.

Lemma zero_grad_run (r : nat) (s : state) (o : optimizer) :
  heap (world s) !! r = Some o ->
  zero_grad r s
  = (Ok tt, {| self := update_net (o_net o) (with_grad NoGrad) (self s); world := world s |}).
Proof. intros H. unfold zero_grad, deref. rewrite bind_run, H. reflexivity. Qed.

Lemma optimizer_step_run (r : nat) (s : state) (o : optimizer) (net : network) :
  heap (world s) !! r = Some o ->
  get_net (o_net o) (self s) = Some net ->
  optimizer_step r s
  = (Ok tt,
     {| self := set_net (o_net o)
                  (map_inner (fun md => with_weights (AdamStep (m_weights md)
                                          (m_grad (inner net))) md) net) (self s);
        world := set_heap (alter (stepped (m_grad (inner net))) r (heap (world s)))
                          (world s) |}).
Proof.
  intros H Hn. unfold optimizer_step, deref, update_net. rewrite bind_run, H.
  cbv beta iota. rewrite bind_get_self. cbv beta. rewrite !Hn.
  rewrite bind_run. unfold modify_self. cbv beta iota. rewrite Hn. reflexivity.
Qed.

Lemma backward_into_reached (loss : tensor) (n : net_id) (m : SRGANModel) (net : network) :
  get_net n m = Some net -> reaches n loss = true -> trainable (inner net) = true ->
  backward_into loss n m = set_net n (accumulated loss net) m.
Proof. intros Hn Hr Ht. unfold backward_into. by rewrite Hn, Hr, Ht. Qed.

Lemma backward_into_skipped (loss : tensor) (n : net_id) (m : SRGANModel) :
  match get_net n m with
  | Some net => reaches n loss && trainable (inner net) = false
  | None => True
  end ->
  backward_into loss n m = m.
Proof. unfold backward_into. destruct (get_net n m); [by intros ->|done]. Qed.

(** Resolve the next [backward_into] on a literal object. *)
Ltac eval_backward HL HH Href :=
  match goal with
  | |- context [backward_into ?loss ?n ?m] =>
      first
        [ erewrite (backward_into_reached loss n m);
            [ | reflexivity
              | cbn [reaches net_id_eqb andb orb]; rewrite ?HL, ?HH, ?Href; reflexivity
              | cbn [inner]; assumption ]
        | rewrite (backward_into_skipped loss n m);
            [ | cbv beta iota delta [get_net netG netD netF];
                first [ exact I
                      | cbn [reaches net_id_eqb andb orb inner];
                        rewrite ?HL, ?HH, ?Href; first [ reflexivity | assumption
                          | rewrite andb_false_r; reflexivity
                          | match goal with H : trainable _ = false |- _ =>
                              rewrite H; apply andb_false_r end ] ] ] ]
  end.

Lemma forward_generator_run (v : training) (w : World) (o : optimizer) :
  heap w !! t_rG v = Some o -> o_net o = G -> grad_enabled w = true ->
  forward_generator (state_of v w) = (Ok tt, state_of (forwarded v) w).
Proof.
  destruct o as [n ps st].
  destruct v as [o t dev sch ops nG nD pix fea gan ganw ratio init gp rG rD lg L H ref fk'].
  destruct w as [fs lgd rg ge hp]. destruct_net nG.
  cbn [heap t_rG o_net grad_enabled]. intros Ho -> ->.
  vexec. erewrite zero_grad_run by exact Ho. vexec. reflexivity.
Qed.

Lemma generator_turn_run (v : training) (w : World) (step : Z) :
  t_ratio v ≠ 0 ->
  generator_turn step (state_of v w) = (Ok (turn v step), state_of v w).
Proof.
  destruct v as [o t dev sch ops nG nD pix fea gan ganw ratio init gp rG rD lg L H ref fk'].
  destruct w as [fs lgd rg ge hp].
  cbn [t_ratio]. intros Hr. apply Z.eqb_neq in Hr.
  vexec. rewrite Hr. by destruct (step mod ratio =? 0).
Qed.

Lemma generator_update_run (v : training) (w : World) (w0 : weights) (tr0 : bool)
    (o : optimizer) :
  let fk := Forward G w0 tr0 true (t_L v) in
  t_fake v = Some fk ->
  heap w !! t_rG v = Some o -> o_net o = G -> grad_enabled w = true ->
  trainable (inner (t_netG v)) = true -> trainable (inner (t_netD v)) = true ->
  leaf (t_L v) -> leaf (t_H v) ->
  generator_update (Num 0) (state_of v w)
  = (Ok (exp_l_g_pix v fk, exp_l_g_fea v fk, exp_l_g_gan v fk),
     state_of (G_updated v fk) (G_world v w fk)).
Proof.
  destruct o as [n ps st].
  destruct v as [o t dev sch ops nG nD pix fea gan ganw ratio init gp rG rD lg L H ref fk'].
  destruct w as [fs lgd rg ge hp]. destruct_net nG. destruct_net nD. destruct gan.
  cbn [heap t_rG o_net grad_enabled t_fake t_netG t_netD t_L t_H inner]. unfold leaf.
  intros -> Ho -> -> HtG HtD HL HH.
  destruct pix as [[cp wp]|], fea as [[[cf wf] [wrF [cF rF pF wF gF dF trF]]]|];
    try destruct (trainable {| m_class := cF; m_repr := rF; m_params := pF; m_weights := wF;
                               m_grad := gF; m_device := dF; m_training := trF |}) eqn:HtF;
    vexec; repeat eval_backward HL HH HL; vexec;
    (erewrite optimizer_step_run; [ | exact Ho | reflexivity ]); vexec;
    rewrite ?HtF; reflexivity.
Qed.

Ltac destruct_train_opt t :=
  destruct t as [pixel_weight pixel_criterion feature_weight feature_criterion gan_type
    gan_weight D_update_ratio' D_init_iters' gp_weigth weight_decay_G lr_G beta1_G
    weight_decay_D lr_D beta1_D lr_scheme lr_steps lr_gamma].

Lemma discriminator_update_run (v : training) (w : World) (fk : tensor) (o : optimizer) :
  t_fake v = Some fk ->
  heap w !! t_rD v = Some o -> o_net o = D -> grad_enabled w = true ->
  Opt.train (t_opt v) = Some (t_train v) ->
  (wgan_gp v = true -> is_Some (t_gp v)) ->
  trainable (inner (t_netD v)) = true ->
  leaf (t_ref v) ->
  discriminator_update (state_of v w)
  = (Ok (exp_d_locals v w fk), state_of (D_updated v w fk) (D_world v w fk)).
Proof.
  destruct o as [n ps st].
  destruct v as [o t dev sch ops nG nD pix fea gan ganw ratio init gp rG rD lg L H ref fk'].
  destruct w as [fs lgd rg ge hp]. destruct_net nG. destruct_net nD. destruct gan.
  destruct o as [gpu tr ot pth]. destruct_train_opt t.
  cbn [heap t_rD o_net grad_enabled t_fake t_netD t_ref t_opt t_train t_gp inner Opt.train
       wgan_gp Opt.gan_type]. unfold leaf.
  intros -> Ho -> -> -> Hgp HtD Href.
  destruct fea as [[[cf wf] [wrF [cF rF pF wF gF dF trF]]]|];
  (destruct (String.eqb gan_type "wgan-gp") eqn:Hw;
   [ destruct (Hgp Hw) as [[[pt cgp] gpw] ->];
     destruct (Nat.eqb (size0 pt) (size0 ref)) eqn:Hsz
   | ]);
    vexec; erewrite zero_grad_run by exact Ho; vexec; rewrite ?Hw; vexec;
    rewrite ?Hsz; vexec;
    repeat eval_backward Href Href Href; vexec;
    (erewrite optimizer_step_run; [ | exact Ho | reflexivity ]); vexec;
    rewrite ?Hw, ?Hsz; reflexivity.
Qed.

Lemma record_losses_run (v : training) (w : World) (step : Z) (lp lf : option tensor)
    (lgan : tensor) (d : d_locals) :
  t_ratio v ≠ 0 ->
  Opt.train (t_opt v) = Some (t_train v) ->
  (is_Some (t_pix v) -> is_Some lp) ->
  (is_Some (t_fea v) -> is_Some lf) ->
  (wgan_gp v = true -> is_Some (l_d_gp d)) ->
  record_losses step (if turn v step then Some (lp, lf, lgan) else None) d (state_of v w)
  = (Ok tt, state_of (with_log (new_log v step lp lf lgan d) v) w).
Proof.
  intros Hr Htr Hp Hf Hgp. unfold record_losses.
  rewrite bind_run, generator_turn_run by exact Hr. clear Hr.
  destruct v as [o t dev sch ops nG nD pix fea gan ganw ratio init gp rG rD lg L H ref fk'].
  destruct w as [fs lgd rg ge hp]. destruct d as [ldr ldf ldgp pdr pdf].
  destruct o as [gpu tr ot pth]. destruct_train_opt t.
  cbn [t_opt t_train t_pix t_fea Opt.train wgan_gp Opt.gan_type l_d_gp] in Htr, Hp, Hf, Hgp.
  subst ot. unfold turn, wgan_gp. cbn [t_ratio t_init t_train Opt.gan_type].
  destruct (step mod ratio =? 0) eqn:Hm, (init <? step) eqn:Hi;
  (destruct (String.eqb gan_type "wgan-gp") eqn:Hw;
     [destruct (Hgp Hw) as [xgp ->]|]);
  destruct pix as [[cp wp]|]; try (destruct (Hp ltac:(eauto)) as [xp ->]);
  destruct fea as [[[cf wf] nF]|]; try (destruct (Hf ltac:(eauto)) as [xf ->]);
  vexec; rewrite ?Hw, ?Hm, ?Hi; vexec; reflexivity.
Qed.

Lemma trainable_map_inner (f : module -> module) (net : network) :
  (forall m, m_params (f m) = m_params m) ->
  trainable (inner (map_inner f net)) = trainable (inner net).
Proof. intros Hf. unfold trainable. cbn [map_inner inner]. by rewrite Hf. Qed.

Lemma optimize_parameters_run (v : training) (w : World) (step : Z) :
  wf v w ->
  optimize_parameters step (state_of v w)
  = (Ok tt, state_of (after v w step).1 (after v w step).2).
Proof.
  intros [Htr Hr Hgp Hrefs (oG & HG & HGn) (oD & HD & HDn) HtG HtD Hge HL HH Href].
  unfold optimize_parameters, after.
  set (fk := forward G (t_netG v) (t_L v)).
  set (v1 := forwarded v).
  rewrite bind_run, (forward_generator_run v w oG HG HGn Hge). fold v1.
  rewrite bind_run, (generator_turn_run v1 w step Hr).
  change (turn v1 step) with (turn v step).
  assert (HtG1 : trainable (inner (t_netG v1)) = true) by exact HtG.
  assert (Hp : is_Some (t_pix v) -> is_Some (exp_l_g_pix v1 fk))
    by (unfold exp_l_g_pix; cbn [v1 forwarded t_pix]; intros [? ->]; by eexists).
  assert (Hf : is_Some (t_fea v) -> is_Some (exp_l_g_fea v1 fk))
    by (unfold exp_l_g_fea; cbn [v1 forwarded t_fea]; intros [? ->]; by eexists).
  cbv beta iota zeta delta [mret M_ret].
  destruct (turn v step) eqn:Hturn; cbn [fst snd].
  - rewrite bind_run, bind_run.
    rewrite (generator_update_run v1 w (m_weights (inner (t_netG v)))
               (m_training (inner (t_netG v))) oG eq_refl HG HGn Hge HtG1 HtD HL HH).
    change (Forward G (m_weights (inner (t_netG v))) (m_training (inner (t_netG v))) true
              (t_L v1)) with fk.
    cbv beta iota zeta delta [mret M_ret].
    set (v2 := G_updated v1 fk). set (w2 := G_world v1 w fk).
    assert (HD2 : heap w2 !! t_rD v2 = Some oD).
    { subst w2 v2. destruct w. cbn. by rewrite list_lookup_alter_ne. }
    assert (HtD2 : trainable (inner (t_netD v2)) = true) by exact HtD.
    assert (Hgp2 : wgan_gp v2 = true -> is_Some (t_gp v2)) by exact Hgp.
    assert (Hge2 : grad_enabled w2 = true) by (subst w2; by destruct w).
    rewrite bind_run.
    rewrite (discriminator_update_run v2 w2 fk oD eq_refl HD2 HDn Hge2 Htr Hgp2 HtD2 Href).
    cbv beta iota zeta delta [mret M_ret].
    set (v3 := D_updated v2 w2 fk).
    assert (Hf3 : is_Some (t_fea v3) -> is_Some (exp_l_g_fea v1 fk)).
    { intros Hs. apply Hf. subst v3 v2 v1. unfold D_updated, G_updated, forwarded in Hs.
      cbn [t_fea] in Hs. destruct (t_fea v); [by eexists | by destruct Hs]. }
    pose proof (record_losses_run v3 (D_world v2 w2 fk) step
                  (exp_l_g_pix v1 fk) (exp_l_g_fea v1 fk) (exp_l_g_gan v1 fk)
                  (exp_d_locals v2 w2 fk) Hr Htr Hp Hf3) as HR.
    change (turn v3 step) with (turn v step) in HR. rewrite Hturn in HR.
    apply HR. intros Hw. unfold exp_d_locals, exp_l_d_gp. cbn [l_d_gp].
    change (wgan_gp v3) with (wgan_gp v) in Hw. change (wgan_gp v2) with (wgan_gp v).
    rewrite Hw. destruct (Hgp Hw) as [x Hx].
    change (t_gp v2) with (t_gp v). rewrite Hx. by eexists.
  - rewrite bind_run. cbv beta iota.
    assert (HD1 : heap w !! t_rD v1 = Some oD) by exact HD.
    assert (HtD1 : trainable (inner (t_netD v1)) = true) by exact HtD.
    assert (Hgp1 : wgan_gp v1 = true -> is_Some (t_gp v1)) by exact Hgp.
    rewrite bind_run.
    rewrite (discriminator_update_run v1 w fk oD eq_refl HD1 HDn Hge Htr Hgp1 HtD1 Href).
    cbv beta iota zeta delta [mret M_ret].
    set (v3 := D_updated v1 w fk).
    pose proof (record_losses_run v3 (D_world v1 w fk) step
                  (exp_l_g_pix v1 fk) (exp_l_g_fea v1 fk) (exp_l_g_gan v1 fk)
                  (exp_d_locals v1 w fk) Hr Htr Hp Hf) as HR.
    change (turn v3 step) with (turn v step) in HR. rewrite Hturn in HR.
    apply HR. intros Hw. unfold exp_d_locals, exp_l_d_gp. cbn [l_d_gp].
    change (wgan_gp v3) with (wgan_gp v) in Hw. change (wgan_gp v1) with (wgan_gp v).
    rewrite Hw. destruct (Hgp Hw) as [x Hx].
    change (t_gp v1) with (t_gp v). rewrite Hx. by eexists.
Qed.

Lemma turn_spec (v : training) (step : Z) :
  t_ratio v ≠ 0 ->
  turn v step = true <-> (t_ratio v | step) /\ t_init v < step.
Proof.
  intros Hr. unfold turn. rewrite andb_true_iff, Z.eqb_eq, Z.ltb_lt.
  by rewrite (Z.mod_divide step (t_ratio v) Hr).
Qed.

(** What [optimize_parameters] leaves in the generator and discriminator
    slots and in their optimizers. *)
Lemma after_netG (v : training) (w : World) (step : Z) :
  let loss := exp_l_g_total v (forward G (t_netG v) (t_L v)) in
  t_netG (after v w step).1
  = if turn v step then updated loss (map_inner (with_grad NoGrad) (t_netG v))
    else map_inner (with_grad NoGrad) (t_netG v).
Proof. unfold after. by destruct (turn v step). Qed.

Lemma after_netD (v : training) (w : World) (step : Z) :
  let loss := exp_l_d_total v w (forward G (t_netG v) (t_L v)) in
  m_weights (inner (t_netD (after v w step).1))
  = AdamStep (m_weights (inner (t_netD v))) (Acc NoGrad loss).
Proof. unfold after. destruct (turn v step); destruct w; reflexivity. Qed.

Lemma after_heap (v : training) (w : World) (step : Z) :
  let fk := forward G (t_netG v) (t_L v) in
  heap (after v w step).2
  = alter (stepped (Acc NoGrad (exp_l_d_total v w fk))) (t_rD v)
      (if turn v step
       then alter (stepped (Acc NoGrad (exp_l_g_total v fk))) (t_rG v) (heap w)
       else heap w).
Proof. unfold after. destruct (turn v step); destruct w; reflexivity. Qed.

(** C2. On a well-formed training state, [optimize_parameters step] returns,
    and it updates the generator exactly when [step] is a multiple of
    [D_update_ratio] and greater than [D_init_iters]: in that case the
    generator's weights and its optimizer take one Adam step on the gradient
    of the sum of the weighted pixel loss, the weighted feature loss (against
    the detached features of the real image) and the weighted adversarial
    loss; otherwise the generator's weights and its optimizer are left as
    they were. *)
Theorem generator_updated_on_its_turn (v : training) (w : World) (step : Z)
    (oG : optimizer) :
  wf v w ->
  heap w !! t_rG v = Some oG ->
  let r := optimize_parameters step (state_of v w) in
  let loss := exp_l_g_total v (forward G (t_netG v) (t_L v)) in
  r.1 = Ok tt
  /\ ((t_ratio v | step) /\ t_init v < step ->
        (fun n => m_weights (inner n)) <$> netG (self r.2)
          = Some (AdamStep (m_weights (inner (t_netG v))) (Acc NoGrad loss))
        /\ heap (world r.2) !! t_rG v = Some (stepped (Acc NoGrad loss) oG))
  /\ (~ ((t_ratio v | step) /\ t_init v < step) ->
        (fun n => m_weights (inner n)) <$> netG (self r.2)
          = Some (m_weights (inner (t_netG v)))
        /\ heap (world r.2) !! t_rG v = Some oG).
Proof.
  intros Hwf HG r loss. subst r. rewrite (optimize_parameters_run v w step Hwf).
  pose proof (wf_ratio _ _ Hwf) as Hr. pose proof (wf_refs _ _ Hwf) as Hrefs.
  cbn [fst snd state_of self world self_of netG]. rewrite after_netG, after_heap.
  fold loss. split; [reflexivity|].
  rewrite <- (turn_spec v step Hr). split.
  - intros ->. split; [reflexivity|].
    rewrite list_lookup_alter_ne by done.
    rewrite list_lookup_alter. rewrite decide_True by done. by rewrite HG.
  - intros Hn. apply not_true_is_false in Hn. rewrite Hn. split; [reflexivity|].
    by rewrite list_lookup_alter_ne.
Qed.

Lemma after_rng (v : training) (w : World) (step : Z) :
  rng (after v w step).2 = if wgan_gp v then S (rng w) else rng w.
Proof. unfold after. destruct (turn v step); destruct w; reflexivity. Qed.

Lemma after_gp (v : training) (w : World) (step : Z) :
  t_gp (after v w step).1
  = if wgan_gp v then (fun x => (drawn v w x.1.1, x.1.2, x.2)) <$> t_gp v else t_gp v.
Proof. unfold after. destruct (turn v step); destruct w; reflexivity. Qed.

Lemma size0_drawn (v : training) (w : World) (pt : tensor) :
  size0 (drawn v w pt) = size0 (t_ref v).
Proof.
  unfold drawn. cbn [size0].
  destruct (Nat.eqb (size0 pt) (size0 (t_ref v))) eqn:E; [|reflexivity].
  by apply Nat.eqb_eq in E.
Qed.

(** C3. On a well-formed training state, whatever [step] is,
    [optimize_parameters step] returns having taken one Adam step on the
    discriminator and its optimizer, for the loss made of the real and fake
    adversarial losses; with the "wgan-gp" type the loss also has the weighted
    gradient penalty at the interpolation of the detached fake and the
    reference by a coefficient drawn anew (of the size of the batch, kept in
    [random_pt]); with another type there is no penalty and nothing is
    drawn. *)
Theorem discriminator_always_updated (v : training) (w : World) (step : Z)
    (oD : optimizer) :
  wf v w ->
  heap w !! t_rD v = Some oD ->
  let r := optimize_parameters step (state_of v w) in
  let fk := forward G (t_netG v) (t_L v) in
  let loss := exp_l_d_total v w fk in
  r.1 = Ok tt
  /\ (fun n => m_weights (inner n)) <$> netD (self r.2)
       = Some (AdamStep (m_weights (inner (t_netD v))) (Acc NoGrad loss))
  /\ heap (world r.2) !! t_rD v = Some (stepped (Acc NoGrad loss) oD)
  /\ loss = add_opt (Add (exp_l_d_real v) (exp_l_d_fake v fk)) (exp_l_d_gp v w fk)
  /\ (wgan_gp v = true ->
        exists pt c gw,
          t_gp v = Some (pt, c, gw)
          /\ let coeff := drawn v w pt in
             exp_l_d_gp v w fk
               = Some (Mul (Num gw)
                         (GradPenalty (gp_device c) (interp v fk coeff)
                                      (forward D (t_netD v) (interp v fk coeff))))
             /\ (exists x, coeff = Uniform (rng w) x)
             /\ size0 coeff = size0 (t_ref v)
             /\ random_pt (self r.2) = Some coeff
             /\ rng (world r.2) = S (rng w))
  /\ (wgan_gp v = false ->
        exp_l_d_gp v w fk = None /\ rng (world r.2) = rng w).
Proof.
  intros Hwf HD r fk loss. subst r. rewrite (optimize_parameters_run v w step Hwf).
  pose proof (wf_refs _ _ Hwf) as Hrefs. pose proof (wf_gp _ _ Hwf) as Hgp.
  cbn [fst snd state_of self world self_of netD random_pt].
  rewrite after_heap, after_rng, after_gp. fold fk. fold loss.
  split; [reflexivity|]. split.
  { cbn [fmap option_fmap option_map]. f_equal. apply after_netD. }
  split.
  { rewrite list_lookup_alter. rewrite decide_True by done.
    destruct (turn v step); [rewrite list_lookup_alter_ne by done|]; by rewrite HD. }
  split; [reflexivity|]. split.
  - intros Hw. destruct (Hgp Hw) as [[[pt c] gw] Hx]. exists pt, c, gw.
    split; [exact Hx|]. unfold exp_l_d_gp. rewrite Hw, Hx.
    split; [reflexivity|]. split; [by eexists|]. split; [apply size0_drawn|].
    split; reflexivity.
  - intros Hw. unfold exp_l_d_gp. rewrite Hw. split; reflexivity.
Qed.

(** *** The log *)

Lemma dict_get_absent {V} (k : string) (d : list (string * V)) :
  k ∉ dict_keys d -> dict_get k d = None.
Proof.
  induction d as [|[k0 v0] d IH]; [done|]. unfold dict_keys. cbn. intros Hn.
  destruct (String.eqb k0 k) eqn:E.
  - apply String.eqb_eq in E. subst. exfalso. apply Hn. left.
  - apply IH. intros Hin. apply Hn. by right.
Qed.

Lemma dict_get_update {V} (new : list (string * V)) :
  forall (old : list (string * V)) (k : string),
    NoDup (dict_keys new) ->
    dict_get k (dict_update new old)
    = match dict_get k new with Some x => Some x | None => dict_get k old end.
Proof.
  unfold dict_update.
  induction new as [|[k0 v0] new IH]; intros old k Hnd; [done|].
  unfold dict_keys in Hnd. cbn in Hnd. apply NoDup_cons in Hnd as [Hn Hnd].
  cbn [fold_left fst snd]. rewrite IH by done. cbn [dict_get].
  destruct (String.eqb k0 k) eqn:E.
  - apply String.eqb_eq in E. subst k0.
    rewrite (dict_get_absent k new Hn). apply dict_get_set_eq.
  - apply String.eqb_neq in E. by rewrite dict_get_set_ne.
Qed.

Lemma recorded_NoDup (v : training) (w : World) (step : Z) :
  NoDup (dict_keys (recorded v w step)).
Proof.
  unfold recorded, entry. cbv zeta.
  destruct (turn v step), (exp_l_g_pix v (forward G (t_netG v) (t_L v))),
    (exp_l_g_fea v (forward G (t_netG v) (t_L v))),
    (exp_l_d_gp v w (forward G (t_netG v) (t_L v)));
    apply (bool_decide_unpack _); vm_compute; reflexivity.
Qed.

Lemma after_log (v : training) (w : World) (step : Z) :
  t_log (after v w step).1 = dict_update (recorded v w step) (t_log v).
Proof.
  unfold after, recorded, new_log.
  destruct (turn v step) eqn:Ht; cbv zeta; cbn [fst snd with_log t_log];
    change (turn (D_updated _ _ _) step) with (turn v step); rewrite Ht;
    change (wgan_gp (D_updated _ _ _)) with (wgan_gp v);
    change (exp_d_locals _ _ ?fk) with (exp_d_locals v w fk);
    change (exp_l_g_pix _ ?fk) with (exp_l_g_pix v fk);
    change (exp_l_g_fea _ ?fk) with (exp_l_g_fea v fk);
    change (exp_l_g_gan _ ?fk) with (exp_l_g_gan v fk);
    change (t_log (D_updated _ _ _)) with (t_log v);
    change (t_pix (D_updated _ _ _)) with (t_pix v);
    cbn [t_fea D_updated G_updated forwarded];
    unfold exp_d_locals; cbn [l_d_gp l_d_real l_d_fake pred_d_real pred_d_fake];
    unfold exp_l_d_gp, exp_l_g_pix, exp_l_g_fea;
    destruct (wgan_gp v), (t_gp v) as [[[pt c] gw]|],
      (t_pix v) as [[cp wp]|], (t_fea v) as [[[cf wf] nF]|]; reflexivity.
Qed.

(** C1 (as the code has it). On a well-formed training state,
    [optimize_parameters step] returns and the log read by [get_current_log]
    is the log of before the call, updated in place with the metrics of this
    call: a metric computed during the call has its new value, every other
    entry is the one of before the call. *)
Theorem log_updated_in_place (v : training) (w : World) (step : Z) :
  wf v w ->
  let r := optimize_parameters step (state_of v w) in
  let log' := dict_update (recorded v w step) (t_log v) in
  r.1 = Ok tt
  /\ (get_current_log r.2).1 = Ok log'
  /\ forall k : string,
       dict_get k log'
       = match dict_get k (recorded v w step) with
         | Some x => Some x
         | None => dict_get k (t_log v)
         end.
Proof.
  intros Hwf r log'. subst r log'. rewrite (optimize_parameters_run v w step Hwf).
  split; [reflexivity|]. split.
  - cbn [fst snd]. unfold get_current_log, attr, state_of, self_of. cbn [self log_dict fst].
    by rewrite (after_log v w step).
  - intros k. apply dict_get_update, recorded_NoDup.
Qed.

(** * The properties on the example objects *)

(** The example view is the state left by the constructor and [feed_data]. *)
Lemma view0_state : state_of Example.view0 Example.world1 = Example.trained0.
Proof. vm_compute. reflexivity. Qed.

(** The example view satisfies the assumptions made on a training state. *)
Ltac example_wf :=
  split;
  [ reflexivity | discriminate | intros _; eexists; reflexivity | discriminate
  | eexists; split; vm_compute; reflexivity
  | eexists; split; vm_compute; reflexivity
  | reflexivity | reflexivity | reflexivity
  | intros n; reflexivity | intros n; reflexivity | intros n; reflexivity ].

(** C2 on the example: the generator is updated at step 2 and not at step 3. *)
Lemma generator_updated_on_its_turn_witness :
  let s := state_of Example.view0 Example.world1 in
  let fk := forward G (Example.define_G Example.opt_train) (To cpu (Data "lr" 4)) in
  wf Example.view0 Example.world1
  /\ s = Example.trained0
  /\ (fun n => m_weights (inner n)) <$> netG (self (optimize_parameters 2 s).2)
     = Some (AdamStep (Initial "G") (Acc NoGrad (exp_l_g_total Example.view0 fk)))
  /\ (fun n => m_weights (inner n)) <$> netG (self (optimize_parameters 3 s).2)
     = Some (Initial "G").
Proof.
  assert (wf Example.view0 Example.world1) as Hwf by example_wf.
  split; [exact Hwf|]. split; [vm_compute; reflexivity|]. split.
  - apply (generator_updated_on_its_turn Example.view0 Example.world1 2 _ Hwf eq_refl).
    split; [exists 1; reflexivity | reflexivity].
  - apply (generator_updated_on_its_turn Example.view0 Example.world1 3 _ Hwf eq_refl).
    intros [[k Hk] _]. change (3 = k * 2) in Hk. lia.
Defined.

(** C3 on the example, at a step that skips the generator. *)
Lemma discriminator_always_updated_witness :
  let v := Example.view0 in
  let w := Example.world1 in
  let s := state_of v w in
  let fk := forward G (t_netG v) (t_L v) in
  wf v w
  /\ (fun n => m_weights (inner n)) <$> netD (self (optimize_parameters 3 s).2)
     = Some (AdamStep (Initial "D") (Acc NoGrad (exp_l_d_total v w fk)))
  /\ (fun n => m_weights (inner n)) <$> netG (self (optimize_parameters 3 s).2)
     = Some (Initial "G")
  /\ random_pt (self (optimize_parameters 3 s).2)
     = Some (Uniform 0 (Resize 4 (To cpu (Uninit 1))))
  /\ rng (world (optimize_parameters 3 s).2) = 1%nat.
Proof.
  assert (wf Example.view0 Example.world1) as Hwf by example_wf.
  destruct (discriminator_always_updated Example.view0 Example.world1 3 _ Hwf eq_refl)
    as (_ & HD & _ & _ & Hgp & _).
  destruct (Hgp eq_refl) as (pt & c & gw & Hx & _ & _ & _ & Hpt & Hrng).
  injection Hx as <- <- <-.
  split; [exact Hwf|]. split; [exact HD|]. split; [vm_compute; reflexivity|].
  split; [exact Hpt | exact Hrng].
Defined.

(** C1 (as the code has it) on the example, at the step after a generator
    update. *)
Lemma log_updated_in_place_witness :
  let v := (after Example.view0 Example.world1 2).1 in
  let w := (after Example.view0 Example.world1 2).2 in
  let r := optimize_parameters 3 (state_of v w) in
  wf v w
  /\ turn v 3 = false
  /\ exists log,
       (get_current_log r.2).1 = Ok log
       /\ dict_get "l_g_gan" log = dict_get "l_g_gan" (t_log v)
       /\ dict_get "l_d_real" log = dict_get "l_d_real" (recorded v w 3).
Proof.
  assert (wf (after Example.view0 Example.world1 2).1
             (after Example.view0 Example.world1 2).2) as Hwf by example_wf.
  destruct (log_updated_in_place _ _ 3 Hwf) as (_ & Hlog & Hget).
  split; [exact Hwf|]. split; [reflexivity|].
  eexists. split; [exact Hlog|]. split; rewrite Hget; reflexivity.
Defined.

(** C1 as stated fails: after step 2 (generator updated) and step 3 (generator
    skipped) the log still has the generator entries of step 2, which are not
    metrics of the call at step 3. *)
Lemma log_keeps_skipped_generator_entries :
  let s2 := (optimize_parameters 2 Example.trained0).2 in
  let v2 := (after Example.view0 Example.world1 2).1 in
  let w2 := (after Example.view0 Example.world1 2).2 in
  let r := optimize_parameters 3 s2 in
  s2 = state_of v2 w2
  /\ (generator_turn 3 s2).1 = Ok false
  /\ r.1 = Ok tt
  /\ dict_keys (recorded v2 w2 3) = ["l_d_real"; "l_d_fake"; "l_d_gp"; "D_real"; "D_fake"]
  /\ exists log,
       (get_current_log r.2).1 = Ok log
       /\ dict_keys log = ["l_g_pix"; "l_g_fea"; "l_g_gan"; "l_d_real"; "l_d_fake";
                           "l_d_gp"; "D_real"; "D_fake"]
       /\ dict_get "l_g_gan" log = dict_get "l_g_gan" (t_log v2)
       /\ is_Some (dict_get "l_g_gan" log).
Proof.
  split; [vm_compute; reflexivity|]. split; [vm_compute; reflexivity|].
  split; [vm_compute; reflexivity|]. split; [vm_compute; reflexivity|].
  eexists. split; [vm_compute; reflexivity|]. split; [vm_compute; reflexivity|].
  split; [vm_compute; reflexivity|]. vm_compute. eexists. reflexivity.
Qed.

(** C4 (as the code has it) on the example: "huber" is refused under a
    positive weight and goes unnoticed under the weight 0. *)
Lemma loss_type_rejected_witness :
  (exists s',
     Example.new (Example.config true
                    (Example.train_opt (1 # 100) "huber" (Some 2) "vanilla" "MultiStepLR"))
     = (Raise (NotImplementedError "Loss type [huber] not recognized."), s'))
  /\ (exists s,
       Example.new (Example.config true
                      (Example.train_opt 0 "huber" (Some 2) "vanilla" "MultiStepLR"))
       = (Ok tt, s)
       /\ cri_pix (self s) = Some None /\ l_pix_w (self s) = None).
Proof.
  split.
  - destruct (loss_type_rejected Example.load_state_dict Example.define_G Example.define_D
                Example.define_F
                (Example.config true
                   (Example.train_opt (1 # 100) "huber" (Some 2) "vanilla" "MultiStepLR"))
                Example.world0 _ _ eq_refl eq_refl) as [H _].
    apply H. left. split; [reflexivity|]. split; discriminate.
  - destruct (loss_type_rejected Example.load_state_dict Example.define_G Example.define_D
                Example.define_F
                (Example.config true
                   (Example.train_opt 0 "huber" (Some 2) "vanilla" "MultiStepLR"))
                Example.world0 _ _ eq_refl eq_refl) as (_ & H & _).
    destruct (H ltac:(discriminate)) as (_ & Hret & _).
    exact (Hret eq_refl eq_refl).
Defined.

(** C4 as stated fails: with a pixel weight of 0 an unrecognised pixel
    criterion is never looked at, and the constructor returns. *)
Lemma zero_weight_criterion_unchecked :
  let t := Example.train_opt 0 "huber" (Some 2) "vanilla" "MultiStepLR" in
  Opt.pixel_criterion t ≠ "l1" /\ Opt.pixel_criterion t ≠ "l2"
  /\ Opt.is_train (Example.config true t) = true
  /\ (Example.new (Example.config true t)).1 = Ok tt.
Proof.
  split; [discriminate|]. split; [discriminate|]. split; [reflexivity|].
  vm_compute. reflexivity.
Qed.

(** C5 on the example. *)
Lemma lr_scheme_checked_witness :
  (exists s',
     Example.new (Example.config true
                    (Example.train_opt (1 # 100) "l1" (Some 2) "wgan-gp" "CosineAnnealingLR"))
     = (Raise (NotImplementedError "MultiStepLR learning rate scheme is enough."), s'))
  /\ (Example.new Example.opt_train).1 = Ok tt
  /\ exists rG rD,
       optimizers (self (Example.new Example.opt_train).2) = [rG; rD]
       /\ schedulers (self (Example.new Example.opt_train).2)
          = [MultiStepLR rG [50000; 100000] (1 # 2); MultiStepLR rD [50000; 100000] (1 # 2)].
Proof.
  split.
  - destruct (lr_scheme_checked Example.load_state_dict Example.define_G Example.define_D Example.define_F
                (Example.config true
                   (Example.train_opt (1 # 100) "l1" (Some 2) "wgan-gp" "CosineAnnealingLR"))
                Example.world0 _ _ eq_refl eq_refl) as [H _].
    destruct (H ltac:(discriminate)) as (msg & s' & E & Hmsg).
    exists s'. unfold Example.new. rewrite E, (Hmsg (conj eq_refl eq_refl)). reflexivity.
  - destruct (lr_scheme_checked Example.load_state_dict Example.define_G Example.define_D Example.define_F
                Example.opt_train Example.world0 _ _ eq_refl eq_refl) as [_ H].
    destruct (H eq_refl (conj eq_refl eq_refl))
      as (s & rG & rD & oG & oD & E & _ & _ & _ & _ & _ & _ & _ & Ho & Hs).
    unfold Example.new. rewrite E. cbn [fst snd].
    split; [reflexivity|]. exists rG, rD. split; [exact Ho | exact Hs].
Defined.

(** C6 on the example: one optimizer state for two optimizers is refused, two
    are loaded. *)
Lemma resume_training_length_checked_witness :
  let sd := {| os_lr := 1 # 1000; os_weight_decay := 0; os_betas := (9 # 10, 999 # 1000)%Q;
               os_steps := 7; os_seen := [] |} in
  let ss := {| ss_milestones := [50000]; ss_gamma := 1 # 2; ss_last_epoch := 7 |} in
  let rs n := {| rs_epoch := 1; rs_iter := 7; rs_schedulers := [ss; ss];
                 rs_optimizers := replicate n sd |} in
  resume_training (rs 1%nat) Example.trained0
  = (Raise (AssertionError "Wrong lengths of optimizers"), Example.trained0)
  /\ (resume_training (rs 2%nat) Example.trained0).1 = Ok tt
  /\ o_state <$> heap (world (resume_training (rs 2%nat) Example.trained0).2) = [sd; sd]
  /\ s_state <$> schedulers (self (resume_training (rs 2%nat) Example.trained0).2) = [ss; ss].
Proof.
  intros sd ss rs. split.
  - apply (resume_training_length_checked (rs 1%nat) Example.trained0).
    vm_compute. discriminate.
  - destruct (resume_training_length_checked (rs 2%nat) Example.trained0) as (_ & _ & H).
    rewrite (H eq_refl eq_refl).
    split; [reflexivity|]. split; vm_compute; reflexivity.
Defined.

(** C10 on the example. *)
Lemma save_needs_training_mode_witness :
  (exists s', save 5000 (Example.new Example.opt_test).2 = (Raise (AttributeError "netD"), s'))
  /\ (exists s', save 5000 (Example.new Example.opt_train).2 = (Ok tt, s')
                 /\ is_Some (files (world s') !! "experiments/models/5000_G.pth")
                 /\ is_Some (files (world s') !! "experiments/models/5000_D.pth")).
Proof.
  assert (forall opt, Example.new opt = (Ok tt, (Example.new opt).2) ->
          SRGANModel_init Example.load_state_dict Example.define_G Example.define_D Example.define_F opt Example.world0
          = (Ok tt, (Example.new opt).2)) as Hnew by (intros opt H; exact H).
  split.
  - destruct (save_needs_training_mode Example.load_state_dict Example.define_G Example.define_D Example.define_F
                Example.opt_test Example.world0 _
                (Hnew Example.opt_test ltac:(vm_compute; reflexivity))) as (_ & H).
    destruct (H 5000) as [Hf _]. exact (Hf eq_refl).
  - destruct (save_needs_training_mode Example.load_state_dict Example.define_G Example.define_D Example.define_F
                Example.opt_train Example.world0 _
                (Hnew Example.opt_train ltac:(vm_compute; reflexivity))) as (_ & H).
    destruct (H 5000) as [_ Ht]. destruct (Ht eq_refl) as (s' & E & HG & HD).
    exists s'. split; [exact E|].
    replace (os_path_join (Opt.models (Opt.path Example.opt_train))
               (pretty 5000 +:+ "_" +:+ "G" +:+ ".pth"))
      with "experiments/models/5000_G.pth" in HG by (vm_compute; reflexivity).
    replace (os_path_join (Opt.models (Opt.path Example.opt_train))
               (pretty 5000 +:+ "_" +:+ "D" +:+ ".pth"))
      with "experiments/models/5000_D.pth" in HD by (vm_compute; reflexivity).
    split; [exact HG | exact HD].
Defined.

(** * Further properties of the methods *)

(** Resolve the next attribute access on a state whose attributes are known. *)
Ltac run_attr :=
  match goal with
  | |- context [attr ?n ?p ?s] =>
      first [ rewrite (attr_run n p s _ eq_refl) | rewrite (attr_fail n p s eq_refl) ]
  end.

(** ** Batches *)

(** X1. [feed_data] reads "LR" first: without it the call raises KeyError
    and changes nothing.  With [need_HR] and no "HR" entry it raises KeyError
    after the low-resolution input has been replaced.  Without [need_HR] only
    the low-resolution input is replaced: the high-resolution image and the
    reference stay those of the previous batch. *)
Theorem feed_data_partial (data : gmap string tensor) (s : state) :
  (data !! "LR" = None ->
     forall need_HR, feed_data data need_HR s = (Raise (KeyError "LR"), s))
  /\ (forall lr, data !! "LR" = Some lr ->
        let s1 := {| self := set_var_L (Some (To (device (self s)) lr)) (self s);
                     world := world s |} in
        (data !! "HR" = None -> feed_data data true s = (Raise (KeyError "HR"), s1))
        /\ feed_data data false s = (Ok tt, s1)
        /\ var_H (self s1) = var_H (self s) /\ var_ref (self s1) = var_ref (self s)).
Proof.
  split.
  - intros HL need_HR. unfold feed_data, getitem. rewrite bind_get_self, HL.
    by destruct s.
  - intros lr HL s1. split; [|split].
    + intros HH. unfold feed_data, getitem. rewrite bind_get_self, HL.
      rewrite bind_ret_run, bind_run. cbn [modify_self]. rewrite HH. reflexivity.
    + unfold feed_data, getitem. rewrite bind_get_self, HL. reflexivity.
    + by destruct s as [[] ?].
Qed.

(** ** Checkpoints *)

Section Checkpoints.

Variable load_state_dict : list (string * ptensor) -> bool -> module -> result unit * weights.

(** [load_network] on a file that exists, for a slot that holds a network. *)
Lemma load_network_run (path : string) (n : net_id) (strict : bool) (s : state)
    (sd : list (string * ptensor)) (net : network) :
  files (world s) !! path = Some sd ->
  get_net n (self s) = Some net ->
  load_network load_state_dict path n strict s
  = (match (load_state_dict sd strict (inner net)).1 with
     | Ok _ => Ok tt
     | Raise e => Raise e
     end,
     {| self := set_net n (map_inner (with_weights
                             (load_state_dict sd strict (inner net)).2) net) (self s);
        world := world s |}).
Proof.
  intros Hf Hn. unfold load_network, torch_load.
  rewrite bind_run. unfold read_file. rewrite Hf. cbv beta iota.
  rewrite bind_run, (attr_run _ _ _ net Hn). cbv beta iota zeta.
  rewrite bind_run. unfold modify_self at 1. cbv beta iota.
  by destruct (load_state_dict sd strict (inner net)).1.
Qed.

(** X2. [load_network] raises FileNotFoundError, without changing anything,
    when the file does not exist.  When it exists, the content of the file
    and [strict] are handed to [load_state_dict] of the module in the slot
    (of the wrapped module, for a DataParallel): the module keeps the weights
    that call leaves in it, also when the call raises, the wrapping and all
    the rest stay as they were, and [load_network] returns or raises as the
    call did. *)
Theorem load_network_outcomes (path : string) (n : net_id) (strict : bool) (s : state) :
  (files (world s) !! path = None ->
     load_network load_state_dict path n strict s = (Raise (FileNotFoundError path), s))
  /\ forall sd net,
       files (world s) !! path = Some sd ->
       get_net n (self s) = Some net ->
       let r := load_state_dict sd strict (inner net) in
       load_network load_state_dict path n strict s
       = (match r.1 with Ok _ => Ok tt | Raise e => Raise e end,
          {| self := set_net n {| wrapped := wrapped net;
                                  inner := with_weights r.2 (inner net) |} (self s);
             world := world s |}).
Proof.
  split.
  - intros Hf. unfold load_network, torch_load. rewrite bind_run.
    unfold read_file. by rewrite Hf.
  - intros sd net Hf Hn r. subst r. by rewrite (load_network_run path n strict s sd net).
Qed.

(** X3. After [save_network] wrote the checkpoint of a network,
    [load_network] on that path finds the file, and what it hands to
    [load_state_dict] of the target module is what was written: the
    [network_state_dict] of the saved network's module (of the wrapped
    module, for a DataParallel), entry by entry under the same keys, each on
    the CPU.  The target keeps the weights that call leaves and the outcome
    is that call's: whether the file is accepted is [load_state_dict]'s
    matter. *)
Theorem saved_network_loads_back (net cur : network) (label : string) (iter_step : Z)
    (n : net_id) (strict : bool) (s : state) :
  get_net n (self s) = Some cur ->
  let path := os_path_join (Opt.models (Opt.path (opt (self s))))
                           (pretty iter_step +:+ "_" +:+ label +:+ ".pth") in
  let content := map (fun kp => (kp.1, ptensor_cpu kp.2)) (network_state_dict (inner net)) in
  let r := load_state_dict content strict (inner cur) in
  (save_network net label iter_step ;; load_network load_state_dict path n strict) s
  = (match r.1 with Ok _ => Ok tt | Raise e => Raise e end,
     {| self := set_net n (map_inner (with_weights r.2) cur) (self s);
        world := set_files (<[path := content]> (files (world s))) (world s) |})
  /\ Forall (fun kp => p_device kp.2 = cpu) content
  /\ dict_keys content = dict_keys (network_state_dict (inner net)).
Proof.
  intros Hn path content r. subst r. split; [|split].
  - rewrite bind_run, save_network_run. cbv beta iota. fold path. fold content.
    rewrite (load_network_run path n strict _ content cur); [reflexivity| |exact Hn].
    cbn [world]. by rewrite files_set_files, lookup_insert_eq.
  - subst content. apply Forall_forall. intros kp Hin.
    apply list_elem_of_fmap in Hin as (kp' & -> & _). reflexivity.
  - subst content. unfold dict_keys. rewrite map_map. reflexivity.
Qed.

End Checkpoints.

(** ** Visuals *)

(** X10. With the three images stored and their batches not empty,
    [get_current_visuals] returns, in this order, the first low-resolution
    image, the first super-resolved image and, with [need_HR], the first
    high-resolution image, each detached; it changes nothing. *)
Theorem get_current_visuals_content (need_HR : bool) (s : state) (lr sr hr : tensor) :
  var_L (self s) = Some lr -> fake_H (self s) = Some sr -> var_H (self s) = Some hr ->
  size0 lr ≠ 0%nat -> size0 sr ≠ 0%nat -> size0 hr ≠ 0%nat ->
  get_current_visuals need_HR s
  = (Ok ([("LR", FirstImage (Detach lr)); ("SR", FirstImage (Detach sr))]
         ++ if need_HR then [("HR", FirstImage (Detach hr))] else [])%list, s).
Proof.
  intros HL HS HH Hl Hs Hh.
  unfold get_current_visuals, first_image.
  rewrite bind_run, (attr_run _ _ _ lr HL). cbv beta iota.
  destruct (Nat.eqb_spec (size0 lr) 0) as [?|_]; [done|]. cbv beta iota; rewrite bind_ret_run; cbv beta.
  rewrite bind_run, (attr_run _ _ _ sr HS). cbv beta iota.
  destruct (Nat.eqb_spec (size0 sr) 0) as [?|_]; [done|]. cbv beta iota; rewrite bind_ret_run; cbv beta.
  destruct need_HR; [|reflexivity].
  rewrite bind_run, (attr_run _ _ _ hr HH). cbv beta iota.
  destruct (Nat.eqb_spec (size0 hr) 0) as [?|_]; [done|]. reflexivity.
Qed.

(** X11. [get_current_visuals] needs a forward pass to have taken place: it
    raises AttributeError on [fake_H] when none did, on [var_H] when
    [need_HR] is asked for and no high-resolution image was fed, and
    IndexError when the low-resolution batch is empty; in each case nothing
    changes. *)
Theorem get_current_visuals_errors (need_HR : bool) (s : state) (lr : tensor) :
  var_L (self s) = Some lr ->
  (size0 lr = 0%nat ->
     get_current_visuals need_HR s
     = (Raise (IndexError "index 0 is out of bounds for dimension 0 with size 0"), s))
  /\ (size0 lr ≠ 0%nat -> fake_H (self s) = None ->
     get_current_visuals need_HR s = (Raise (AttributeError "fake_H"), s))
  /\ (forall sr, size0 lr ≠ 0%nat -> fake_H (self s) = Some sr -> size0 sr ≠ 0%nat ->
        var_H (self s) = None ->
        get_current_visuals true s = (Raise (AttributeError "var_H"), s)).
Proof.
  intros HL. split; [|split].
  - intros Hl. unfold get_current_visuals, first_image.
    rewrite bind_run, (attr_run _ _ _ lr HL). cbv beta iota. by rewrite Hl.
  - intros Hl HS. unfold get_current_visuals, first_image.
    rewrite bind_run, (attr_run _ _ _ lr HL). cbv beta iota.
    destruct (Nat.eqb_spec (size0 lr) 0) as [?|_]; [done|].
    cbv beta iota; rewrite bind_ret_run; cbv beta.
    by rewrite bind_run, (attr_fail _ _ _ HS).
  - intros sr Hl HS Hs HH. unfold get_current_visuals, first_image.
    rewrite bind_run, (attr_run _ _ _ lr HL). cbv beta iota.
    destruct (Nat.eqb_spec (size0 lr) 0) as [?|_]; [done|].
    cbv beta iota; rewrite bind_ret_run; cbv beta.
    rewrite bind_run, (attr_run _ _ _ sr HS). cbv beta iota.
    destruct (Nat.eqb_spec (size0 sr) 0) as [?|_]; [done|].
    cbv beta iota; rewrite bind_ret_run; cbv beta.
    by rewrite bind_run, (attr_fail _ _ _ HH).
Qed.

(** ** Saving and resuming the training state *)

Lemma collect_pure {A B} (f : A -> B) (l : list A) :
  forall (out : list B) (s : state),
    collect l (fun x => mret (f x)) out s = (Ok (out ++ map f l)%list, s).
Proof.
  induction l as [|x l IH]; intros out s; cbn [collect map].
  - by rewrite app_nil_r.
  - rewrite bind_ret_run. cbv beta. rewrite IH. by rewrite <- app_assoc.
Qed.

Lemma collect_optimizer_states (s : state) (refs : list nat) :
  forall (os : list optimizer) (out : list optim_state),
    Forall2 (fun r o => heap (world s) !! r = Some o) refs os ->
    collect refs (fun r => o ← deref r; mret (o_state o)) out s
    = (Ok (out ++ map o_state os)%list, s).
Proof.
  induction refs as [|r refs IH]; intros os out H.
  - apply Forall2_nil_inv_l in H as ->. cbn. by rewrite app_nil_r.
  - apply Forall2_cons_inv_l in H as (o & os' & Ho & H & ->).
    cbn [collect map]. rewrite !bind_run. unfold deref at 1. rewrite Ho.
    cbv beta iota delta [mret M_ret]. rewrite (IH os' _ H). by rewrite <- app_assoc.
Qed.

Lemma dereferenced (h : list optimizer) (refs : list nat) :
  Forall (fun r => is_Some (h !! r)) refs ->
  exists os, Forall2 (fun r o => h !! r = Some o) refs os.
Proof.
  induction 1 as [|r refs [o Ho] _ [os IH]]; [by exists []|].
  exists (o :: os). by constructor.
Qed.

Lemma resume_training_run (rs : resume_state) (s : state) :
  length (rs_optimizers rs) = length (optimizers (self s)) ->
  length (rs_schedulers rs) = length (schedulers (self s)) ->
  resume_training rs s
  = (Ok tt,
     {| self := set_schedulers
                  (load_schedulers (rs_schedulers rs) (schedulers (self s))) (self s);
        world := set_heap
                   (load_optimizers (optimizers (self s)) (rs_optimizers rs)
                                    (heap (world s))) (world s) |}).
Proof.
  intros He Hs. pose proof He as He'. pose proof Hs as Hs'.
  apply Nat.eqb_eq in He'. apply Nat.eqb_eq in Hs'.
  pose proof (resume_optimizers_loop (rs_optimizers rs) [] (optimizers (self s)) s
                eq_refl He) as H1. cbn in H1.
  unfold resume_training. mrun. rewrite He'. cbn. rewrite Hs'. cbn.
  rewrite H1.
  pose proof (resume_schedulers_loop (rs_schedulers rs) [] (schedulers (self s))
    {| self := self s;
       world := set_heap (load_optimizers (optimizers (self s)) (rs_optimizers rs)
                            (heap (world s))) (world s) |} eq_refl Hs) as H2.
  cbn in H2. rewrite H2. reflexivity.
Qed.

Lemma load_schedulers_states (sds : list sched_state) (l : list scheduler) :
  length sds = length l ->
  s_state <$> load_schedulers sds l = sds
  /\ s_optimizer <$> load_schedulers sds l = s_optimizer <$> l.
Proof.
  unfold load_schedulers. revert l.
  induction sds as [|sd sds IH]; intros [|sc l] Hlen; try done.
  cbn in Hlen. destruct (IH l ltac:(lia)) as [H1 H2].
  cbn. split; by f_equal.
Qed.

(** X9. The state that [save_training_state] hands to [torch.save] (under
    the name made of the iteration and ".state", in the training-state
    directory) holds the state of every scheduler and of every optimizer, in
    order, and saving changes nothing.  Resuming from it on a model with the
    same optimizers and as many schedulers gives every scheduler and every
    optimizer the state it had when saved; the schedulers stay attached to
    their optimizers and the networks are not touched. *)
Theorem training_state_round_trip (epoch iter_step : Z) (s s' : state) :
  NoDup (optimizers (self s)) ->
  Forall (fun r => is_Some (heap (world s) !! r)) (optimizers (self s)) ->
  Forall (fun r => is_Some (heap (world s') !! r)) (optimizers (self s)) ->
  optimizers (self s') = optimizers (self s) ->
  length (schedulers (self s')) = length (schedulers (self s)) ->
  exists rs s'',
    save_training_state epoch iter_step s
    = (Ok (os_path_join (Opt.training_state (Opt.path (opt (self s))))
                        (pretty iter_step +:+ ".state"), rs), s)
    /\ rs_epoch rs = epoch /\ rs_iter rs = iter_step
    /\ resume_training rs s' = (Ok tt, s'')
    /\ s_state <$> schedulers (self s'') = s_state <$> schedulers (self s)
    /\ s_optimizer <$> schedulers (self s'') = s_optimizer <$> schedulers (self s')
    /\ (forall r, r ∈ optimizers (self s) ->
          o_state <$> heap (world s'') !! r = o_state <$> heap (world s) !! r)
    /\ netG (self s'') = netG (self s') /\ netD (self s'') = netD (self s')
    /\ netF (self s'') = netF (self s').
Proof.
  intros Hnd Hv Hv' Hopt Hlen.
  destruct (dereferenced _ _ Hv) as [os Hos].
  eexists _, _. split.
  { unfold save_training_state. rewrite bind_get_self.
    rewrite bind_run, (collect_pure s_state). cbv beta iota.
    rewrite bind_run, (collect_optimizer_states s _ os [] Hos). cbv beta iota.
    reflexivity. }
  split; [reflexivity|]. split; [reflexivity|].
  cbn [rs_optimizers rs_schedulers app].
  assert (length (map o_state os) = length (optimizers (self s'))) as Hl1.
  { rewrite length_map, Hopt. symmetry. by eapply Forall2_length. }
  assert (length (map s_state (schedulers (self s))) = length (schedulers (self s')))
    as Hl2 by (by rewrite length_map).
  split.
  { rewrite resume_training_run; [reflexivity | exact Hl1 | exact Hl2]. }
  cbn [self world rs_optimizers rs_schedulers].
  destruct (load_schedulers_states _ _ Hl2) as [Hs1 Hs2].
  split; [by destruct s' as [[] ?]|]. split; [by destruct s' as [[] ?]|].
  split; [|by destruct s' as [[] ?]].
  intros r Hr. apply list_elem_of_lookup in Hr as [i Hi].
  destruct (Forall2_lookup_l _ _ _ _ _ Hos Hi) as (o & Ho & Hro).
  rewrite Forall_forall in Hv'.
  destruct (Hv' r ltac:(by eapply list_elem_of_lookup_2)) as [o' Ho'].
  match goal with |- context [heap (set_heap ?h ?w)] =>
    change (heap (set_heap h w)) with h end.
  rewrite (load_optimizers_lookup _ _ _ i r (o_state o) o'); try done.
  - by rewrite Hro.
  - by rewrite Hopt.
  - by rewrite Hopt.
  - by rewrite list_lookup_fmap, Ho.
Qed.

(** ** What the constructor leaves behind *)

Section Constructed.

Variable load_state_dict : list (string * ptensor) -> bool -> module -> result unit * weights.
Variable define_G : Opt.config -> network.
Variable define_D : Opt.config -> network.
Variable define_F : Opt.config -> bool -> network.
Variable scheduler_step : scheduler -> optimizer -> scheduler * optimizer.
Variable scheduler_get_lr : scheduler -> optimizer -> list Q.

(** Inversion of a constructor call that returned, with what is known of
    the networks it created. *)
Lemma SRGANModel_init_networks (opt : Opt.config) (w : World) (s : state) :
  SRGANModel_init load_state_dict define_G define_D define_F opt w = (Ok tt, s) ->
  exists t nG logs,
    Opt.train opt = Some t
    /\ m_params (inner nG) = m_params (inner (define_G opt))
    /\ if Opt.is_train opt then
         exists nD,
           valid t = true
           /\ m_params (inner nD) = m_params (inner (define_D opt))
           /\ s = {| self := trained_self define_F opt t nG nD (length (heap w));
                     world := set_logged logs
                       (set_heap (heap w ++ [new_optimizer_G t nG; new_optimizer_D t nD]) w) |}
       else
         s = {| self := set_netD None (set_netG (Some nG) (BaseModel_init opt));
                world := set_logged logs w |}.
Proof.
  intros H.
  destruct (init_networks load_state_dict define_G define_D opt (before_init opt w)) as [[t|e] s1] eqn:H1.
  - destruct (init_networks_ok _ _ _ _ _ _ _ H1) as (Ht & nG0 & ond & logs0 & Hs1 & HpG & Hd).
    destruct (SRGANModel_init_run load_state_dict define_G define_D define_F _ _ _ _ H1) as (nG & HnG & Hrun).
    assert (nG = nG0) as -> by (subst s1; by injection HnG).
    destruct (Opt.is_train opt) eqn:Htr.
    + destruct Hrun as (nD & HnD & Hok & Hbad).
      destruct ond as [nD0|]; [|congruence].
      assert (nD = nD0) as -> by (subst s1; by injection HnD).
      destruct Hd as [_ HpD].
      destruct (valid t) eqn:Hv.
      * destruct (Hok eq_refl) as [logs E]. rewrite E in H. injection H as <-.
        exists t, nG0, logs. split; [done|]. split; [done|]. by exists nD0.
      * destruct (Hbad eq_refl) as [s' E]. rewrite E in H. discriminate.
    + destruct Hrun as [logs E]. rewrite E in H. injection H as <-.
      exists t, nG0, logs. done.
  - rewrite (SRGANModel_init_fails_early _ _ _ _ _ _ _ _ H1) in H. discriminate.
Qed.

(** X4. A model constructed in training mode has an update ratio that is
    never 0: a configured [D_update_ratio] whose value is 0 or None is
    replaced by 1 (and a [D_init_iters] whose value is None by 0; both keys
    are in the configuration, whose record has a field for each).  So the
    test for the generator's turn never divides by zero: it returns whether
    the step is a multiple of the ratio and greater than the warm-up count,
    and changes nothing. *)
Theorem update_ratio_never_zero (opt : Opt.config) (w : World) (s : state) :
  SRGANModel_init load_state_dict define_G define_D define_F opt w = (Ok tt, s) ->
  Opt.is_train opt = true ->
  exists t ratio init,
    Opt.train opt = Some t
    /\ D_update_ratio (self s) = Some ratio
    /\ D_init_iters (self s) = Some init
    /\ ratio = match Opt.D_update_ratio t with
               | Some x => if x =? 0 then 1 else x
               | None => 1
               end
    /\ init = match Opt.D_init_iters t with Some x => x | None => 0 end
    /\ ratio ≠ 0
    /\ forall step,
         generator_turn step s = (Ok ((step mod ratio =? 0) && (init <? step)), s).
Proof.
  intros H Htr. apply SRGANModel_init_inv in H as (t & nG & logs & Ht & H).
  rewrite Htr in H. destruct H as (nD & _ & ->).
  exists t, (or_default (Opt.D_update_ratio t) 1), (or_default (Opt.D_init_iters t) 0).
  split; [done|]. split; [reflexivity|]. split; [reflexivity|].
  split; [reflexivity|].
  assert (or_default (Opt.D_update_ratio t) 1 ≠ 0) as Hr.
  { unfold or_default. destruct (Opt.D_update_ratio t) as [x|]; [|done].
    destruct (x =? 0) eqn:E; [done|]. by apply Z.eqb_neq. }
  split.
  { unfold or_default. destruct (Opt.D_init_iters t) as [x|]; [|done].
    destruct (x =? 0) eqn:E; [|done]. by apply Z.eqb_eq in E. }
  split; [exact Hr|].
  intros step. unfold generator_turn, py_mod.
  rewrite bind_run. run_attr. cbv beta iota.
  apply Z.eqb_neq in Hr. rewrite Hr. rewrite bind_ret_run. cbv beta.
  destruct (step mod or_default (Opt.D_update_ratio t) 1 =? 0); [|reflexivity].
  rewrite bind_run. by run_attr.
Qed.

(** X5. A model constructed with [is_train] false has no discriminator, no
    optimizer, no scheduler and no log: [optimize_parameters] raises
    AttributeError on [optimizer_G] and [get_current_log] raises
    AttributeError on [log_dict], both without changing anything. *)
Theorem test_mode_model_cannot_train (opt : Opt.config) (w : World) (s : state) :
  SRGANModel_init load_state_dict define_G define_D define_F opt w = (Ok tt, s) ->
  Opt.is_train opt = false ->
  is_Some (netG (self s)) /\ netD (self s) = None
  /\ optimizers (self s) = [] /\ schedulers (self s) = []
  /\ (forall step, optimize_parameters step s = (Raise (AttributeError "optimizer_G"), s))
  /\ get_current_log s = (Raise (AttributeError "log_dict"), s).
Proof.
  intros H Htr. apply SRGANModel_init_inv in H as (t & nG & logs & Ht & H).
  rewrite Htr in H. subst s.
  split; [by eexists|]. split; [reflexivity|]. split; [reflexivity|].
  split; [reflexivity|]. split.
  - intros step. unfold optimize_parameters, forward_generator.
    rewrite !bind_run. by run_attr.
  - unfold get_current_log. by run_attr.
Qed.

(** X12. On a model constructed with [is_train] false, which has no
    scheduler, [update_learning_rate] does nothing and
    [get_current_learning_rate] raises IndexError. *)
Theorem learning_rate_in_test_mode (opt : Opt.config) (w : World) (s : state) :
  SRGANModel_init load_state_dict define_G define_D define_F opt w = (Ok tt, s) ->
  Opt.is_train opt = false ->
  update_learning_rate scheduler_step s = (Ok tt, s)
  /\ get_current_learning_rate scheduler_get_lr s
     = (Raise (IndexError "list index out of range"), s).
Proof.
  intros H Htr. apply SRGANModel_init_inv in H as (t & nG & logs & Ht & H).
  rewrite Htr in H. subst s. split; reflexivity.
Qed.

(** X13. On a model constructed in training mode the rate reported by
    [get_current_learning_rate] is the first rate of the scheduler of the
    generator's optimizer (IndexError if that scheduler gives no rate); the
    discriminator's is not reported.  Nothing changes. *)
Theorem learning_rate_is_the_generators (opt : Opt.config) (w : World) (s : state) :
  SRGANModel_init load_state_dict define_G define_D define_F opt w = (Ok tt, s) ->
  Opt.is_train opt = true ->
  exists sc rG oG,
    schedulers (self s) !! 0%nat = Some sc
    /\ optimizer_G (self s) = Some rG /\ s_optimizer sc = rG
    /\ heap (world s) !! rG = Some oG /\ o_net oG = G
    /\ get_current_learning_rate scheduler_get_lr s
       = match scheduler_get_lr sc oG !! 0%nat with
         | Some lr => (Ok lr, s)
         | None => (Raise (IndexError "list index out of range"), s)
         end.
Proof.
  intros H Htr. apply SRGANModel_init_inv in H as (t & nG & logs & Ht & H).
  rewrite Htr in H. destruct H as (nD & _ & ->).
  eexists _, (length (heap w)), (new_optimizer_G t nG).
  split; [reflexivity|]. split; [reflexivity|]. split; [reflexivity|].
  assert (heap (set_logged logs (set_heap
            (heap w ++ [new_optimizer_G t nG; new_optimizer_D t nD]) w)) !! length (heap w)
          = Some (new_optimizer_G t nG)) as Hh.
  { replace (heap (set_logged logs (set_heap
               (heap w ++ [new_optimizer_G t nG; new_optimizer_D t nD]) w)))
      with (heap w ++ [new_optimizer_G t nG; new_optimizer_D t nD])%list
      by (by destruct w).
    by rewrite lookup_app_r, Nat.sub_diag by lia. }
  split; [exact Hh|]. split; [reflexivity|].
  unfold get_current_learning_rate. rewrite bind_get_self.
  cbn [self trained_self schedulers lookup list_lookup].
  rewrite bind_run. unfold deref. cbn [world s_optimizer MultiStepLR]. rewrite Hh.
  cbv beta iota.
  by destruct (scheduler_get_lr _ _ !! 0%nat).
Qed.

Lemma netG_update_net_G (f : module -> module) (m : SRGANModel) :
  netG (update_net G f m) = map_inner f <$> netG m.
Proof. unfold update_net. cbn [get_net]. by destruct m as [? ? ? ? ? [?|]]. Qed.

Lemma var_L_update_net (n : net_id) (f : module -> module) (m : SRGANModel) :
  var_L (update_net n f m) = var_L m.
Proof. unfold update_net. destruct (get_net n m); [|done]. by destruct n, m. Qed.

(** X14. On a model constructed in training mode that was fed no batch yet,
    [optimize_parameters] raises AttributeError on [var_L] (after the
    generator's gradients were zeroed): no optimizer has stepped and the
    log is still empty. *)
Theorem optimize_parameters_needs_a_batch (opt : Opt.config) (w : World) (s : state)
    (step : Z) :
  SRGANModel_init load_state_dict define_G define_D define_F opt w = (Ok tt, s) ->
  Opt.is_train opt = true ->
  exists s',
    optimize_parameters step s = (Raise (AttributeError "var_L"), s')
    /\ world s' = world s
    /\ log_dict (self s') = Some []
    /\ (fun n => m_weights (inner n)) <$> netG (self s')
       = (fun n => m_weights (inner n)) <$> netG (self s).
Proof.
  intros H Htr. apply SRGANModel_init_inv in H as (t & nG & logs & Ht & H).
  rewrite Htr in H. destruct H as (nD & _ & ->).
  assert (heap (set_logged logs (set_heap
            (heap w ++ [new_optimizer_G t nG; new_optimizer_D t nD]) w)) !! length (heap w)
          = Some (new_optimizer_G t nG)) as Hh.
  { replace (heap (set_logged logs (set_heap
               (heap w ++ [new_optimizer_G t nG; new_optimizer_D t nD]) w)))
      with (heap w ++ [new_optimizer_G t nG; new_optimizer_D t nD])%list
      by (by destruct w).
    by rewrite lookup_app_r, Nat.sub_diag by lia. }
  eexists. split.
  - unfold optimize_parameters, forward_generator.
    rewrite bind_run, bind_run. run_attr. cbv beta iota.
    rewrite bind_run.
    match goal with |- context [zero_grad ?r ?s] => rewrite (zero_grad_run r s _ Hh) end.
    cbv beta iota.
    rewrite bind_run. unfold attr at 1. cbn [self new_optimizer_G new_Adam o_net].
    rewrite netG_update_net_G. cbn [trained_self netG fmap option_fmap option_map].
    cbv beta iota. rewrite bind_run. unfold attr at 1. cbn [self].
    rewrite var_L_update_net. cbn [trained_self var_L]. reflexivity.
  - cbn [world self new_optimizer_G new_Adam o_net].
    split; [reflexivity|]. split.
    + unfold update_net. by cbn [get_net trained_self netG set_net set_netG log_dict].
    + rewrite netG_update_net_G. by cbn [trained_self netG fmap option_fmap option_map
                                         map_inner inner with_grad m_weights].
Qed.

(** X15. The constructor fails before any training setup when the
    configuration has no "train" entry (KeyError, also with [is_train]
    false) and when the pretrained generator file does not exist
    (FileNotFoundError, after the loading message was logged). *)
Theorem constructor_fails_early (opt : Opt.config) (w : World) :
  (Opt.train opt = None ->
     SRGANModel_init load_state_dict define_G define_D define_F opt w
     = (Raise (KeyError "train"), before_init opt w))
  /\ (forall p, is_Some (Opt.train opt) ->
        Opt.pretrain_model_G (Opt.path opt) = Some p ->
        files w !! p = None ->
        exists s',
          SRGANModel_init load_state_dict define_G define_D define_F opt w
          = (Raise (FileNotFoundError p), s')
          /\ logged (world s')
             = (logged w ++ [("INFO", "Loading pretrained model for G [" +:+ p +:+ "] ...")])%list
          /\ files (world s') = files w).
Proof.
  split.
  - intros Ht. unfold SRGANModel_init, SRGANModel_init_body, init_networks, opt_train.
    rewrite !bind_run, Ht. reflexivity.
  - intros p [t Ht] Hp Hf.
    destruct opt as [gpu tr ot [models ts pG pD]]; destruct w as [fs lg rg ge hp].
    cbn [Opt.train Opt.path Opt.pretrain_model_G files] in *. subst ot pG.
    unfold SRGANModel_init, SRGANModel_init_body, init_networks.
    match goal with |- context [define_G ?c] =>
      destruct (define_G c) as [wrG [? ? ? ? ? ? ?]], (define_D c) as [wrD [? ? ? ? ? ? ?]] end.
    assert (forall w', files w' = fs -> read_file w' p = None) as Hr
      by (intros w' <-; exact Hf).
    destruct tr; mexec; rewrite Hr by reflexivity; mexec;
      eexists; (split; [reflexivity|]); split; reflexivity.
Qed.

End Constructed.

(** ** The training loop *)

(** One call leaves a well-formed training state well-formed. *)
Lemma after_fixed (v : training) (w : World) (step : Z) :
  let v' := (after v w step).1 in
  t_opt v' = t_opt v /\ t_train v' = t_train v /\ t_ratio v' = t_ratio v
  /\ t_init v' = t_init v /\ t_rG v' = t_rG v /\ t_rD v' = t_rD v
  /\ t_L v' = t_L v /\ t_H v' = t_H v /\ t_ref v' = t_ref v
  /\ grad_enabled (after v w step).2 = grad_enabled w.
Proof. unfold after. destruct (turn v step); destruct w; by repeat split. Qed.

Lemma after_trainable (v : training) (w : World) (step : Z) :
  trainable (inner (t_netG (after v w step).1)) = trainable (inner (t_netG v))
  /\ trainable (inner (t_netD (after v w step).1)) = trainable (inner (t_netD v)).
Proof. unfold after. destruct (turn v step); split; reflexivity. Qed.

Lemma after_heap_G (v : training) (w : World) (step : Z) :
  t_rG v ≠ t_rD v ->
  heap (after v w step).2 !! t_rG v
  = (if turn v step
     then stepped (Acc NoGrad (exp_l_g_total v (forward G (t_netG v) (t_L v))))
     else id) <$> heap w !! t_rG v.
Proof.
  intros Hne. rewrite after_heap. rewrite list_lookup_alter_ne by done.
  destruct (turn v step).
  - rewrite list_lookup_alter. by rewrite decide_True.
  - by destruct (heap w !! t_rG v).
Qed.

Lemma after_heap_D (v : training) (w : World) (step : Z) :
  t_rG v ≠ t_rD v ->
  heap (after v w step).2 !! t_rD v
  = stepped (Acc NoGrad (exp_l_d_total v w (forward G (t_netG v) (t_L v))))
    <$> (heap w !! t_rD v).
Proof.
  intros Hne. rewrite after_heap. rewrite list_lookup_alter. rewrite decide_True by done.
  destruct (turn v step); [|done]. by rewrite list_lookup_alter_ne.
Qed.

Lemma wf_after (v : training) (w : World) (step : Z) :
  wf v w -> wf (after v w step).1 (after v w step).2.
Proof.
  intros [Htr Hr Hgp Hrefs [oG [HG HnG]] [oD [HD HnD]] HtG HtD Hge HL HH Href].
  destruct (after_fixed v w step) as (E1 & E2 & E3 & E4 & E5 & E6 & E7 & E8 & E9 & E10).
  destruct (after_trainable v w step) as [T1 T2].
  split.
  - by rewrite E1, E2.
  - by rewrite E3.
  - intros Hw. rewrite after_gp. unfold wgan_gp in Hw. rewrite E2 in Hw.
    fold (wgan_gp v) in Hw. rewrite Hw. destruct (Hgp Hw) as [x ->]. by eexists.
  - by rewrite E5, E6.
  - rewrite E5, after_heap_G, HG by done.
    destruct (turn v step); eexists; (split; [reflexivity|]); exact HnG.
  - rewrite E6, after_heap_D, HD by done. eexists. split; [reflexivity|]. exact HnD.
  - by rewrite T1.
  - by rewrite T2.
  - by rewrite E10.
  - by rewrite E7.
  - by rewrite E8.
  - by rewrite E9.
Qed.

Lemma train_run (steps : list Z) :
  forall (v : training) (w : World),
    wf v w ->
    train steps (state_of v w)
    = (Ok tt, state_of (after_all v w steps).1 (after_all v w steps).2)
    /\ wf (after_all v w steps).1 (after_all v w steps).2.
Proof.
  unfold train. induction steps as [|step steps IH]; intros v w Hwf; [done|].
  cbn [for_each after_all]. rewrite bind_run, (optimize_parameters_run v w step Hwf).
  cbv beta iota. apply IH. by apply wf_after.
Qed.

Lemma after_all_counts (steps : list Z) :
  forall (v : training) (w : World) (oG oD : optimizer),
    t_rG v ≠ t_rD v ->
    heap w !! t_rG v = Some oG -> heap w !! t_rD v = Some oD ->
    exists oG' oD',
      heap (after_all v w steps).2 !! t_rG v = Some oG'
      /\ heap (after_all v w steps).2 !! t_rD v = Some oD'
      /\ os_steps (o_state oD') = (os_steps (o_state oD) + length steps)%nat
      /\ os_steps (o_state oG')
         = (os_steps (o_state oG) + length (List.filter (turn v) steps))%nat.
Proof.
  induction steps as [|step steps IH]; intros v w oG oD Hne HG HD.
  - exists oG, oD. cbn. by rewrite !Nat.add_0_r.
  - destruct (after_fixed v w step) as (_ & _ & E3 & E4 & E5 & E6 & _).
    pose proof (after_heap_G v w step Hne) as HG'. rewrite HG in HG'.
    pose proof (after_heap_D v w step Hne) as HD'. rewrite HD in HD'.
    rewrite <- E5 in HG' at 1. rewrite <- E6 in HD' at 1.
    destruct (IH _ _ _ _ ltac:(by rewrite E5, E6) HG' HD') as (oG' & oD' & H1 & H2 & H3 & H4).
    exists oG', oD'. cbn [after_all]. rewrite <- E5 at 1. rewrite <- E6 at 1.
    split; [exact H1|]. split; [exact H2|]. split.
    + rewrite H3. cbn. lia.
    + rewrite H4.
      assert (List.filter (turn (after v w step).1) steps = List.filter (turn v) steps) as ->.
      { apply filter_ext. intros st. unfold turn. by rewrite E3, E4. }
      cbn [List.filter]. destruct (turn v step); cbn; lia.
Qed.

(** X7. From a well-formed training state, [optimize_parameters] can be
    called for any sequence of steps on the same batch: every call returns
    and leaves a well-formed state.  Over the whole sequence the
    discriminator's optimizer steps once for each call and the generator's
    once for each step that is the generator's turn. *)
Theorem training_loop_runs (v : training) (w : World) (steps : list Z)
    (oG oD : optimizer) :
  wf v w ->
  heap w !! t_rG v = Some oG -> heap w !! t_rD v = Some oD ->
  exists v' w' oG' oD',
    train steps (state_of v w) = (Ok tt, state_of v' w')
    /\ wf v' w'
    /\ heap w' !! t_rG v = Some oG' /\ heap w' !! t_rD v = Some oD'
    /\ os_steps (o_state oD') = (os_steps (o_state oD) + length steps)%nat
    /\ os_steps (o_state oG')
       = (os_steps (o_state oG) + length (List.filter (turn v) steps))%nat.
Proof.
  intros Hwf HG HD. destruct (train_run steps v w Hwf) as [Hrun Hwf'].
  destruct (after_all_counts steps v w oG oD (wf_refs _ _ Hwf) HG HD)
    as (oG' & oD' & H1 & H2 & H3 & H4).
  by exists (after_all v w steps).1, (after_all v w steps).2, oG', oD'.
Qed.

(** X8. [optimize_parameters] never changes the weights of the feature
    network, for which there is no optimizer; but its gradients are never
    zeroed: on every turn of the generator, if its parameters require
    gradients, the gradient of the generator's loss is added to what they
    hold. *)
Theorem feature_network_is_frozen (v : training) (w : World) (step : Z) :
  wf v w ->
  let r := optimize_parameters step (state_of v w) in
  let loss := exp_l_g_total v (forward G (t_netG v) (t_L v)) in
  r.1 = Ok tt
  /\ (fun n => m_weights (inner n)) <$> netF (self r.2)
     = (fun n => m_weights (inner n)) <$> netF (self (state_of v w))
  /\ (fun n => m_grad (inner n)) <$> netF (self r.2)
     = (fun n => if turn v step && trainable (inner n)
                 then Acc (m_grad (inner n)) loss else m_grad (inner n))
       <$> netF (self (state_of v w)).
Proof.
  intros Hwf r loss. subst r loss. rewrite (optimize_parameters_run v w step Hwf).
  split; [reflexivity|].
  cbn [fst snd state_of self self_of netF]. unfold after.
  destruct (turn v step); cbn [fst snd with_log D_updated G_updated forwarded t_fea];
    destruct (t_fea v) as [[[c q] nF]|]; cbn [fmap option_fmap option_map fst snd];
    try (split; reflexivity).
  destruct (trainable (inner nF)); split; reflexivity.
Qed.

(** ** From the constructor to the training loop *)

Lemma feed_data_run (data : gmap string tensor) (s : state) (lr hr : tensor) :
  data !! "LR" = Some lr ->
  data !! "HR" = Some hr ->
  feed_data data true s
    = (Ok tt,
       {| self := set_var_ref (Some (To (device (self s)) (default hr (data !! "ref"))))
                    (set_var_H (Some (To (device (self s)) hr))
                       (set_var_L (Some (To (device (self s)) lr)) (self s)));
          world := world s |}).
Proof.
  intros HL HH. unfold feed_data, getitem. cbn. rewrite HL. cbn. rewrite HH. cbn.
  destruct (data !! "ref") as [r|] eqn:Hr.
  - rewrite bool_decide_eq_true_2 by eauto. cbn. reflexivity.
  - rewrite bool_decide_eq_false_2 by (intros [? ?]; discriminate). reflexivity.
Qed.

Lemma constructed_view_self (define_F : Opt.config -> bool -> network) (opt : Opt.config)
    (t : Opt.train_opt) (nG nD : network) (rG : nat) (lr hr ref : tensor) :
  Opt.is_train opt = true -> valid t = true ->
  let m := trained_self define_F opt t nG nD rG in
  set_var_ref (Some (To (device m) ref))
    (set_var_H (Some (To (device m) hr)) (set_var_L (Some (To (device m) lr)) m))
  = self_of (constructed_view define_F opt t nG nD rG lr hr ref).
Proof.
  intros Htr Hv m. subst m.
  unfold valid, criterion_ok, trained_self, constructed_view, self_of, configured,
    criterion_of in *.
  destruct t;
    cbn [Opt.pixel_weight Opt.pixel_criterion Opt.feature_weight Opt.feature_criterion
         Opt.gan_type Opt.gan_weight Opt.D_update_ratio Opt.D_init_iters Opt.gp_weigth
         Opt.weight_decay_G Opt.lr_G Opt.beta1_G Opt.weight_decay_D Opt.lr_D Opt.beta1_D
         Opt.lr_scheme Opt.lr_steps Opt.lr_gamma];
    cbn [Opt.pixel_weight Opt.pixel_criterion
    Opt.feature_weight Opt.feature_criterion Opt.lr_scheme] in Hv.
  rewrite Htr. unfold BaseModel_init.
  cbn [device t_opt t_device t_schedulers t_optimizers t_netG t_netD t_pix t_fea t_gan
       t_gan_w t_ratio t_init t_gp t_rG t_rD t_log t_L t_H t_ref t_fake t_train].
  destruct (Qpositive pixel_weight), (String.eqb pixel_criterion "l1"),
    (String.eqb pixel_criterion "l2"), (Qpositive feature_weight),
    (String.eqb feature_criterion "l1"), (String.eqb feature_criterion "l2"),
    (String.eqb gan_type "wgan-gp"); try discriminate Hv; reflexivity.
Qed.

Section FromConstructor.

Variable load_state_dict : list (string * ptensor) -> bool -> module -> result unit * weights.
Variable define_G : Opt.config -> network.
Variable define_D : Opt.config -> network.
Variable define_F : Opt.config -> bool -> network.

(** X6. A model constructed in training mode, in a world where gradients are
    enabled, with a generator and a discriminator that have parameters
    requiring gradients, and fed a batch of plain data holding "LR" and "HR",
    is in a well-formed training state with an empty log: every call of
    [optimize_parameters] on it returns. *)
Theorem constructed_model_trains (opt : Opt.config) (w : World) (s : state)
    (data : gmap string tensor) (lr hr : tensor) :
  SRGANModel_init load_state_dict define_G define_D define_F opt w = (Ok tt, s) ->
  Opt.is_train opt = true ->
  grad_enabled w = true ->
  trainable (inner (define_G opt)) = true ->
  trainable (inner (define_D opt)) = true ->
  data !! "LR" = Some lr -> data !! "HR" = Some hr ->
  leaf lr -> leaf hr -> leaf (default hr (data !! "ref")) ->
  exists v w',
    feed_data data true s = (Ok tt, state_of v w')
    /\ wf v w' /\ t_log v = []
    /\ forall step, exists s', optimize_parameters step (state_of v w') = (Ok tt, s').
Proof.
  intros H Htr Hge HtG HtD HL HH Hlr Hhr Href.
  apply SRGANModel_init_networks in H as (t & nG & logs & Ht & HpG & H).
  rewrite Htr in H. destruct H as (nD & Hv & HpD & ->).
  set (w' := set_logged logs
               (set_heap (heap w ++ [new_optimizer_G t nG; new_optimizer_D t nD]) w)).
  set (v := constructed_view define_F opt t nG nD (length (heap w)) lr hr
              (default hr (data !! "ref"))).
  assert (heap w' = (heap w ++ [new_optimizer_G t nG; new_optimizer_D t nD])%list) as Hheap
    by (by destruct w).
  assert (wf v w') as Hwf.
  { split.
    - exact Ht.
    - cbn [v constructed_view t_ratio]. unfold or_default.
      destruct (Opt.D_update_ratio t) as [x|]; [|done].
      destruct (x =? 0) eqn:E; [done|]. by apply Z.eqb_neq.
    - unfold wgan_gp. cbn [v constructed_view t_train t_gp]. intros ->. by eexists.
    - cbn [v constructed_view t_rG t_rD]. lia.
    - exists (new_optimizer_G t nG). split; [|reflexivity].
      cbn [v constructed_view t_rG]. rewrite Hheap.
      by rewrite lookup_app_r, Nat.sub_diag by lia.
    - exists (new_optimizer_D t nD). split; [|reflexivity].
      cbn [v constructed_view t_rD]. rewrite Hheap. rewrite lookup_app_r by lia.
      by replace (S (length (heap w)) - length (heap w))%nat with 1%nat by lia.
    - cbn [v constructed_view t_netG]. unfold trainable in *. by rewrite HpG.
    - cbn [v constructed_view t_netD]. unfold trainable in *. by rewrite HpD.
    - subst w'. by destruct w.
    - intros n. cbn [v constructed_view t_L reaches]. apply Hlr.
    - intros n. cbn [v constructed_view t_H reaches]. apply Hhr.
    - intros n. cbn [v constructed_view t_ref reaches]. apply Href. }
  exists v, w'. split.
  { rewrite (feed_data_run data _ lr hr HL HH). cbn [self world].
    unfold state_of. unfold v.
    by rewrite <- (constructed_view_self define_F opt t nG nD (length (heap w)) lr hr
                    (default hr (data !! "ref")) Htr Hv). }
  split; [exact Hwf|]. split; [reflexivity|].
  intros step. eexists. apply (optimize_parameters_run v w' step Hwf).
Qed.

End FromConstructor.

(** ** Pretrained weights and inference *)

Section PretrainedWeights.

Variable load_state_dict : list (string * ptensor) -> bool -> module -> result unit * weights.

(** X16. [load] reads no file when no pretrained generator is configured
    and, for the discriminator, when none is configured or the
    configuration is not for training (the path is then ignored).  With a
    pretrained generator whose file exists, it logs the loading and hands
    the file, strictly, to [load_state_dict] of the generator, which keeps
    the weights that call leaves; [load] returns or raises as that call did
    (the discriminator being out of the picture as above). *)
Theorem load_pretrained (s : state) :
  let paths := Opt.path (opt (self s)) in
  (Opt.pretrain_model_G paths = None ->
   Opt.is_train (opt (self s)) = false \/ Opt.pretrain_model_D paths = None ->
   load load_state_dict s = (Ok tt, s))
  /\ (forall p sd net,
        Opt.pretrain_model_G paths = Some p ->
        Opt.is_train (opt (self s)) = false \/ Opt.pretrain_model_D paths = None ->
        netG (self s) = Some net ->
        files (world s) !! p = Some sd ->
        let r := load_state_dict sd true (inner net) in
        load load_state_dict s
        = (match r.1 with Ok _ => Ok tt | Raise e => Raise e end,
           {| self := set_netG (Some (map_inner (with_weights r.2) net)) (self s);
              world := set_logged
                         (logged (world s)
                          ++ [("INFO", "Loading pretrained model for G [" +:+ p +:+ "] ...")])
                         (world s) |})).
Proof.
  intros paths. subst paths. split.
  - intros HG HD. unfold load. rewrite bind_get_self. cbv beta zeta. rewrite HG.
    rewrite bind_ret_run. cbv beta. rewrite bind_get_self.
    destruct HD as [-> | ->]; [reflexivity|].
    by destruct (Opt.is_train (opt (self s))).
  - intros p sd net HG HD Hn Hf r. subst r. unfold load. rewrite bind_get_self.
    cbv beta zeta. rewrite HG. rewrite bind_run, bind_run.
    unfold logger_info at 1, modify_world at 1. cbv beta iota.
    rewrite bind_run. unfold attr at 1. cbn [self]. rewrite Hn. cbv beta iota.
    erewrite (load_network_run load_state_dict p G true _ sd net);
      [ | by destruct s as [? []] | exact Hn ].
    cbn [self world set_net].
    destruct (load_state_dict sd true (inner net)).1; [|reflexivity].
    rewrite bind_get_self. cbn [self].
    replace (opt (set_netG (Some (map_inner (with_weights
               (load_state_dict sd true (inner net)).2) net)) (self s)))
      with (opt (self s)) by (by destruct s as [[] ?]).
    destruct HD as [-> | ->]; [reflexivity|].
    by destruct (Opt.is_train (opt (self s))).
Qed.

End PretrainedWeights.

Lemma test_run (s : state) (net : network) (x : tensor) :
  netG (self s) = Some net ->
  var_L (self s) = Some x ->
  test s = (Ok tt,
            {| self := set_fake_H (Some (Forward G (m_weights (inner net)) false false x))
                         (set_netG (Some (net_train net)) (self s));
               world := world s |}).
Proof.
  destruct s as [m w]; destruct m, w; simpl. intros -> ->.
  unfold test, no_grad, call. mrun. reflexivity.
Qed.

Section Inference.

Variable load_state_dict : list (string * ptensor) -> bool -> module -> result unit * weights.
Variable define_G : Opt.config -> network.
Variable define_D : Opt.config -> network.
Variable define_F : Opt.config -> bool -> network.

(** X17. On a model constructed with [is_train] false, feeding a non-empty
    low-resolution batch without [need_HR], then [test()], then
    [get_current_visuals(need_HR=False)] returns the first low-resolution
    image and the first image of the generator's output, computed in
    evaluation mode without gradient tracking.  The world is as after the
    constructor, and asking for the high-resolution image as well raises
    AttributeError on [var_H]. *)
Theorem inference_pipeline (opt : Opt.config) (w : World) (s : state)
    (data : gmap string tensor) (lr : tensor) :
  SRGANModel_init load_state_dict define_G define_D define_F opt w = (Ok tt, s) ->
  Opt.is_train opt = false ->
  data !! "LR" = Some lr ->
  size0 lr ≠ 0%nat ->
  exists nG s',
    netG (self s) = Some nG
    /\ (feed_data data false ;; test) s = (Ok tt, s')
    /\ world s' = world s
    /\ get_current_visuals false s'
       = (Ok [("LR", FirstImage (Detach (To (device (self s)) lr)));
              ("SR", FirstImage (Detach (Forward G (m_weights (inner nG)) false false
                                           (To (device (self s)) lr))))], s')
    /\ get_current_visuals true s' = (Raise (AttributeError "var_H"), s').
Proof.
  intros H Htr HL Hl. apply SRGANModel_init_inv in H as (t & nG & logs & Ht & H).
  rewrite Htr in H. subst s. apply Nat.eqb_neq in Hl.
  exists nG. eexists. split; [reflexivity|]. split.
  { rewrite bind_run. unfold feed_data, getitem. rewrite bind_get_self, HL.
    rewrite bind_ret_run. cbv beta. rewrite bind_run. unfold modify_self at 1.
    cbv beta iota delta [mret M_ret]. cbn [self world].
    match goal with |- context [test ?s] =>
      rewrite (test_run s nG (To (device (BaseModel_init opt)) lr) eq_refl eq_refl) end.
    reflexivity. }
  cbn [world self]. split; [reflexivity|].
  unfold get_current_visuals, first_image. split.
  - rewrite bind_run. run_attr. cbv beta iota.
    cbn [size0]. rewrite Hl. rewrite bind_ret_run. cbv beta.
    rewrite bind_run. run_attr. cbv beta iota. cbn [size0]. rewrite Hl. reflexivity.
  - rewrite bind_run. run_attr. cbv beta iota.
    cbn [size0]. rewrite Hl. rewrite bind_ret_run. cbv beta.
    rewrite bind_run. run_attr. cbv beta iota. cbn [size0]. rewrite Hl.
    rewrite bind_ret_run. cbv beta. rewrite bind_run. by run_attr.
Qed.

End Inference.

(** ** The further properties on the example objects *)

Lemma new_test_returns :
  SRGANModel_init Example.load_state_dict Example.define_G Example.define_D Example.define_F
    Example.opt_test Example.world0
  = (Ok tt, (Example.new Example.opt_test).2).
Proof. vm_compute. reflexivity. Qed.

Lemma new_train_returns :
  SRGANModel_init Example.load_state_dict Example.define_G Example.define_D Example.define_F
    Example.opt_train Example.world0
  = (Ok tt, (Example.new Example.opt_train).2).
Proof. vm_compute. reflexivity. Qed.

Lemma feed_data_partial_witness :
  feed_data Example.batch_lr true Example.tested0
  = (Raise (KeyError "HR"), Example.tested0)
  /\ feed_data (∅ : gmap string tensor) false Example.tested0
     = (Raise (KeyError "LR"), Example.tested0).
Proof.
  split.
  - destruct (feed_data_partial Example.batch_lr Example.tested0) as [_ H].
    destruct (H (Data "lr" 4) eq_refl) as [H1 _]. rewrite (H1 eq_refl).
    vm_compute. reflexivity.
  - destruct (feed_data_partial ∅ Example.tested0) as [H _]. exact (H eq_refl false).
Defined.

Lemma load_network_outcomes_witness :
  let run path := load_network Example.load_state_dict path G true Example.pre_load in
  let loaded := Some (Loaded "state_dict" true (Initial "G")) in
  run "pretrained/missing.pth"
  = (Raise (FileNotFoundError "pretrained/missing.pth"), Example.pre_load)
  /\ ((run "pretrained/G.pth").1 = Ok tt
      /\ (fun n => m_weights (inner n)) <$> netG (self (run "pretrained/G.pth").2) = loaded)
  /\ ((run "pretrained/other.pth").1 = Raise (RuntimeError "Error(s) in loading state_dict")
      /\ (fun n => m_weights (inner n)) <$> netG (self (run "pretrained/other.pth").2)
         = loaded).
Proof.
  intros run loaded. subst run loaded. cbv beta. split; [|split].
  - destruct (load_network_outcomes Example.load_state_dict "pretrained/missing.pth" G true
                Example.pre_load) as [H _].
    apply H. vm_compute. reflexivity.
  - destruct (load_network_outcomes Example.load_state_dict "pretrained/G.pth" G true
                Example.pre_load) as [_ H].
    rewrite (H Example.file_G (Example.define_G Example.opt_pretrained));
      [ | vm_compute; reflexivity | vm_compute; reflexivity ].
    split; vm_compute; reflexivity.
  - destruct (load_network_outcomes Example.load_state_dict "pretrained/other.pth" G true
                Example.pre_load) as [_ H].
    rewrite (H Example.file_other (Example.define_G Example.opt_pretrained));
      [ | vm_compute; reflexivity | vm_compute; reflexivity ].
    split; vm_compute; reflexivity.
Defined.

Lemma saved_network_loads_back_witness :
  let run :=
    (save_network (DataParallel (inner (Example.define_G Example.opt_test))) "G" 5000 ;;
     load_network Example.load_state_dict
       (os_path_join (Opt.models (Opt.path (opt (self Example.tested0))))
                     (pretty 5000 +:+ "_" +:+ "G" +:+ ".pth")) G true) Example.tested0 in
  run.1 = Ok tt
  /\ (fun n => m_weights (inner n)) <$> netG (self run.2)
     = Some (Loaded "state_dict" true (Initial "G")).
Proof.
  intros run. subst run.
  assert (get_net G (self Example.tested0) = Some (Example.define_G Example.opt_test))
    as Hn by (vm_compute; reflexivity).
  pose proof (saved_network_loads_back Example.load_state_dict
                (DataParallel (inner (Example.define_G Example.opt_test)))
                (Example.define_G Example.opt_test) "G" 5000 G true Example.tested0 Hn) as H.
  cbv zeta in H. destruct H as [H _]. rewrite H.
  split; vm_compute; reflexivity.
Defined.

Lemma training_state_round_trip_witness :
  let s := Example.trained0 in
  let s' := (optimize_parameters 2 Example.trained0).2 in
  exists rs s'',
    (save_training_state 7 5000 s).1
    = Ok (os_path_join (Opt.training_state (Opt.path (opt (self s)))) (pretty 5000 +:+ ".state"),
          rs)
    /\ resume_training rs s' = (Ok tt, s'')
    /\ (fun o => os_steps (o_state o)) <$> heap (world s') = [1%nat; 1%nat]
    /\ o_state <$> heap (world s'') !! 0%nat = o_state <$> heap (world s) !! 0%nat
    /\ o_state <$> heap (world s'') !! 1%nat = o_state <$> heap (world s) !! 1%nat
    /\ netG (self s'') = netG (self s').
Proof.
  intros s s'.
  assert (optimizers (self s) = [0%nat; 1%nat]) as Ho by (vm_compute; reflexivity).
  destruct (training_state_round_trip 7 5000 s s') as (rs & s'' & H1 & _ & _ & H2 & _ & _ & H3 & H4 & _).
  - rewrite Ho. apply (bool_decide_unpack _). vm_compute. reflexivity.
  - rewrite Ho. repeat constructor; eexists; vm_compute; reflexivity.
  - rewrite Ho. repeat constructor; eexists; vm_compute; reflexivity.
  - vm_compute. reflexivity.
  - vm_compute. reflexivity.
  - exists rs, s''. split; [by rewrite H1|]. split; [exact H2|].
    split; [vm_compute; reflexivity|].
    split; [apply (H3 0%nat); rewrite Ho; repeat constructor|].
    split; [apply (H3 1%nat); rewrite Ho; repeat constructor|]. exact H4.
Defined.

Lemma get_current_visuals_content_witness :
  let s := (optimize_parameters 2 Example.trained0).2 in
  get_current_visuals true s
  = (Ok [("LR", FirstImage (Detach (To cpu (Data "lr" 4))));
         ("SR", FirstImage (Detach (Forward G (Initial "G") true true
                                      (To cpu (Data "lr" 4)))));
         ("HR", FirstImage (Detach (To cpu (Data "hr" 4))))], s).
Proof.
  intros s.
  apply (get_current_visuals_content true s
           (To cpu (Data "lr" 4))
           (Forward G (Initial "G") true true (To cpu (Data "lr" 4)))
           (To cpu (Data "hr" 4)));
    [vm_compute; reflexivity | vm_compute; reflexivity | vm_compute; reflexivity
    | cbn; lia | cbn; lia | cbn; lia].
Defined.

Lemma get_current_visuals_errors_witness :
  get_current_visuals false Example.tested0
  = (Raise (AttributeError "fake_H"), Example.tested0).
Proof.
  destruct (get_current_visuals_errors false Example.tested0 (To cpu (Data "lr" 4)))
    as (_ & H & _); [vm_compute; reflexivity|].
  apply H; [cbn; lia | vm_compute; reflexivity].
Defined.

Lemma update_ratio_never_zero_witness :
  D_update_ratio (self (Example.new Example.opt_ratio0).2) = Some 1
  /\ (generator_turn 3 (Example.new Example.opt_ratio0).2).1 = Ok true.
Proof.
  assert (SRGANModel_init Example.load_state_dict Example.define_G Example.define_D Example.define_F
            Example.opt_ratio0 Example.world0
          = (Ok tt, (Example.new Example.opt_ratio0).2)) as E by (vm_compute; reflexivity).
  destruct (update_ratio_never_zero _ _ _ _ _ _ _ E eq_refl)
    as (t & ratio & init & Ht & Hr & Hi & -> & -> & _ & Hturn).
  injection Ht as <-. split; [exact Hr|]. rewrite Hturn. reflexivity.
Defined.

Lemma test_mode_model_cannot_train_witness :
  optimize_parameters 1 (Example.new Example.opt_test).2
  = (Raise (AttributeError "optimizer_G"), (Example.new Example.opt_test).2).
Proof.
  destruct (test_mode_model_cannot_train _ _ _ _ _ _ _ new_test_returns eq_refl)
    as (_ & _ & _ & _ & H & _).
  apply H.
Defined.

Lemma learning_rate_in_test_mode_witness :
  get_current_learning_rate Example.scheduler_get_lr (Example.new Example.opt_test).2
  = (Raise (IndexError "list index out of range"), (Example.new Example.opt_test).2).
Proof.
  apply (learning_rate_in_test_mode _ _ _ _ Example.scheduler_step Example.scheduler_get_lr
           _ _ _ new_test_returns eq_refl).
Defined.

Lemma learning_rate_is_the_generators_witness :
  (get_current_learning_rate Example.scheduler_get_lr (Example.new Example.opt_train).2).1
  = Ok (1 # 10000)%Q.
Proof.
  destruct (learning_rate_is_the_generators _ _ _ _ Example.scheduler_get_lr
              _ _ _ new_train_returns eq_refl)
    as (sc & rG & oG & Hsc & HrG & _ & HoG & _ & H).
  rewrite H. vm_compute in HrG. injection HrG as <-.
  vm_compute in HoG. injection HoG as <-. reflexivity.
Defined.

Lemma optimize_parameters_needs_a_batch_witness :
  (optimize_parameters 1 (Example.new Example.opt_train).2).1
  = Raise (AttributeError "var_L").
Proof.
  destruct (optimize_parameters_needs_a_batch _ _ _ _ _ _ _ 1 new_train_returns eq_refl)
    as (s' & H & _).
  by rewrite H.
Defined.

Lemma constructor_fails_early_witness :
  (Example.new Example.opt_pretrained).1 = Raise (FileNotFoundError "pretrained/G.pth").
Proof.
  destruct (constructor_fails_early Example.load_state_dict Example.define_G Example.define_D Example.define_F
              Example.opt_pretrained Example.world0) as [_ H].
  destruct (H "pretrained/G.pth" ltac:(by eexists) eq_refl eq_refl) as (s' & E & _).
  unfold Example.new. by rewrite E.
Defined.

Lemma constructed_model_trains_witness :
  exists v w',
    Example.trained0 = state_of v w' /\ wf v w'
    /\ forall step, exists s', optimize_parameters step Example.trained0 = (Ok tt, s').
Proof.
  destruct (constructed_model_trains _ _ _ _ _ _ _ Example.batch (Data "lr" 4) (Data "hr" 4)
              new_train_returns eq_refl eq_refl eq_refl eq_refl eq_refl eq_refl
              (fun n => eq_refl) (fun n => eq_refl) (fun n => eq_refl))
    as (v & w' & Hfeed & Hwf & _ & Hrun).
  assert (Example.trained0 = state_of v w') as E.
  { unfold Example.trained0, Example.then_, Example.new.
    rewrite new_train_returns. cbv beta iota. by rewrite Hfeed. }
  exists v, w'. split; [exact E|]. split; [exact Hwf|]. by rewrite E.
Defined.

Lemma training_loop_runs_witness :
  exists s' oG' oD',
    train [1; 2; 3; 4] (state_of Example.view0 Example.world1) = (Ok tt, s')
    /\ heap (world s') !! 0%nat = Some oG' /\ heap (world s') !! 1%nat = Some oD'
    /\ os_steps (o_state oG') = 2%nat /\ os_steps (o_state oD') = 4%nat.
Proof.
  assert (wf Example.view0 Example.world1) as Hwf by example_wf.
  destruct (training_loop_runs Example.view0 Example.world1 [1; 2; 3; 4] _ _ Hwf
              eq_refl eq_refl) as (v' & w' & oG' & oD' & H1 & _ & H2 & H3 & H4 & H5).
  exists (state_of v' w'), oG', oD'. by repeat split.
Defined.

Lemma feature_network_is_frozen_witness :
  let s := state_of Example.view0 Example.world1 in
  (fun n => m_weights (inner n)) <$> netF (self (optimize_parameters 2 s).2)
  = Some (Initial "F")
  /\ (fun n => m_grad (inner n)) <$> netF (self (optimize_parameters 3 s).2)
     = Some NoGrad.
Proof.
  assert (wf Example.view0 Example.world1) as Hwf by example_wf.
  split.
  - destruct (feature_network_is_frozen Example.view0 Example.world1 2 Hwf) as (_ & H & _).
    rewrite H. reflexivity.
  - destruct (feature_network_is_frozen Example.view0 Example.world1 3 Hwf) as (_ & _ & H).
    rewrite H. reflexivity.
Defined.

Lemma load_pretrained_witness :
  let run := load Example.load_state_dict Example.pre_load in
  load Example.load_state_dict Example.tested0 = (Ok tt, Example.tested0)
  /\ run.1 = Ok tt
  /\ (fun n => m_weights (inner n)) <$> netG (self run.2)
     = Some (Loaded "state_dict" true (Initial "G"))
  /\ logged (world run.2)
     = [("INFO", "Loading pretrained model for G [pretrained/G.pth] ...")].
Proof.
  intros run. subst run. split.
  - destruct (load_pretrained Example.load_state_dict Example.tested0) as [H _].
    apply H; [reflexivity | left; reflexivity].
  - destruct (load_pretrained Example.load_state_dict Example.pre_load) as [_ H].
    rewrite (H "pretrained/G.pth" Example.file_G (Example.define_G Example.opt_pretrained));
      [ | reflexivity | left; reflexivity | reflexivity | vm_compute; reflexivity ].
    repeat split; vm_compute; reflexivity.
Defined.

Lemma inference_pipeline_witness :
  exists s',
    (feed_data Example.batch_lr false ;; test) (Example.new Example.opt_test).2 = (Ok tt, s')
    /\ get_current_visuals false s'
       = (Ok [("LR", FirstImage (Detach (To cpu (Data "lr" 4))));
              ("SR", FirstImage (Detach (Forward G (Initial "G") false false
                                           (To cpu (Data "lr" 4)))))], s').
Proof.
  destruct (inference_pipeline _ _ _ _ _ _ _ Example.batch_lr (Data "lr" 4)
              new_test_returns eq_refl eq_refl ltac:(cbn; lia))
    as (nG & s' & HnG & Hrun & _ & Hvis & _).
  exists s'. split; [exact Hrun|]. rewrite Hvis.
  vm_compute in HnG. injection HnG as <-. reflexivity.
Defined.
